(** * ResponsesAPI: file search over a vector store, and its visualizer

    A shallow embedding of [search_api_implementation.py] (class
    [OpenAIFileSearch] and the [search] action of [main]) and of
    [create_visualization_data] from [vector_store_visualizer.py],
    followed by the properties of the upload statistics, of the retrieval
    metrics, of the error handling and of the plotting table.

    Conventions of the embedding:
    - a Python call is a computation of type [io A]: the lines it prints
      on standard output, and either the value it returns or the
      exception it raises.  Only subclasses of [Exception] are modelled,
      so [except Exception] catches every exception of the model;
    - the remote service and the file system are fields of a [Client]
      record: functions from the arguments of the call to its outcome;
    - Python's [/] on numbers is modelled in exact rational arithmetic
      ([Q], compared with [==]); it raises [ZeroDivisionError] on a zero
      divisor as in Python;
    - [str] values are Rocq strings, [len] and slices count characters
      of that string. *)

From Stdlib Require Import List String Ascii Bool Arith ZArith QArith Lia Lqa.
From Stdlib Require Import Permutation DecimalString.
Import ListNotations.

Close Scope Q_scope.
Set Implicit Arguments.

(* ===================================================================== *)
(** ** The Python runtime *)
(* ===================================================================== *)

Module Py.

(** Exception classes the modelled code can meet. [APIError] stands for
    whatever the SDK raises ([openai.OpenAIError] and its subclasses). *)
Inductive exn_class :=
| ZeroDivisionError | IndexError | AttributeError | TypeError
| ValueError | KeyError | OSError | APIError.

(** An exception object: its class and [str(e)]. *)
Record exn := Exn { exn_type : exn_class; exn_str : string }.

Inductive outcome (A : Type) :=
| Return (a : A)
| Raise (e : exn).
Arguments Return {A} a.
Arguments Raise {A} e.

(** Python values that are printed, stored in a table cell or kept as
    metadata; [VNaN] is the float [nan]. *)
Inductive value :=
| VNone
| VBool (b : bool)
| VInt (z : Z)
| VNum (q : Q)
| VNaN
| VStr (s : string).

(** One printed line: the pieces of an f-string, or the arguments of
    [print]; [Fmt v] is [str(v)], left symbolic, and so are the texts of
    a list of strings and of a dictionary. *)
Inductive piece :=
| Lit (s : string)
| Fmt (v : value)
| FmtList (l : list string)
| FmtDict (d : list (string * value)).

Definition line := list piece.

(** Output and outcome of a call. *)
Definition io (A : Type) := (list line * outcome A)%type.

Definition ret {A} (a : A) : io A := ([], Return a).
Definition raise {A} (e : exn) : io A := ([], Raise e).
Definition lift {A} (r : outcome A) : io A := ([], r).
Definition print (l : line) : io unit := ([l], Return tt).

Definition bind {A B} (m : io A) (f : A -> io B) : io B :=
  match m with
  | (out, Return a) => let (out', r) := f a in (out ++ out', r)
  | (out, Raise e) => (out, Raise e)
  end.

(** [try: body / except Exception as e: handler e] *)
Definition try_except {A} (body : io A) (handler : exn -> io A) : io A :=
  match body with
  | (out, Return a) => (out, Return a)
  | (out, Raise e) => let (out', r) := handler e in (out ++ out', r)
  end.

Definition stdout {A} (m : io A) : list line := fst m.
Definition result {A} (m : io A) : outcome A := snd m.

(** Exception-only computations (no output). *)
Definition obind {A B} (m : outcome A) (f : A -> outcome B) : outcome B :=
  match m with
  | Return a => f a
  | Raise e => Raise e
  end.

(** An attribute of an object of the SDK: absent ([hasattr] is false),
    present with value [None], or present with a value. *)
Inductive attr (A : Type) :=
| NoAttr
| IsNone
| Has (a : A).
Arguments NoAttr {A}.
Arguments IsNone {A}.
Arguments Has {A} a.

(** [obj.name] *)
Definition getattr {A} (name : string) (a : attr A) : outcome (option A) :=
  match a with
  | NoAttr => Raise (Exn AttributeError ("object has no attribute '" ++ name ++ "'"))
  | IsNone => Return None
  | Has v => Return (Some v)
  end.

(** [l[i]] for [i >= 0] *)
Definition getitem {A} (l : list A) (i : nat) : outcome A :=
  match nth_error l i with
  | Some a => Return a
  | None => Raise (Exn IndexError "list index out of range")
  end.

(** [x[i]] where [x] may be [None] *)
Definition subscript {A} (x : option (list A)) (i : nat) : outcome A :=
  match x with
  | Some l => getitem l i
  | None => Raise (Exn TypeError "'NoneType' object is not subscriptable")
  end.

(** [l[:k]]: the first [k] items, or all but the last [-k] when [k < 0]. *)
Definition slice_to {A} (k : Z) (l : list A) : list A :=
  if (0 <=? k)%Z then firstn (Z.to_nat k) l
  else firstn (List.length l - Z.to_nat (- k)) l.

(** [x in l] on lists of strings *)
Fixpoint contains (x : string) (l : list string) : bool :=
  match l with
  | [] => false
  | y :: l' => if String.eqb y x then true else contains x l'
  end.

(** [l.index(x)]: position of the first item equal to [x]. *)
Fixpoint index (x : string) (l : list string) : outcome nat :=
  match l with
  | [] => Raise (Exn ValueError "x is not in list")
  | y :: l' =>
      if String.eqb y x then Return 0
      else obind (index x l') (fun i => Return (S i))
  end.

Definition of_nat (n : nat) : Q := inject_Z (Z.of_nat n).

(** [a / b] *)
Definition div (a b : Q) : outcome Q :=
  if Qeq_bool b 0%Q then Raise (Exn ZeroDivisionError "division by zero")
  else Return (a / b)%Q.

(** [sum(l)] *)
Definition sum (l : list Q) : Q := fold_left Qplus l 0%Q.

(** [str(k)] for an [int] *)
Definition str_of_int (k : Z) : string := NilZero.string_of_int (Z.to_int k).

(** [c.lower()] on one character (ASCII letters). *)
Definition lower_ascii (c : ascii) : ascii :=
  let n := nat_of_ascii c in
  if (65 <=? n) && (n <=? 90) then ascii_of_nat (n + 32) else c.

(** [s.lower()] *)
Fixpoint lower (s : string) : string :=
  match s with
  | EmptyString => EmptyString
  | String c s' => String (lower_ascii c) (lower s')
  end.

(** [s.endswith(suffix)] *)
Definition endswith (s suffix : string) : bool :=
  let n := String.length s in
  let m := String.length suffix in
  (m <=? n) && String.eqb (substring (n - m) m s) suffix.

(** [s.replace(old, new)] for a non-empty [old]: occurrences are found
    left to right and do not overlap; [skip] counts the characters of a
    matched occurrence still to be dropped. *)
Fixpoint replace_from (old new : string) (skip : nat) (s : string) : string :=
  match s with
  | EmptyString => EmptyString
  | String c s' =>
      match skip with
      | S n => replace_from old new n s'
      | O =>
          if prefix old s
          then (new ++ replace_from old new (String.length old - 1) s')%string
          else String c (replace_from old new 0 s')
      end
  end.

Definition replace (old new s : string) : string := replace_from old new 0 s.

(** [s[:n]] on a string, [n >= 0] *)
Definition str_slice_to (n : nat) (s : string) : string := substring 0 n s.

(** [os.path.basename(p)]: what follows the last ['/']. *)
Fixpoint basename_from (acc : string) (p : string) : string :=
  match p with
  | EmptyString => acc
  | String c p' =>
      if Ascii.eqb c "/" then basename_from p' p' else basename_from acc p'
  end.

Definition basename (p : string) : string := basename_from p p.

(** [os.path.join(a, b)] *)
Definition path_join (a b : string) : string :=
  if prefix "/" b then b
  else if String.eqb a "" || endswith a "/" then (a ++ b)%string
  else (a ++ "/" ++ b)%string.

(** [d.get(key)] on a dictionary kept as the list of its items. *)
Fixpoint dict_get {V} (key : string) (d : list (string * V)) : option V :=
  match d with
  | [] => None
  | (k, v) :: d' => if String.eqb k key then Some v else dict_get key d'
  end.

End Py.

Declare Scope py_scope.
Delimit Scope py_scope with py.
Notation "x <- m ;; k" := (Py.bind m (fun x => k))
  (at level 61, m at next level, right associativity) : py_scope.
Notation "m ;;; k" := (Py.bind m (fun _ => k))
  (at level 61, right associativity) : py_scope.
Notation "x <~ m ;; k" := (Py.obind m (fun x => k))
  (at level 61, m at next level, right associativity) : py_scope.

Open Scope py_scope.

(* ===================================================================== *)
(** ** The objects of the SDK and of the file system *)
(* ===================================================================== *)

Module Api.
Import Py.

Record vector_store := {
  vs_id : string;
  vs_name : string;
  vs_created_at : Z;
  vs_file_counts_completed : Z
}.

Record file_object := { file_id : string }.

(** A file citation of an answer. *)
Record annotation := { ann_filename : string }.

Record content_part := {
  part_annotations : attr (list annotation);
  part_text : string
}.

(** An item of [response.output]; which attributes it has depends on
    the kind of the item. *)
Record output_item := {
  item_content : attr (list content_part);
  item_annotations : attr (list annotation)
}.

Record response := { output : list output_item }.

Record file_search_tool := {
  tool_type : string;
  vector_store_ids : list string;
  max_num_results : Z
}.

Record request := {
  input : string;
  model : string;
  tools : list file_search_tool;
  tool_choice : option string
}.

Record search_content := { sc_text : string }.

Record search_result := {
  sr_filename : string;
  sr_score : Q;
  sr_content : list search_content
}.

Record search_page := { data : list search_result }.

(** What [self.client] and the operating system answer.  The service may
    answer two equal requests differently, so [responses_create] takes
    first the number that tells the calls of one run apart: the position
    of the task in a pool, [0] where a method makes a single call.
    [pdf_pages] is [open] followed by [PyPDF2.PdfReader]: the pages of
    the file, each with the outcome of its [extract_text()]. *)
Record Client := {
  vector_stores_create : string -> outcome vector_store;
  open_rb : string -> outcome string;
  files_create : string -> string -> outcome file_object;
  vector_stores_files_create : string -> string -> outcome unit;
  vector_stores_search : string -> string -> outcome search_page;
  responses_create : nat -> request -> outcome response;
  listdir : string -> outcome (list string);
  pdf_pages : string -> outcome (list (outcome (option string)))
}.

End Api.

(* ===================================================================== *)
(** ** search_api_implementation.py *)
(* ===================================================================== *)

Module FileSearch.
Import Py Api.

Definition nl : string := String (ascii_of_nat 10) EmptyString.

(** [create_vector_store]: the details of the new store, [{}] on error. *)
Definition create_vector_store (self : Client) (store_name : string)
  : io (list (string * value)) :=
  try_except
    (vector_store <- lift (vector_stores_create self store_name) ;;
     let details :=
       [("id"%string, VStr (vs_id vector_store));
        ("name"%string, VStr (vs_name vector_store));
        ("created_at"%string, VInt (vs_created_at vector_store));
        ("file_count"%string, VInt (vs_file_counts_completed vector_store))] in
     print [Lit "Vector store created:"; FmtDict details] ;;;
     ret details)
    (fun e =>
       print [Lit ("Error creating vector store: " ++ exn_str e)] ;;;
       ret []).

(** The dictionary returned for one file: keys [file], [status] and,
    on failure, [error]. *)
Record upload_result := {
  file : string;
  status : string;
  error : option string
}.

Definition upload_single_pdf (self : Client) (file_path vector_store_id : string)
  : io upload_result :=
  let file_name := basename file_path in
  try_except
    (f <- lift (open_rb self file_path) ;;
     file_response <- lift (files_create self f "assistants") ;;
     attach_response <-
       lift (vector_stores_files_create self vector_store_id (file_id file_response)) ;;
     ret {| file := file_name; status := "success"; error := None |})
    (fun e =>
       print [Lit ("Error with " ++ file_name ++ ": " ++ exn_str e)] ;;;
       ret {| file := file_name; status := "failed"; error := Some (exn_str e) |}).

Record upload_stats := {
  total_files : nat;
  successful_uploads : nat;
  failed_uploads : nat;
  errors : list upload_result
}.

(** [[os.path.join(dir_pdfs, f) for f in entries if f.lower().endswith('.pdf')]] *)
Definition pdf_files_in (dir_pdfs : string) (entries : list string) : list string :=
  map (path_join dir_pdfs) (filter (fun f => endswith (lower f) ".pdf") entries).

(** The body of the loop over the completed futures. *)
Definition record_result (stats : upload_stats) (result : upload_result) : upload_stats :=
  if String.eqb (status result) "success"
  then {| total_files := total_files stats;
          successful_uploads := successful_uploads stats + 1;
          failed_uploads := failed_uploads stats;
          errors := errors stats |}
  else {| total_files := total_files stats;
          successful_uploads := successful_uploads stats;
          failed_uploads := failed_uploads stats + 1;
          errors := errors stats ++ [result] |}.

(** [concurrent.futures.as_completed(futures)]: the submitted futures in
    the order in which they complete; [completion] lists their positions
    in that order (a permutation of [0 .. n-1], chosen by the pool). *)
Definition as_completed {A} (completion : list nat) (futures : list A) : list A :=
  flat_map (fun i => match nth_error futures i with
                     | Some f => [f]
                     | None => []
                     end) completion.

(** [for future in ...: result = future.result(); ...]: [result()] gives
    back what the task returned or raises what it raised. *)
Fixpoint collect_results (futures : list (io upload_result)) (stats : upload_stats)
  : outcome upload_stats :=
  match futures with
  | [] => Return stats
  | future :: rest =>
      result <~ Py.result future ;;
      collect_results rest (record_result stats result)
  end.

(** [upload_pdf_files_to_vector_store].  The lines printed by the worker
    threads interleave freely and are not part of the modelled output. *)
Definition upload_pdf_files_to_vector_store
    (self : Client) (vector_store_id dir_pdfs : string) (completion : list nat)
  : io upload_stats :=
  entries <- lift (listdir self dir_pdfs) ;;
  let pdf_files := pdf_files_in dir_pdfs entries in
  let stats := {| total_files := List.length pdf_files;
                  successful_uploads := 0;
                  failed_uploads := 0;
                  errors := [] |} in
  print [Fmt (VInt (Z.of_nat (List.length pdf_files)));
         Lit " PDF files to process. Uploading in parallel..."] ;;;
  let futures :=
    map (fun file_path => upload_single_pdf self file_path vector_store_id) pdf_files in
  lift (collect_results (as_completed completion futures) stats).

(** [vector_search]: the page of results, [None] on error. *)
Definition vector_search (self : Client) (vector_store_id query : string)
  : io (option search_page) :=
  try_except
    (search_results <- lift (vector_stores_search self vector_store_id query) ;;
     ret (Some search_results))
    (fun e =>
       print [Lit ("Error searching vector store: " ++ exn_str e)] ;;;
       ret None).

(** The dictionary returned by [llm_integrated_search]: keys
    [files_used] and [response], or the key [error]. *)
Inductive llm_result :=
| LlmAnswer (files_used : list string) (response : string)
| LlmError (error : string).

(** [response.output[1].content[0]] *)
Definition answer_part (r : response) : outcome content_part :=
  item <~ getitem (output r) 1 ;;
  content <~ getattr "content" (item_content item) ;;
  subscript content 0.

(** [llm_integrated_search].  [list(set(...))] keeps one copy of each
    filename, in an order Python does not fix; [nodup] picks one. *)
Definition llm_integrated_search
    (self : Client) (vector_store_id query model : string) (max_results : Z)
  : io llm_result :=
  try_except
    (response <- lift (responses_create self 0
        {| input := query;
           model := model;
           tools := [{| tool_type := "file_search";
                        vector_store_ids := [vector_store_id];
                        max_num_results := max_results |}];
           tool_choice := None |}) ;;
     part <- lift (answer_part response) ;;
     annotations <- lift (getattr "annotations" (part_annotations part)) ;;
     annotations <- lift (match annotations with
                          | Some a => Return a
                          | None => Raise (Exn TypeError "'NoneType' object is not iterable")
                          end) ;;
     let retrieved_files := nodup string_dec (map ann_filename annotations) in
     ret (LlmAnswer retrieved_files (part_text part)))
    (fun e =>
       print [Lit ("Error with LLM integrated search: " ++ exn_str e)] ;;;
       ret (LlmError (exn_str e))).

(** The loop over the pages in [extract_text_from_pdf]: the text read so
    far, and the exception that stopped the loop, if any. *)
Fixpoint extract_pages (pages : list (outcome (option string))) (text : string)
  : string * option exn :=
  match pages with
  | [] => (text, None)
  | Raise e :: _ => (text, Some e)
  | Return page_text :: rest =>
      match page_text with
      | Some (String c t) => extract_pages rest (text ++ String c t)
      | _ => extract_pages rest text
      end
  end.

Definition extract_text_from_pdf (self : Client) (pdf_path : string) : io string :=
  match pdf_pages self pdf_path with
  | Raise e =>
      print [Lit ("Error reading " ++ pdf_path ++ ": " ++ exn_str e)] ;;; ret ""%string
  | Return pages =>
      match extract_pages pages "" with
      | (text, Some e) =>
          print [Lit ("Error reading " ++ pdf_path ++ ": " ++ exn_str e)] ;;; ret text
      | (text, None) => ret text
      end
  end.

Definition generate_questions (self : Client) (pdf_path : string) : io string :=
  text <- extract_text_from_pdf self pdf_path ;;
  let prompt :=
    ("Can you generate a question that can only be answered from this document?:"
       ++ nl ++ text ++ nl ++ nl)%string in
  response <- lift (responses_create self 0
     {| input := prompt; model := "gpt-4o"; tools := []; tool_choice := None |}) ;;
  item <- lift (getitem (output response) 0) ;;
  content <- lift (getattr "content" (item_content item)) ;;
  part <- lift (subscript content 0) ;;
  ret (part_text part).

(** A row built from [questions_dict]: keys [query] and [_id]. *)
Record row := { query : string; _id : string }.

(** [[{"query": query, "_id": filename.replace(".pdf", "")} for filename, query in questions_dict.items()]] *)
Definition rows_of (questions_dict : list (string * string)) : list row :=
  map (fun item => {| query := snd item; _id := replace ".pdf" "" (fst item) |})
      questions_dict.

Definition expected_filename (r : row) : string := (_id r ++ ".pdf")%string.

(** The request sent for one query. *)
Definition file_search_request (vector_store_id : string) (k : Z) (model query : string)
  : request :=
  {| input := query;
     model := model;
     tools := [{| tool_type := "file_search";
                  vector_store_ids := [vector_store_id];
                  max_num_results := k |}];
     tool_choice := Some "required"%string |}.

(** The annotations of [response.output[1]]: those of its first content
    part when it has a non-empty [content], else its own [annotations]
    attribute when it has one, else [None]. *)
Definition annotations_of (r : response) : outcome (option (list annotation)) :=
  item <~ getitem (output r) 1 ;;
  match item_content item with
  | Has (part :: _) => getattr "annotations" (part_annotations part)
  | _ =>
      match item_annotations item with
      | Has a => Return (Some a)
      | _ => Return None
      end
  end.

(** [[result.filename for result in annotations[:k]]] *)
Definition top_k_files (k : Z) (annotations : list annotation) : list string :=
  map ann_filename (slice_to k annotations).

(** Reciprocal rank and hit flag of one query. *)
Definition reciprocal_rank (expected : string) (retrieved_files : list string)
  : outcome (Q * bool) :=
  if contains expected retrieved_files then
    i <~ index expected retrieved_files ;;
    let rank := i + 1 in
    rr <~ div 1 (of_nat rank) ;;
    Return (rr, true)
  else Return (0%Q, false).

(** The loop that fills [precisions]: [i] is the position reached and
    [num_relevant] the number of hits before it. *)
Fixpoint precisions_loop (expected : string) (retrieved_files : list string)
    (i num_relevant : nat) (precisions : list Q) : outcome (list Q) :=
  match retrieved_files with
  | [] => Return precisions
  | fname :: rest =>
      if String.eqb fname expected then
        let num_relevant := num_relevant + 1 in
        p <~ div (of_nat num_relevant) (of_nat (i + 1)) ;;
        precisions_loop expected rest (i + 1) num_relevant (precisions ++ [p])
      else precisions_loop expected rest (i + 1) num_relevant precisions
  end.

Definition average_precision (expected : string) (retrieved_files : list string)
  : outcome Q :=
  precisions <~ precisions_loop expected retrieved_files 0 0 [] ;;
  match precisions with
  | [] => Return 0%Q
  | _ => div (sum precisions) (of_nat (List.length precisions))
  end.

(** [process_query], run as task number [i] of the pool. *)
Definition process_query (self : Client) (vector_store_id : string) (k : Z)
    (model : string) (i : nat) (r : row) : io (bool * Q * Q) :=
  let query := query r in
  let expected_filename := expected_filename r in
  response <- lift (responses_create self i
                      (file_search_request vector_store_id k model query)) ;;
  annotations <- lift (annotations_of response) ;;
  match annotations with
  | None =>
      print [Lit ("No annotations for query: " ++ query)] ;;;
      ret (false, 0%Q, 0%Q)
  | Some annotations =>
      let retrieved_files := top_k_files k annotations in
      rc <- lift (reciprocal_rank expected_filename retrieved_files) ;;
      let (rr, correct) := (rc : Q * bool) in
      avg_precision <- lift (average_precision expected_filename retrieved_files) ;;
      (if negb (contains expected_filename retrieved_files)
       then print [Lit "Expected file NOT found in the retrieved files!"]
       else ret tt) ;;;
      (match retrieved_files with
       | first :: _ =>
           if negb (String.eqb first expected_filename) then
             print [Lit ("Query: " ++ query)] ;;;
             print [Lit ("Expected file: " ++ expected_filename)] ;;;
             print [Lit ("First retrieved file: " ++ first)] ;;;
             print [Lit "Retrieved files: "; FmtList retrieved_files] ;;;
             print [Lit "--------------------------------------------------"]
           else ret tt
       | [] => ret tt
       end) ;;;
      ret (correct, rr, avg_precision)
  end.

(** [list(executor.map(f, rows))]: the results in the order of the rows;
    the first task, in that order, that raised makes the call raise. *)
Fixpoint executor_map {A B} (f : nat -> A -> outcome B) (i : nat) (l : list A)
  : outcome (list B) :=
  match l with
  | [] => Return []
  | a :: rest =>
      b <~ f i a ;;
      bs <~ executor_map f (S i) rest ;;
      Return (b :: bs)
  end.

(** The loop over [results]: the three accumulators. *)
Definition tally (acc : nat * list Q * list Q) (res : bool * Q * Q)
  : nat * list Q * list Q :=
  let '(correct_retrievals_at_k, reciprocal_ranks, average_precisions) := acc in
  let '(correct, rr, avg_precision) := res in
  ((if correct : bool then correct_retrievals_at_k + 1 else correct_retrievals_at_k),
   reciprocal_ranks ++ [rr],
   average_precisions ++ [avg_precision]).

(** [evaluate_retrieval]: the dictionary of the four metrics.  What the
    worker threads print is not part of the modelled outcome. *)
Definition evaluate_retrieval (self : Client) (vector_store_id : string)
    (questions_dict : list (string * string)) (k : Z) (model : string)
  : outcome (list (string * Q)) :=
  let rows := rows_of questions_dict in
  let total_queries := List.length rows in
  results <~ executor_map
    (fun i r => result (process_query self vector_store_id k model i r)) 0 rows ;;
  let '(correct_retrievals_at_k, reciprocal_ranks, average_precisions) :=
    fold_left tally results (0, [], []) in
  recall_at_k <~ div (of_nat correct_retrievals_at_k) (of_nat total_queries) ;;
  let precision_at_k := recall_at_k in
  mrr <~ div (sum reciprocal_ranks) (of_nat total_queries) ;;
  map_score <~ div (sum average_precisions) (of_nat total_queries) ;;
  Return [(("recall@" ++ str_of_int k)%string, recall_at_k);
          (("precision@" ++ str_of_int k)%string, precision_at_k);
          ("mrr"%string, mrr);
          ("map"%string, map_score)].

(** [not s] for an optional command-line argument. *)
Definition missing (arg : option string) : bool :=
  match arg with
  | Some (String _ _) => false
  | _ => true
  end.

(** The lines printed for the result at position [i]. *)
Definition print_result (i : nat) (r : search_result) : io unit :=
  print [Lit "Result "; Fmt (VInt (Z.of_nat (i + 1))); Lit ":"] ;;;
  print [Lit ("Filename: " ++ sr_filename r)] ;;;
  print [Lit "Score: "; Fmt (VNum (sr_score r))] ;;;
  content <- lift (getitem (sr_content r) 0) ;;
  print [Lit "Content length: ";
         Fmt (VInt (Z.of_nat (String.length (sc_text content))))] ;;;
  print [Lit "---"].

Fixpoint print_results (i : nat) (l : list search_result) : io unit :=
  match l with
  | [] => ret tt
  | r :: rest => print_result i r ;;; print_results (S i) rest
  end.

(** The [search] action of [main], after the arguments are parsed. *)
Definition main_search (search_api : Client) (store_id query : option string)
  : io unit :=
  if missing store_id || missing query then
    print [Lit "Error: store_id and query are required for search action"]
  else
    match store_id, query with
    | Some store_id, Some query =>
        results <- vector_search search_api store_id query ;;
        data <- lift (match results with
                      | Some page => Return (data page)
                      | None => Raise (Exn AttributeError
                                  "'NoneType' object has no attribute 'data'")
                      end) ;;
        print_results 0 data
    | _, _ => ret tt
    end.

End FileSearch.

(* ===================================================================== *)
(** ** vector_store_visualizer.py: the table behind the plot *)
(* ===================================================================== *)

Module Visualizer.
Import Py.

(** An item of [embeddings_data], as [fetch_embeddings] builds it. *)
Record document := {
  id : string;
  filename : string;
  embedding : list Q;
  metadata : list (string * value);
  text : string
}.

(** A [pandas.DataFrame] on the default index [0 .. nrows-1]: its
    columns in order, each a name and one cell per row.  Cells are
    untyped: a column takes any value, where pandas keeps a type per
    column. *)
Record DataFrame := {
  nrows : nat;
  columns : list (string * list value)
}.

(** [key in df.columns] *)
Definition has_column (key : string) (df : DataFrame) : bool :=
  existsb (fun c => String.eqb (fst c) key) (columns df).

(** [df.at[i, key]] read: the cell of row [i] in column [key]. *)
Definition cell (df : DataFrame) (i : nat) (key : string) : option value :=
  match dict_get key (columns df) with
  | Some col => nth_error col i
  | None => None
  end.

(** The number of entries of the longest row. *)
Definition width (rows : list (list Q)) : nat :=
  fold_right (fun r w => Nat.max (List.length r) w) 0 rows.

(** Column number [j] of the rows: a row too short to have an entry
    there gives [nan]. *)
Definition array_column (rows : list (list Q)) (j : nat) : list value :=
  map (fun r => match nth_error r j with
                | Some q => VNum q
                | None => VNaN
                end) rows.

(** [pd.DataFrame(rows, columns=names)] for a list of rows: without a
    row the table has the named columns and no cell; otherwise the
    longest row must have one entry per name, and a shorter row is
    filled up with [nan].  An array is the case of rows of one length
    (pandas then words the error differently); an array without a row
    is taken to have one column per name. *)
Definition DataFrame_of_array (rows : list (list Q)) (names : list string)
  : outcome DataFrame :=
  if match rows with
     | [] => true
     | _ :: _ => width rows =? List.length names
     end
  then
    Return {| nrows := List.length rows;
              columns := map (fun jn => (snd jn, array_column rows (fst jn)))
                             (combine (seq 0 (List.length names)) names) |}
  else Raise (Exn ValueError
                (str_of_int (Z.of_nat (List.length names))
                 ++ " columns passed, passed data had "
                 ++ str_of_int (Z.of_nat (width rows)) ++ " columns")).

Fixpoint set_column (key : string) (vals : list value)
    (cols : list (string * list value)) : list (string * list value) :=
  match cols with
  | [] => [(key, vals)]
  | (k, v) :: rest =>
      if String.eqb k key then (k, vals) :: rest
      else (k, v) :: set_column key vals rest
  end.

(** [df[key] = vals] for a list: the column is replaced, or added last.
    A table without a row takes its rows from a non-empty list: it gets
    one row per value, and the columns it had hold [nan] there. *)
Definition setitem (df : DataFrame) (key : string) (vals : list value)
  : outcome DataFrame :=
  if (nrows df =? 0) && negb (List.length vals =? 0) then
    Return {| nrows := List.length vals;
              columns :=
                set_column key vals
                  (map (fun c => (fst c, repeat VNaN (List.length vals)))
                       (columns df)) |}
  else if List.length vals =? nrows df then
    Return {| nrows := nrows df; columns := set_column key vals (columns df) |}
  else Raise (Exn ValueError
                ("Length of values (" ++ str_of_int (Z.of_nat (List.length vals))
                 ++ ") does not match length of index ("
                 ++ str_of_int (Z.of_nat (nrows df)) ++ ")")).

(** [df[key] = v] for a scalar: the same value in every row. *)
Definition setitem_scalar (df : DataFrame) (key : string) (v : value) : DataFrame :=
  {| nrows := nrows df;
     columns := set_column key (repeat v (nrows df)) (columns df) |}.

Fixpoint list_set {A} (i : nat) (x : A) (l : list A) : list A :=
  match l, i with
  | [], _ => []
  | _ :: rest, O => x :: rest
  | y :: rest, S j => y :: list_set j x rest
  end.

(** [df.at[i, key] = v] for a row and a column that exist (the only use
    in [create_visualization_data]): the cell is overwritten.  The
    columns made for metadata hold objects and take any value.  For a
    value that does not fit the type of a column of coordinates, ids or
    filenames (a metadata key named like one of them) this is pandas 2,
    which converts the column with a warning; pandas 3 raises a
    [TypeError] there, which is not modelled. *)
Definition at_set (df : DataFrame) (i : nat) (key : string) (v : value) : DataFrame :=
  {| nrows := nrows df;
     columns := map (fun c => if String.eqb (fst c) key
                              then (fst c, list_set i v (snd c))
                              else c) (columns df) |}.

(** The loop over [metadata.items()] for row [i]. *)
Fixpoint add_metadata_items (i : nat) (items : list (string * value)) (df : DataFrame)
  : DataFrame :=
  match items with
  | [] => df
  | (key, v) :: rest =>
      let df := if negb (has_column key df) then setitem_scalar df key VNone else df in
      add_metadata_items i rest (at_set df i key v)
  end.

(** The loop over [enumerate(embeddings_data)], from position [i]. *)
Fixpoint add_metadata (i : nat) (embeddings_data : list document) (df : DataFrame)
  : DataFrame :=
  match embeddings_data with
  | [] => df
  | d :: rest => add_metadata (S i) rest (add_metadata_items i (metadata d) df)
  end.

(** [text[:100] + '...' if text else ''] *)
Definition text_preview (text : string) : string :=
  match text with
  | EmptyString => EmptyString
  | _ => (str_slice_to 100 text ++ "...")%string
  end.

(** [create_visualization_data]: the table, [None] on error. *)
Definition create_visualization_data (embeddings_data : list document)
    (reduced_embeddings : list (list Q)) (cluster_labels : list Z)
  : io (option DataFrame) :=
  try_except
    (df <- lift (DataFrame_of_array reduced_embeddings ["x"; "y"; "z"]%string) ;;
     df <- lift (setitem df "id" (map (fun d => VStr (id d)) embeddings_data)) ;;
     df <- lift (setitem df "filename"
                   (map (fun d => VStr (filename d)) embeddings_data)) ;;
     let df := add_metadata 0 embeddings_data df in
     df <- lift (setitem df "cluster" (map VInt cluster_labels)) ;;
     df <- lift (setitem df "text_preview"
                   (map (fun d => VStr (text_preview (text d))) embeddings_data)) ;;
     ret (Some df))
    (fun e =>
       print [Lit ("Error creating visualization data: " ++ exn_str e)] ;;;
       ret None).

End Visualizer.

(* ===================================================================== *)
(** ** search_api_implementation.py: the [llm_search] action *)
(* ===================================================================== *)

Module Cli.
Import Py Api FileSearch.

(** [response.get('files_used', [])] *)
Definition files_used_of (response : llm_result) : list string :=
  match response with
  | LlmAnswer files_used _ => files_used
  | LlmError _ => []
  end.

(** [response.get('response', '')] *)
Definition response_of (response : llm_result) : string :=
  match response with
  | LlmAnswer _ text => text
  | LlmError _ => ""%string
  end.

(** The [llm_search] action of [main], after the arguments are parsed. *)
Definition main_llm_search (search_api : Client) (store_id query : option string)
    (model : string) (k : Z) : io unit :=
  if missing store_id || missing query then
    print [Lit "Error: store_id and query are required for llm_search action"]
  else
    match store_id, query with
    | Some store_id, Some query =>
        response <- llm_integrated_search search_api store_id query model k ;;
        print [Lit "Files used: "; FmtList (files_used_of response)] ;;;
        print [Lit "Response:"] ;;;
        print [Lit (response_of response)]
    | _, _ => ret tt
    end.

End Cli.

(* ===================================================================== *)
(** ** vector_store_visualizer.py: from the store to the table *)
(* ===================================================================== *)

Module Pipeline.
Import Py Api FileSearch Visualizer.

(** A result of the vector query.  [None] in [hit_id], [hit_filename],
    [hit_score], [hit_metadata] and [hit_text] says that the result has
    no such attribute. *)
Record hit := {
  hit_id : option string;
  hit_filename : option string;
  hit_values : attr (list Q);
  hit_score : option Q;
  hit_metadata : option (list (string * value));
  hit_text : option string
}.

(** A figure, known by the table it was drawn from. *)
Record figure := { plotted : DataFrame }.

(** A Dash application: what running its server ends with. *)
Record dash_app := { run_server : outcome unit }.

(** The service and the libraries the visualizer calls: the vector
    store, [np.array] on the list of embeddings,
    [StandardScaler().fit_transform],
    [umap.UMAP(...).fit_transform] with its parameters [n_components],
    [n_neighbors], [min_dist], [metric], [hdbscan.HDBSCAN(...).fit_predict]
    with [min_cluster_size], [min_samples], [cluster_selection_epsilon],
    the drawing of the scatter plot, [fig.write_html] and the
    construction of the Dash application. *)
Record Toolkit := {
  vector_stores_retrieve : string -> outcome vector_store;
  search_by_vector : string -> list Q -> Z -> outcome (list hit);
  np_array : list (list Q) -> outcome (list (list Q));
  StandardScaler_fit_transform : list (list Q) -> outcome (list (list Q));
  umap_fit_transform : Z -> Z -> Q -> string -> list (list Q) -> outcome (list (list Q));
  hdbscan_fit_predict : Z -> option Z -> Q -> list (list Q) -> outcome (list Z);
  scatter_3d : DataFrame -> outcome figure;
  write_html : figure -> string -> outcome unit;
  build_dash_app : DataFrame -> outcome dash_app
}.

(** The scaling of a list of embeddings: [np.array], then
    [StandardScaler().fit_transform] on the array. *)
Definition scaler_fit_transform (self : Toolkit) (rows : list (list Q))
  : outcome (list (list Q)) :=
  embeddings <~ np_array self rows ;;
  StandardScaler_fit_transform self embeddings.

(** [get_vector_store_info]: the details of the store, [{}] on error. *)
Definition get_vector_store_info (self : Toolkit) (vector_store_id : string)
  : io (list (string * value)) :=
  try_except
    (vector_store <- lift (vector_stores_retrieve self vector_store_id) ;;
     ret [("id"%string, VStr (vs_id vector_store));
          ("name"%string, VStr (vs_name vector_store));
          ("created_at"%string, VInt (vs_created_at vector_store));
          ("file_count"%string, VInt (vs_file_counts_completed vector_store))])
    (fun e =>
       print [Lit ("Error retrieving vector store info: " ++ exn_str e)] ;;;
       ret []).

(** [not embedding] is false: the embedding is a non-empty list. *)
Definition filled (embedding : option (list Q)) : bool :=
  match embedding with
  | Some (_ :: _) => true
  | _ => false
  end.

(** The body of the loop over [search_results.data]. *)
Definition fetch_one (result : hit) (embeddings_data : list document)
  : io (list document) :=
  let embedding :=
    match hit_values result with
    | Has values => Some values
    | _ => None
    end in
  embedding <-
    (match hit_score result with
     | Some score =>
         if negb (filled embedding) then
           print [Lit "Warning: Using score as a proxy for embedding, which may not be accurate."] ;;;
           ret (Some [score])
         else ret embedding
     | None => ret embedding
     end) ;;
  match embedding with
  | Some (x :: values) =>
      id <- lift (match hit_id result with
                  | Some i => Return i
                  | None => Raise (Exn AttributeError "object has no attribute 'id'")
                  end) ;;
      ret (embeddings_data ++
           [{| id := id;
               filename := match hit_filename result with
                           | Some f => f
                           | None => "Unknown"%string
                           end;
               embedding := x :: values;
               metadata := match hit_metadata result with
                           | Some m => m
                           | None => []
                           end;
               text := match hit_text result with
                       | Some t => t
                       | None => ""%string
                       end |}])
  | _ => ret embeddings_data
  end.

Fixpoint fetch_loop (results : list hit) (embeddings_data : list document)
  : io (list document) :=
  match results with
  | [] => ret embeddings_data
  | result :: rest =>
      embeddings_data <- fetch_one result embeddings_data ;;
      fetch_loop rest embeddings_data
  end.

(** [fetch_embeddings]: the documents of the store, [[]] on error. *)
Definition fetch_embeddings (self : Toolkit) (vector_store_id : string) (max_results : Z)
  : io (list document) :=
  try_except
    (let placeholder_vector := repeat 0%Q 1536 in
     search_results <-
       lift (search_by_vector self vector_store_id placeholder_vector max_results) ;;
     fetch_loop search_results [])
    (fun e =>
       print [Lit ("Error fetching embeddings: " ++ exn_str e)] ;;;
       ret []).

(** [reduce_dimensions]: the reduced embeddings, [None] on error. *)
Definition reduce_dimensions (self : Toolkit) (embeddings : list (list Q))
    (n_components n_neighbors : Z) (min_dist : Q) (metric : string)
  : io (option (list (list Q))) :=
  try_except
    (reduced_embeddings <-
       lift (umap_fit_transform self n_components n_neighbors min_dist metric embeddings) ;;
     ret (Some reduced_embeddings))
    (fun e =>
       print [Lit ("Error reducing dimensions: " ++ exn_str e)] ;;;
       ret None).

(** [apply_clustering]: the cluster labels, [None] on error. *)
Definition apply_clustering (self : Toolkit) (reduced_embeddings : list (list Q))
    (min_cluster_size : Z) (min_samples : option Z) (cluster_selection_epsilon : Q)
  : io (option (list Z)) :=
  try_except
    (cluster_labels <-
       lift (hdbscan_fit_predict self min_cluster_size min_samples
               cluster_selection_epsilon reduced_embeddings) ;;
     ret (Some cluster_labels))
    (fun e =>
       print [Lit ("Error applying clustering: " ++ exn_str e)] ;;;
       ret None).

(** [generate_plotly_visualization]: the figure, [None] on error. *)
Definition generate_plotly_visualization (self : Toolkit) (df : DataFrame)
    (output_file : option string) : io (option figure) :=
  try_except
    (fig <- lift (scatter_3d self df) ;;
     (match output_file with
      | Some (String c path) =>
          lift (write_html self fig (String c path)) ;;;
          print [Lit ("Visualization saved to " ++ String c path)]
      | _ => ret tt
      end) ;;;
     ret (Some fig))
    (fun e =>
       print [Lit ("Error generating visualization: " ++ exn_str e)] ;;;
       ret None).

(** [create_dash_app]: the application, [None] on error. *)
Definition create_dash_app (self : Toolkit) (df : DataFrame) : io (option dash_app) :=
  try_except
    (app <- lift (build_dash_app self df) ;;
     ret (Some app))
    (fun e =>
       print [Lit ("Error creating Dash app: " ++ exn_str e)] ;;;
       ret None).

(** [d.get(key, 'Unknown')] on the details of a store. *)
Definition get_or_unknown (key : string) (d : list (string * value)) : value :=
  match dict_get key d with
  | Some v => v
  | None => VStr "Unknown"
  end.

(** [visualize_vector_store]: the table behind the plot, [None] when a
    stage failed. *)
Definition visualize_vector_store (self : Toolkit) (vector_store_id : string)
    (max_results : Z) (output_file : option string) (run_dash : bool)
  : io (option DataFrame) :=
  store_info <- get_vector_store_info self vector_store_id ;;
  print [Lit "Vector Store: "; Fmt (get_or_unknown "name" store_info);
         Lit " (ID: "; Fmt (get_or_unknown "id" store_info); Lit ")"] ;;;
  print [Lit "File Count: "; Fmt (get_or_unknown "file_count" store_info)] ;;;
  print [Lit "Fetching up to "; Fmt (VInt max_results); Lit " embeddings..."] ;;;
  embeddings_data <- fetch_embeddings self vector_store_id max_results ;;
  match embeddings_data with
  | [] =>
      print [Lit "No embeddings found or error occurred."] ;;;
      ret None
  | _ :: _ =>
      print [Lit "Retrieved "; Fmt (VInt (Z.of_nat (List.length embeddings_data)));
             Lit " embeddings."] ;;;
      embeddings <- lift (np_array self (map embedding embeddings_data)) ;;
      print [Lit "Standardizing embeddings..."] ;;;
      embeddings_scaled <- lift (StandardScaler_fit_transform self embeddings) ;;
      print [Lit "Reducing dimensions with UMAP..."] ;;;
      reduced_embeddings <-
        reduce_dimensions self embeddings_scaled 3 15 (1 # 10) "cosine" ;;
      match reduced_embeddings with
      | None =>
          print [Lit "Error reducing dimensions."] ;;;
          ret None
      | Some reduced_embeddings =>
          print [Lit "Applying HDBSCAN clustering..."] ;;;
          cluster_labels <- apply_clustering self reduced_embeddings 5 None (1 # 2) ;;
          match cluster_labels with
          | None =>
              print [Lit "Error applying clustering."] ;;;
              ret None
          | Some cluster_labels =>
              print [Lit "Creating visualization data..."] ;;;
              df <- create_visualization_data embeddings_data reduced_embeddings
                      cluster_labels ;;
              match df with
              | None =>
                  print [Lit "Error creating visualization data."] ;;;
                  ret None
              | Some df =>
                  print [Lit "Generating visualization..."] ;;;
                  fig <- generate_plotly_visualization self df output_file ;;
                  match fig with
                  | None =>
                      print [Lit "Error generating visualization."] ;;;
                      ret None
                  | Some _ =>
                      (if run_dash then
                         print [Lit "Starting Dash web application..."] ;;;
                         app <- create_dash_app self df ;;
                         match app with
                         | Some app => lift (run_server app)
                         | None => print [Lit "Error creating Dash app."]
                         end
                       else ret tt) ;;;
                      ret (Some df)
                  end
              end
          end
      end
  end.

End Pipeline.

(* ===================================================================== *)
(** ** Vocabulary of the properties *)
(* ===================================================================== *)

Module Props.
Import Py Api FileSearch Visualizer.

(** A rational between 0 and 1. *)
Definition unit_interval (q : Q) : Prop := (0 <= q /\ q <= 1)%Q.

(** [rank] is the 1-based position of the first occurrence of [x] in [l]. *)
Definition first_position (x : string) (l : list string) (rank : nat) : Prop :=
  1 <= rank /\
  nth_error l (rank - 1) = Some x /\
  forall j, j < rank - 1 -> nth_error l j <> Some x.

(** The top-k retrieved filenames of task [i]: what [process_query]
    extracts before it scores the query; [None] when the answer carries
    no annotations. *)
Definition retrieved (self : Client) (vector_store_id : string) (k : Z)
    (model : string) (i : nat) (r : row) : outcome (option (list string)) :=
  response <~ responses_create self i
                (file_search_request vector_store_id k model (query r)) ;;
  annotations <~ annotations_of response ;;
  Return (option_map (top_k_files k) annotations).

(** The reciprocal rank of a query as the metric is defined: [1/rank] of
    the first hit, [0] without a hit. *)
Definition is_reciprocal_rank (expected : string) (files : option (list string))
    (rr : Q) : Prop :=
  match files with
  | Some files =>
      (In expected files ->
         exists rank, first_position expected files rank /\ (rr == 1 / of_nat rank)%Q) /\
      (~ In expected files -> (rr == 0)%Q)
  | None => (rr == 0)%Q
  end.

(** The starting value of the statistics of an upload of [n] files. *)
Definition empty_stats (n : nat) : upload_stats :=
  {| total_files := n; successful_uploads := 0; failed_uploads := 0; errors := [] |}.

Definition failed (r : upload_result) : bool := negb (String.eqb (status r) "success").

(** The external calls of one upload, in order: opening the file,
    sending it, attaching it to the store. *)
Definition upload_calls (self : Client) (vector_store_id file_path : string)
  : outcome unit :=
  f <~ open_rb self file_path ;;
  file_response <~ files_create self f "assistants" ;;
  vector_stores_files_create self vector_store_id (file_id file_response).

(** The record of one file: a success when the three calls go through,
    else a failure that carries the text of the exception. *)
Definition upload_record (self : Client) (vector_store_id file_path : string)
  : upload_result :=
  match upload_calls self vector_store_id file_path with
  | Return _ => {| file := basename file_path; status := "success"; error := None |}
  | Raise e => {| file := basename file_path; status := "failed";
                  error := Some (exn_str e) |}
  end.

(** Row [i] of the table carries the coordinates [r], the document [d]
    and the cluster label [c]. *)
Definition row_carries (df : DataFrame) (i : nat) (d : document) (r : list Q) (c : Z)
  : Prop :=
  cell df i "x" = Some (VNum (nth 0 r 0%Q)) /\
  cell df i "y" = Some (VNum (nth 1 r 0%Q)) /\
  cell df i "z" = Some (VNum (nth 2 r 0%Q)) /\
  cell df i "id" = Some (VStr (id d)) /\
  cell df i "filename" = Some (VStr (filename d)) /\
  cell df i "cluster" = Some (VInt c) /\
  cell df i "text_preview" = Some (VStr (text_preview (text d))).

(** Every column of the table has one cell per row. *)
Definition well_formed (df : DataFrame) : Prop :=
  Forall (fun c => List.length (snd c) = nrows df) (columns df).

(** The call returned a table with one row per document, each carrying
    its own data. *)
Definition one_row_per_document (embeddings_data : list document)
    (reduced_embeddings : list (list Q)) (cluster_labels : list Z)
    (out : io (option DataFrame)) : Prop :=
  exists df,
    result out = Return (Some df) /\
    nrows df = List.length embeddings_data /\
    well_formed df /\
    forall i d r c,
      nth_error embeddings_data i = Some d ->
      nth_error reduced_embeddings i = Some r ->
      nth_error cluster_labels i = Some c ->
      row_carries df i d r c.

(** The names of the columns the table is built from before the
    metadata are added. *)
Definition base_columns : list string := ["x"; "y"; "z"; "id"; "filename"]%string.

Definition metadata_apart (d : document) : Prop :=
  forall key v, In (key, v) (metadata d) -> ~ In key base_columns.

End Props.

(* ===================================================================== *)
(** ** Sample services and inputs *)
(* ===================================================================== *)

Module Samples.
Import Py Api FileSearch Visualizer.

(** An answer whose second output item cites the given files in order. *)
Definition answer (files : list string) : response :=
  {| output :=
       [{| item_content := NoAttr; item_annotations := NoAttr |};
        {| item_content :=
             Has [{| part_annotations := Has (map (fun f => {| ann_filename := f |}) files);
                     part_text := "See the cited files." |}];
           item_annotations := NoAttr |}] |}.

(** A directory with two PDF files and a text file; every call succeeds
    and every query retrieves [b.pdf], [a.pdf], [a.pdf]. *)
Definition healthy : Client :=
  {| vector_stores_create := fun name =>
       Return {| vs_id := "vs_1"; vs_name := name; vs_created_at := 1700000000;
                 vs_file_counts_completed := 0 |};
     open_rb := fun path => Return path;
     files_create := fun _ _ => Return {| file_id := "file_1" |};
     vector_stores_files_create := fun _ _ => Return tt;
     vector_stores_search := fun _ _ => Return {| data := [] |};
     responses_create := fun _ _ => Return (answer ["b.pdf"; "a.pdf"; "a.pdf"]%string);
     listdir := fun _ => Return ["a.pdf"; "notes.txt"; "B.PDF"]%string;
     pdf_pages := fun _ => Return [Return (Some "Some text."%string)] |}.

Definition rate_limit : exn := Exn APIError "rate limit exceeded".

(** The same directory, with a service that rejects every call. *)
Definition unavailable : Client :=
  {| vector_stores_create := fun _ => Raise rate_limit;
     open_rb := fun path => Return path;
     files_create := fun _ _ => Raise rate_limit;
     vector_stores_files_create := fun _ _ => Raise rate_limit;
     vector_stores_search := fun _ _ => Raise rate_limit;
     responses_create := fun _ _ => Raise rate_limit;
     listdir := fun _ => Return ["a.pdf"; "notes.txt"; "B.PDF"]%string;
     pdf_pages := fun _ => Return [Return (Some "Some text."%string)] |}.

Definition questions : list (string * string) :=
  [("a.pdf", "What does a say?"); ("b.pdf", "What does b say?")]%string.

(** A document whose metadata only has keys of its own. *)
Definition report : document :=
  {| id := "doc_0"; filename := "report.pdf"; embedding := [1 # 2; 1 # 3]%Q;
     metadata := [("author", VStr "Alice"); ("year", VInt 2025)]%string;
     text := "Quarterly report." |}.

(** A document whose metadata has a key named like a column of the
    table. *)
Definition relabelled : document :=
  {| id := "doc_1"; filename := "minutes.pdf"; embedding := [1 # 2; 1 # 3]%Q;
     metadata := [("filename", VStr "other.pdf")]%string;
     text := "Minutes of the meeting." |}.

End Samples.

(* ===================================================================== *)
(** ** More vocabulary of the properties *)
(* ===================================================================== *)

Module MoreProps.
Import Py Api FileSearch Visualizer Pipeline.

(** The name contains a ['/']; the entries of a directory never do. *)
Fixpoint has_slash (s : string) : bool :=
  match s with
  | EmptyString => false
  | String c s' => Ascii.eqb c "/" || has_slash s'
  end.

(** The text of a page: nothing for a page without text. *)
Definition page_text_of (page_text : option string) : string :=
  match page_text with
  | Some s => s
  | None => EmptyString
  end.

(** The texts of the pages, one after the other. *)
Fixpoint join_texts (pages : list (option string)) : string :=
  match pages with
  | [] => EmptyString
  | page_text :: rest => (page_text_of page_text ++ join_texts rest)%string
  end.

(** The prompt [generate_questions] builds around the text of a file. *)
Definition question_prompt (text : string) : request :=
  {| input :=
       ("Can you generate a question that can only be answered from this document?:"
          ++ nl ++ text ++ nl ++ nl)%string;
     model := "gpt-4o";
     tools := [];
     tool_choice := None |}.

(** The table has a column named [key]. *)
Definition present (key : string) (df : DataFrame) : Prop :=
  dict_get key (columns df) <> None.

(** One turn of the loop over the metadata of row [i]. *)
Definition put (i : nat) (key : string) (v : value) (df : DataFrame) : DataFrame :=
  at_set (if negb (has_column key df) then setitem_scalar df key VNone else df) i key v.

(** The names of all the columns the table has besides the metadata. *)
Definition reserved_columns : list string :=
  ["x"; "y"; "z"; "id"; "filename"; "cluster"; "text_preview"]%string.

(** Coordinate number [j] of document number [i] as the table shows
    it: [nan] when there is no reduced embedding for the document or
    when the embedding is too short. *)
Definition coordinate (reduced_embeddings : list (list Q)) (i j : nat) : value :=
  match nth_error reduced_embeddings i with
  | Some r => match nth_error r j with
              | Some q => VNum q
              | None => VNaN
              end
  | None => VNaN
  end.

(** The embedding kept for a result: its [values] when they are a
    non-empty list, else its [score] alone. *)
Definition kept_embedding (h : hit) : list Q :=
  match hit_values h with
  | Has (x :: values) => x :: values
  | _ => match hit_score h with
         | Some score => [score]
         | None => []
         end
  end.

(** [d] is the document of the result [h]: its id, its filename or
    [Unknown], the embedding kept for it, its metadata or [{}], its text
    or the empty string. *)
Definition document_of (h : hit) (d : document) : Prop :=
  hit_id h = Some (id d) /\
  filename d = (match hit_filename h with
                | Some f => f
                | None => "Unknown"%string
                end) /\
  embedding d = kept_embedding h /\
  metadata d = (match hit_metadata h with
                | Some m => m
                | None => []
                end) /\
  text d = (match hit_text h with
            | Some t => t
            | None => ""%string
            end).

(** The result carries an embedding: non-empty [values], or a [score]
    to stand in for them. *)
Definition carries_embedding (h : hit) : bool :=
  match hit_values h, hit_score h with
  | Has (_ :: _), _ => true
  | _, Some _ => true
  | _, None => false
  end.

End MoreProps.

(* ===================================================================== *)
(** ** More sample services *)
(* ===================================================================== *)

Module MoreSamples.
Import Py Api FileSearch Visualizer Pipeline.

(** The healthy service with other answers to the queries. *)
Definition answering (f : nat -> request -> outcome response) : Client :=
  {| vector_stores_create := vector_stores_create Samples.healthy;
     open_rb := open_rb Samples.healthy;
     files_create := files_create Samples.healthy;
     vector_stores_files_create := vector_stores_files_create Samples.healthy;
     vector_stores_search := vector_stores_search Samples.healthy;
     responses_create := f;
     listdir := listdir Samples.healthy;
     pdf_pages := pdf_pages Samples.healthy |}.

(** Every query retrieves three different files. *)
Definition distinct_files : Client :=
  answering (fun _ _ => Return (Samples.answer ["b.pdf"; "a.pdf"; "c.pdf"]%string)).

(** The call of the second task is rejected. *)
Definition second_call_fails : Client :=
  answering (fun i _ =>
               if i =? 1 then Raise Samples.rate_limit
               else Return (Samples.answer ["b.pdf"; "a.pdf"; "c.pdf"]%string)).

(** The vector search finds two results with content. *)
Definition searchable : Client :=
  {| vector_stores_create := vector_stores_create Samples.healthy;
     open_rb := open_rb Samples.healthy;
     files_create := files_create Samples.healthy;
     vector_stores_files_create := vector_stores_files_create Samples.healthy;
     vector_stores_search := fun _ _ =>
       Return {| data :=
                   [{| sr_filename := "a.pdf"; sr_score := (9 # 10)%Q;
                       sr_content := [{| sc_text := "Text of a." |}] |};
                    {| sr_filename := "b.pdf"; sr_score := (7 # 10)%Q;
                       sr_content := [{| sc_text := "Text of b." |}] |}] |};
     responses_create := responses_create Samples.healthy;
     listdir := listdir Samples.healthy;
     pdf_pages := pdf_pages Samples.healthy |}.

(** A file whose second page cannot be read; the model answers with a
    question. *)
Definition torn_pdf : Client :=
  {| vector_stores_create := vector_stores_create Samples.healthy;
     open_rb := open_rb Samples.healthy;
     files_create := files_create Samples.healthy;
     vector_stores_files_create := vector_stores_files_create Samples.healthy;
     vector_stores_search := vector_stores_search Samples.healthy;
     responses_create := fun _ _ =>
       Return {| output :=
                   [{| item_content :=
                         Has [{| part_annotations := Has [];
                                 part_text := "What is on page one?" |}];
                       item_annotations := NoAttr |}] |};
     listdir := listdir Samples.healthy;
     pdf_pages := fun _ =>
       Return (map Return [Some "Page one. "%string; None]
                 ++ Raise (Exn ValueError "broken xref table")
                 :: [Return (Some "Page four."%string)]) |}.

(** A store with two results, the second known only by its score;
    the libraries place the documents on a line and in one cluster. *)
Definition small_store : Toolkit :=
  {| vector_stores_retrieve := fun store_id =>
       Return {| vs_id := store_id; vs_name := "papers";
                 vs_created_at := 1700000000; vs_file_counts_completed := 2 |};
     search_by_vector := fun _ _ _ =>
       Return [{| hit_id := Some "doc_0"%string;
                  hit_filename := Some "report.pdf"%string;
                  hit_values := Has [1 # 2; 1 # 3]%Q;
                  hit_score := Some (9 # 10)%Q;
                  hit_metadata := Some [("author"%string, VStr "Alice")];
                  hit_text := Some "Quarterly report."%string |};
               {| hit_id := Some "doc_1"%string;
                  hit_filename := None;
                  hit_values := NoAttr;
                  hit_score := Some (4 # 5)%Q;
                  hit_metadata := None;
                  hit_text := None |}];
     np_array := fun m => Return m;
     StandardScaler_fit_transform := fun m => Return m;
     umap_fit_transform := fun _ _ _ _ m =>
       Return (map (fun _ => [0; 0; 0]%Q) m);
     hdbscan_fit_predict := fun _ _ _ m => Return (map (fun _ => 0%Z) m);
     scatter_3d := fun df => Return {| plotted := df |};
     write_html := fun _ _ => Return tt;
     build_dash_app := fun _ => Return {| run_server := Return tt |} |}.

(** The store answers with a result that has an embedding and no id. *)
Definition nameless_result : Toolkit :=
  {| vector_stores_retrieve := vector_stores_retrieve small_store;
     search_by_vector := fun _ _ _ =>
       Return ([{| hit_id := Some "doc_0"%string;
                   hit_filename := Some "report.pdf"%string;
                   hit_values := Has [1 # 2; 1 # 3]%Q;
                   hit_score := None;
                   hit_metadata := None;
                   hit_text := None |}]
               ++ {| hit_id := None;
                     hit_filename := Some "minutes.pdf"%string;
                     hit_values := Has [1 # 4]%Q;
                     hit_score := None;
                     hit_metadata := None;
                     hit_text := None |} :: []);
     np_array := np_array small_store;
     StandardScaler_fit_transform := StandardScaler_fit_transform small_store;
     umap_fit_transform := umap_fit_transform small_store;
     hdbscan_fit_predict := hdbscan_fit_predict small_store;
     scatter_3d := scatter_3d small_store;
     write_html := write_html small_store;
     build_dash_app := build_dash_app small_store |}.

(** The store of [small_store] with a scaler that rejects embeddings of
    different lengths. *)
Definition ragged_store : Toolkit :=
  {| vector_stores_retrieve := vector_stores_retrieve small_store;
     search_by_vector := search_by_vector small_store;
     np_array := np_array small_store;
     StandardScaler_fit_transform := fun _ =>
       Raise (Exn ValueError "setting an array element with a sequence.");
     umap_fit_transform := umap_fit_transform small_store;
     hdbscan_fit_predict := hdbscan_fit_predict small_store;
     scatter_3d := scatter_3d small_store;
     write_html := write_html small_store;
     build_dash_app := build_dash_app small_store |}.

(** A store whose query is rejected. *)
Definition unreachable_store : Toolkit :=
  {| vector_stores_retrieve := fun _ => Raise Samples.rate_limit;
     search_by_vector := fun _ _ _ => Raise Samples.rate_limit;
     np_array := np_array small_store;
     StandardScaler_fit_transform := StandardScaler_fit_transform small_store;
     umap_fit_transform := umap_fit_transform small_store;
     hdbscan_fit_predict := hdbscan_fit_predict small_store;
     scatter_3d := scatter_3d small_store;
     write_html := write_html small_store;
     build_dash_app := build_dash_app small_store |}.

End MoreSamples.

(* ===================================================================== *)
(** ** Facts about the runtime *)
(* ===================================================================== *)

Module PyFacts.
Import Py.

Lemma result_bind {A B} (m : io A) (f : A -> io B) :
  result (bind m f) = obind (result m) (fun a => result (f a)).
Proof.
  destruct m as [out [a | e]]; simpl; [| reflexivity].
  destruct (f a); reflexivity.
Qed.

Lemma result_lift {A} (r : outcome A) : result (lift r) = r.
Proof. reflexivity. Qed.

Lemma result_try_return {A} (body : io A) (h : exn -> io A) a :
  result body = Return a -> result (try_except body h) = Return a.
Proof.
  destruct body as [out [b | e]]; simpl; intros H; [assumption | discriminate].
Qed.

Lemma result_try_raise {A} (body : io A) (h : exn -> io A) e :
  result body = Raise e -> result (try_except body h) = result (h e).
Proof.
  destruct body as [out [b | e']]; simpl; intros H; [discriminate |].
  injection H as ->. destruct (h e); reflexivity.
Qed.

Lemma obind_return_inv {A B} (m : outcome A) (f : A -> outcome B) b :
  obind m f = Return b -> exists a, m = Return a /\ f a = Return b.
Proof. destruct m as [a | e]; simpl; intros H; [eauto | discriminate]. Qed.

Lemma of_nat_nonneg n : (0 <= of_nat n)%Q.
Proof.
  unfold of_nat. change 0%Q with (inject_Z 0). rewrite <- Zle_Qle. lia.
Qed.

Lemma of_nat_pos n : 0 < n -> (0 < of_nat n)%Q.
Proof.
  intros H. unfold of_nat. change 0%Q with (inject_Z 0). rewrite <- Zlt_Qlt. lia.
Qed.

Lemma of_nat_le n m : n <= m -> (of_nat n <= of_nat m)%Q.
Proof. intros H. unfold of_nat. rewrite <- Zle_Qle. lia. Qed.

Lemma of_nat_S n : (of_nat (S n) == of_nat n + 1)%Q.
Proof.
  unfold of_nat. rewrite Nat2Z.inj_succ. unfold Z.succ.
  rewrite inject_Z_plus. reflexivity.
Qed.

(** A division by a positive count returns the quotient. *)
Lemma div_pos a n : 0 < n -> div a (of_nat n) = Return (a / of_nat n)%Q.
Proof.
  intros H. unfold div.
  destruct (Qeq_bool (of_nat n) 0) eqn:E; [| reflexivity].
  apply Qeq_bool_iff in E. pose proof (of_nat_pos H) as P.
  rewrite E in P. exfalso. revert P. apply Qlt_irrefl.
Qed.

Lemma div_zero a : div a (of_nat 0) = Raise (Exn ZeroDivisionError "division by zero").
Proof. reflexivity. Qed.

(** A ratio of two counts, the smaller over the larger, is in [0, 1]. *)
Lemma ratio_unit (a : Q) n :
  0 < n -> (0 <= a)%Q -> (a <= of_nat n)%Q ->
  (0 <= a / of_nat n /\ a / of_nat n <= 1)%Q.
Proof.
  intros Hn Ha Hab. pose proof (of_nat_pos Hn) as P. split.
  - apply Qle_shift_div_l; [assumption |]. rewrite Qmult_0_l. assumption.
  - apply Qle_shift_div_r; [assumption |]. rewrite Qmult_1_l. assumption.
Qed.

Lemma sum_snoc l x : sum (l ++ [x]) = (sum l + x)%Q.
Proof. unfold sum. rewrite fold_left_app. reflexivity. Qed.

Lemma sum_from acc l : (fold_left Qplus l acc == acc + sum l)%Q.
Proof.
  revert acc. induction l as [| x l IH]; intros acc; unfold sum; simpl.
  - ring.
  - rewrite (IH (acc + x)%Q), (IH (0 + x)%Q). ring.
Qed.

Lemma sum_cons x l : (sum (x :: l) == x + sum l)%Q.
Proof. unfold sum at 1. simpl. rewrite sum_from. ring. Qed.

(** The sum of [n] numbers of [0, 1] is in [0, n]. *)
Lemma sum_unit l :
  Forall (fun q => 0 <= q /\ q <= 1)%Q l ->
  (0 <= sum l /\ sum l <= of_nat (List.length l))%Q.
Proof.
  induction 1 as [| x l [Hx0 Hx1] _ [IH0 IH1]].
  - split; [apply Qle_refl | apply Qle_refl].
  - rewrite sum_cons. cbn [List.length]. rewrite of_nat_S. split; lra.
Qed.

Lemma contains_In x l : contains x l = true <-> In x l.
Proof.
  induction l as [| y l IH]; simpl.
  - split; [discriminate | tauto].
  - destruct (String.eqb_spec y x) as [-> | N].
    + tauto.
    + rewrite IH. split; [tauto | intros [E | H]; [contradiction | assumption]].
Qed.

(** [index] finds the first occurrence of a member. *)
Lemma index_first x l :
  In x l ->
  exists i, index x l = Return i /\ nth_error l i = Some x /\
            forall j, j < i -> nth_error l j <> Some x.
Proof.
  induction l as [| y l IH]; simpl; [tauto |].
  intros H. destruct (String.eqb_spec y x) as [-> | N].
  - exists 0. split; [reflexivity |]. split; [reflexivity |]. intros j Hj; lia.
  - destruct H as [E | H]; [contradiction |].
    destruct (IH H) as (i & Hi & Hn & Hf).
    exists (S i). rewrite Hi. split; [reflexivity |]. split; [assumption |].
    intros [| j] Hj; simpl.
    + intros E. injection E as E. contradiction.
    + apply Hf. lia.
Qed.

Lemma dict_get_head {V} key (v : V) d : dict_get key ((key, v) :: d) = Some v.
Proof. simpl. rewrite String.eqb_refl. reflexivity. Qed.

End PyFacts.

(* ===================================================================== *)
(** ** Facts about the retrieval evaluation *)
(* ===================================================================== *)

Module SearchFacts.
Import Py Api FileSearch Props PyFacts.

Lemma unit_zero : unit_interval 0.
Proof. split; [apply Qle_refl | discriminate]. Qed.

(** The reciprocal rank computed by the code is the one of the metric,
    the flag says whether the expected file was retrieved, and nothing
    is raised. *)
Lemma reciprocal_rank_spec expected files :
  exists rr,
    reciprocal_rank expected files = Return (rr, contains expected files) /\
    is_reciprocal_rank expected (Some files) rr /\
    unit_interval rr.
Proof.
  unfold reciprocal_rank.
  destruct (contains expected files) eqn:C.
  - apply contains_In in C.
    destruct (index_first _ _ C) as (i & Hi & Hn & Hf).
    rewrite Hi. cbn [obind].
    rewrite div_pos by lia. cbn [obind].
    exists (1 / of_nat (i + 1))%Q. split; [reflexivity |]. split.
    + split; [| intros N; contradiction].
      intros _. exists (i + 1). split; [| apply Qeq_refl].
      unfold first_position. rewrite Nat.add_sub.
      split; [lia |]. split; assumption.
    + apply ratio_unit; [lia | discriminate |].
      apply (@of_nat_le 1 (i + 1)). lia.
  - exists 0%Q. split; [reflexivity |]. split; [| apply unit_zero].
    split; [| intros _; apply Qeq_refl].
    intros H. apply contains_In in H. congruence.
Qed.

(** Every precision appended by the loop is [num_relevant / (i + 1)]
    with [num_relevant <= i + 1]: the list stays within [0, 1]. *)
Lemma precisions_loop_unit expected files :
  forall i num_relevant precisions,
    num_relevant <= i ->
    Forall unit_interval precisions ->
    exists ps,
      precisions_loop expected files i num_relevant precisions = Return ps /\
      Forall unit_interval ps.
Proof.
  induction files as [| fname rest IH]; intros i nr ps Hle Hps; simpl.
  - exists ps. split; [reflexivity | assumption].
  - destruct (String.eqb fname expected).
    + rewrite div_pos by lia. cbn [obind].
      apply IH; [lia |].
      apply Forall_app. split; [assumption |].
      constructor; [| constructor].
      apply ratio_unit; [lia | apply of_nat_nonneg | apply of_nat_le; lia].
    + apply IH; [lia | assumption].
Qed.

Lemma average_precision_unit expected files :
  exists ap, average_precision expected files = Return ap /\ unit_interval ap.
Proof.
  unfold average_precision.
  destruct (@precisions_loop_unit expected files 0 0 [])
    as (ps & Hps & Hall); [lia | constructor |].
  rewrite Hps. cbn [obind].
  destruct ps as [| p ps'].
  - exists 0%Q. split; [reflexivity | apply unit_zero].
  - set (l := p :: ps') in *.
    assert (Hl : 0 < List.length l) by (subst l; simpl; lia).
    rewrite div_pos by assumption.
    eexists. split; [reflexivity |].
    destruct (sum_unit Hall) as [S0 S1].
    apply ratio_unit; assumption.
Qed.

(** The outcome of a task is its score on the filenames it retrieved. *)
Lemma process_query_result self vector_store_id k model i r :
  result (process_query self vector_store_id k model i r) =
  (fs <~ retrieved self vector_store_id k model i r ;;
   match fs with
   | None => Return (false, 0%Q, 0%Q)
   | Some files =>
       rc <~ reciprocal_rank (expected_filename r) files ;;
       ap <~ average_precision (expected_filename r) files ;;
       Return (snd rc, fst rc, ap)
   end).
Proof.
  unfold process_query, retrieved.
  rewrite result_bind, result_lift.
  destruct (responses_create self i _) as [resp | e]; cbn [obind]; [| reflexivity].
  rewrite result_bind, result_lift.
  destruct (annotations_of resp) as [[anns |] | e]; cbn [obind option_map];
    [| reflexivity | reflexivity].
  rewrite result_bind, result_lift.
  destruct (reciprocal_rank _ _) as [[rr c] | e]; cbn [obind]; [| reflexivity].
  rewrite result_bind, result_lift.
  destruct (average_precision _ _) as [ap | e]; cbn [obind]; [| reflexivity].
  rewrite result_bind.
  assert (P1 : forall b : bool,
             result (if b then print [Lit "Expected file NOT found in the retrieved files!"]
                     else ret tt) = Return tt)
    by (intros []; reflexivity).
  rewrite P1. cbn [obind].
  rewrite result_bind.
  destruct (top_k_files k anns) as [| first rest]; [reflexivity |].
  destruct (negb (first =? expected_filename r)%string); reflexivity.
Qed.

(** A task whose call went through returns a triple with the
    reciprocal rank of the metric, both scores within [0, 1]. *)
Lemma process_query_scores self vector_store_id k model i r fs :
  retrieved self vector_store_id k model i r = Return fs ->
  exists rr ap,
    result (process_query self vector_store_id k model i r) =
      Return (match fs with
              | Some files => contains (expected_filename r) files
              | None => false
              end, rr, ap) /\
    is_reciprocal_rank (expected_filename r) fs rr /\
    unit_interval rr /\ unit_interval ap.
Proof.
  intros H. rewrite process_query_result, H. cbn [obind].
  destruct fs as [files |].
  - destruct (reciprocal_rank_spec (expected_filename r) files) as (rr & Hrr & Hs & Hu).
    destruct (average_precision_unit (expected_filename r) files) as (ap & Hap & Hau).
    rewrite Hrr, Hap. cbn [obind fst snd].
    exists rr, ap. split; [reflexivity |]. split; [assumption |]. split; assumption.
  - exists 0%Q, 0%Q. split; [reflexivity |]. split; [apply Qeq_refl |].
    split; apply unit_zero.
Qed.

(** A task that returns did retrieve something (or found no annotations). *)
Lemma process_query_returns self vector_store_id k model i r res :
  result (process_query self vector_store_id k model i r) = Return res ->
  exists fs, retrieved self vector_store_id k model i r = Return fs.
Proof.
  rewrite process_query_result.
  destruct (retrieved self vector_store_id k model i r) as [fs | e]; cbn [obind].
  - eauto.
  - discriminate.
Qed.

Section ExecutorMap.
Context {A B : Type} (f : nat -> A -> outcome B).

Lemma executor_map_total l :
  forall i,
    (forall j a, nth_error l j = Some a -> exists b, f (i + j) a = Return b) ->
    exists bs, executor_map f i l = Return bs.
Proof.
  induction l as [| a l IH]; intros i H; simpl.
  - eauto.
  - destruct (H 0 a eq_refl) as (b & Hb). rewrite Nat.add_0_r in Hb.
    rewrite Hb. cbn [obind].
    destruct (IH (S i)) as (bs & Hbs).
    + intros j a' Hj. destruct (H (S j) a' Hj) as (b' & Hb').
      exists b'. rewrite <- Hb'. f_equal. lia.
    + rewrite Hbs. cbn [obind]. eauto.
Qed.

Lemma executor_map_nth l :
  forall i bs,
    executor_map f i l = Return bs ->
    List.length bs = List.length l /\
    forall j a, nth_error l j = Some a ->
                exists b, nth_error bs j = Some b /\ f (i + j) a = Return b.
Proof.
  induction l as [| a l IH]; intros i bs H; simpl in H.
  - injection H as <-. split; [reflexivity |].
    intros [| j] a H; discriminate.
  - apply obind_return_inv in H. destruct H as (b & Hb & H).
    apply obind_return_inv in H. destruct H as (bs' & Hbs & H).
    injection H as <-.
    destruct (IH _ _ Hbs) as (Hlen & Hnth).
    split; [simpl; congruence |].
    intros [| j] a' Hj; simpl in Hj.
    + injection Hj as <-. exists b. rewrite Nat.add_0_r. split; [reflexivity | assumption].
    + destruct (Hnth j a' Hj) as (b' & Hb1 & Hb2).
      exists b'. split; [assumption |]. rewrite <- Hb2. f_equal. lia.
Qed.

Lemma executor_map_Forall (P : B -> Prop) l i bs :
  executor_map f i l = Return bs ->
  (forall j a b, nth_error l j = Some a -> f (i + j) a = Return b -> P b) ->
  Forall P bs.
Proof.
  intros H HP. destruct (executor_map_nth _ _ H) as (Hlen & Hnth).
  apply Forall_forall. intros b Hb.
  destruct (In_nth_error _ _ Hb) as (j & Hj).
  destruct (nth_error l j) as [a |] eqn:Ha.
  - destruct (Hnth j a Ha) as (b' & Hb1 & Hb2).
    rewrite Hj in Hb1. injection Hb1 as <-. eapply HP; eassumption.
  - apply nth_error_None in Ha.
    assert (j < List.length bs) by (apply nth_error_Some; congruence). lia.
Qed.
End ExecutorMap.

Lemma filter_all {A} (f : A -> bool) l :
  Forall (fun a => f a = true) l -> filter f l = l.
Proof.
  induction 1 as [| a l Ha _ IH]; simpl; [reflexivity |].
  rewrite Ha, IH. reflexivity.
Qed.

(** The three accumulators after the loop over the results. *)
Lemma fold_tally results :
  forall n rrs aps,
    fold_left tally results (n, rrs, aps) =
    (n + List.length (filter (fun res => fst (fst res)) results),
     rrs ++ map (fun res => snd (fst res)) results,
     aps ++ map snd results).
Proof.
  induction results as [| [[c rr] ap] results IH]; intros n rrs aps; simpl.
  - rewrite Nat.add_0_r, !app_nil_r. reflexivity.
  - rewrite IH. rewrite <- !app_assoc. simpl.
    destruct c; simpl; f_equal; f_equal; lia.
Qed.

Lemma rows_of_length questions_dict :
  List.length (rows_of questions_dict) = List.length questions_dict.
Proof. apply length_map. Qed.

(** The metrics of a run whose tasks all returned, for at least one
    query. *)
Lemma evaluate_retrieval_run self vector_store_id questions_dict k model results :
  questions_dict <> [] ->
  executor_map
    (fun i r => result (process_query self vector_store_id k model i r)) 0
    (rows_of questions_dict) = Return results ->
  let n := List.length (rows_of questions_dict) in
  let recall :=
    (of_nat (List.length (filter (fun res => fst (fst res)) results)) / of_nat n)%Q in
  evaluate_retrieval self vector_store_id questions_dict k model =
  Return [(("recall@" ++ str_of_int k)%string, recall);
          (("precision@" ++ str_of_int k)%string, recall);
          ("mrr"%string, (sum (map (fun res => snd (fst res)) results) / of_nat n)%Q);
          ("map"%string, (sum (map snd results) / of_nat n)%Q)].
Proof.
  intros Hne Hres n recall. subst recall.
  assert (Hn : 0 < n).
  { subst n. rewrite rows_of_length. destruct questions_dict; [congruence | simpl; lia]. }
  unfold evaluate_retrieval. rewrite Hres. cbn [obind].
  rewrite fold_tally. cbn [Nat.add app].
  fold n. rewrite !div_pos by assumption. reflexivity.
Qed.

(** A run that returns metrics had at least one query and all its tasks
    returned. *)
Lemma evaluate_retrieval_inv self vector_store_id questions_dict k model m :
  evaluate_retrieval self vector_store_id questions_dict k model = Return m ->
  questions_dict <> [] /\
  exists results,
    executor_map
      (fun i r => result (process_query self vector_store_id k model i r)) 0
      (rows_of questions_dict) = Return results.
Proof.
  intros H. split.
  - intros ->. discriminate H.
  - unfold evaluate_retrieval in H.
    destruct (executor_map _ 0 (rows_of questions_dict)) as [results | e].
    + eauto.
    + discriminate H.
Qed.

End SearchFacts.

(* ===================================================================== *)
(** ** The retrieval metrics *)
(* ===================================================================== *)

Module RetrievalSpec.
Import Py Api FileSearch Props PyFacts SearchFacts.

(** When the call of every task goes through, all tasks return. *)
Lemma tasks_return self vector_store_id questions_dict k model :
  (forall i r, nth_error (rows_of questions_dict) i = Some r ->
     exists fs, retrieved self vector_store_id k model i r = Return fs) ->
  exists results,
    executor_map
      (fun i r => result (process_query self vector_store_id k model i r)) 0
      (rows_of questions_dict) = Return results.
Proof.
  intros H. apply executor_map_total. intros j r Hj. simpl.
  destruct (H j r Hj) as (fs & Hfs).
  destruct (process_query_scores _ _ _ _ _ _ Hfs) as (rr & ap & Hres & _).
  eauto.
Qed.

(** C1: for a non-empty [questions_dict], when for every query the
    expected filename is among the top-k filenames retrieved for it,
    [evaluate_retrieval] returns metrics whose [recall@k] is 1. *)
Theorem recall_one_when_all_expected_found
    self vector_store_id questions_dict k model :
  questions_dict <> [] ->
  (forall i r, nth_error (rows_of questions_dict) i = Some r ->
     exists files,
       retrieved self vector_store_id k model i r = Return (Some files) /\
       In (expected_filename r) files) ->
  exists m recall,
    evaluate_retrieval self vector_store_id questions_dict k model = Return m /\
    dict_get ("recall@" ++ str_of_int k) m = Some recall /\
    (recall == 1)%Q.
Proof.
  intros Hne Hall.
  destruct (@tasks_return self vector_store_id questions_dict k model)
    as (results & Hres).
  { intros i r Hi. destruct (Hall i r Hi) as (files & Hf & _). eauto. }
  pose proof (evaluate_retrieval_run self vector_store_id k model Hne Hres) as Hrun.
  cbv zeta in Hrun.
  assert (Hhits : Forall (fun res : bool * Q * Q => fst (fst res) = true) results).
  { eapply executor_map_Forall; [exact Hres |].
    intros j r res Hj Hr. simpl in Hr.
    destruct (Hall j r Hj) as (files & Hf & Hin).
    destruct (process_query_scores _ _ _ _ _ _ Hf) as (rr & ap & Hq & _).
    rewrite Hq in Hr. injection Hr as <-. simpl.
    apply contains_In. assumption. }
  rewrite (filter_all _ Hhits) in Hrun.
  destruct (executor_map_nth _ _ _ Hres) as (Hlen & _).
  rewrite Hlen in Hrun.
  eexists. eexists. split; [exact Hrun |]. split; [apply dict_get_head |].
  assert (Hn : 0 < List.length (rows_of questions_dict)).
  { rewrite rows_of_length. destruct questions_dict; [congruence | simpl; lia]. }
  pose proof (of_nat_pos Hn) as P.
  field. intros E. rewrite E in P. revert P. apply Qlt_irrefl.
Qed.

Lemma recall_one_sample :
  exists m recall,
    evaluate_retrieval Samples.healthy "vs_1" Samples.questions 5 "gpt-4o-mini"
      = Return m /\
    dict_get ("recall@" ++ str_of_int 5) m = Some recall /\
    (recall == 1)%Q.
Proof.
  apply (@recall_one_when_all_expected_found
           Samples.healthy "vs_1"%string Samples.questions 5%Z "gpt-4o-mini"%string).
  - discriminate.
  - intros [| [| i]] r H; simpl in H.
    + injection H as <-. eexists. split; [reflexivity |]. simpl. tauto.
    + injection H as <-. eexists. split; [reflexivity |]. simpl. tauto.
    + destruct i; discriminate H.
Defined.



(** C8: whatever the queries, [k] and the retrieved results, a metrics
    dictionary returned by [evaluate_retrieval] holds the same value
    under [precision@k] and under [recall@k]. *)
Theorem precision_equals_recall
    self vector_store_id questions_dict k model m :
  evaluate_retrieval self vector_store_id questions_dict k model = Return m ->
  exists v,
    dict_get ("precision@" ++ str_of_int k) m = Some v /\
    dict_get ("recall@" ++ str_of_int k) m = Some v.
Proof.
  intros H.
  destruct (evaluate_retrieval_inv _ _ _ _ _ H) as (Hne & results & Hres).
  pose proof (evaluate_retrieval_run self vector_store_id k model Hne Hres) as Hrun.
  cbv zeta in Hrun. rewrite Hrun in H. injection H as <-.
  eexists. split; [| apply dict_get_head].
  simpl. rewrite String.eqb_refl. reflexivity.
Qed.

Lemma same_value_sample :
  exists v,
    dict_get ("precision@" ++ str_of_int 5)
      [("recall@5", 2 # 2); ("precision@5", 2 # 2); ("mrr", 3 # 4); ("map", 19 # 24)]%string%Q
      = Some v /\
    dict_get ("recall@" ++ str_of_int 5)
      [("recall@5", 2 # 2); ("precision@5", 2 # 2); ("mrr", 3 # 4); ("map", 19 # 24)]%string%Q
      = Some v.
Proof.
  apply (@precision_equals_recall
           Samples.healthy "vs_1"%string
           [("a.pdf", "What does a say?"); ("b", "What does b say?")]%string
           5%Z "gpt-4o-mini"%string).
  vm_compute. reflexivity.
Defined.

(** C9: with an empty [questions_dict] the number of queries is 0 and
    [evaluate_retrieval] raises [ZeroDivisionError] at the first of its
    unguarded divisions; no metrics are returned. *)
Theorem empty_questions_raise_zero_division self vector_store_id k model :
  evaluate_retrieval self vector_store_id [] k model
  = Raise (Exn ZeroDivisionError "division by zero").
Proof. reflexivity. Qed.

(** C10: for a non-empty [questions_dict], the four metrics returned by
    [evaluate_retrieval] lie in [0, 1], and so do the reciprocal rank and
    the average precision returned by [process_query] for each query. *)
Theorem metrics_within_unit_interval
    self vector_store_id questions_dict k model m :
  questions_dict <> [] ->
  evaluate_retrieval self vector_store_id questions_dict k model = Return m ->
  (exists recall precision mrr map_score,
     m = [(("recall@" ++ str_of_int k)%string, recall);
          (("precision@" ++ str_of_int k)%string, precision);
          ("mrr"%string, mrr);
          ("map"%string, map_score)] /\
     unit_interval recall /\ unit_interval precision /\
     unit_interval mrr /\ unit_interval map_score) /\
  (forall i r correct rr ap,
     result (process_query self vector_store_id k model i r)
       = Return (correct, rr, ap) ->
     unit_interval rr /\ unit_interval ap).
Proof.
  intros Hne H.
  assert (Hquery : forall i r correct rr ap,
             result (process_query self vector_store_id k model i r)
               = Return (correct, rr, ap) ->
             unit_interval rr /\ unit_interval ap).
  { intros i r c rr ap Hq.
    destruct (process_query_returns _ _ _ _ _ _ Hq) as (fs & Hfs).
    destruct (process_query_scores _ _ _ _ _ _ Hfs) as (rr' & ap' & Hq' & _ & Hu & Hau).
    rewrite Hq' in Hq. injection Hq as _ <- <-. split; assumption. }
  split; [| exact Hquery].
  destruct (evaluate_retrieval_inv _ _ _ _ _ H) as (_ & results & Hres).
  pose proof (evaluate_retrieval_run self vector_store_id k model Hne Hres) as Hrun.
  cbv zeta in Hrun. rewrite Hrun in H. injection H as <-.
  destruct (executor_map_nth _ _ _ Hres) as (Hlen & _).
  assert (Hn : 0 < List.length (rows_of questions_dict)).
  { rewrite rows_of_length. destruct questions_dict; [congruence | simpl; lia]. }
  assert (Hall : Forall (fun res : bool * Q * Q =>
                           unit_interval (snd (fst res)) /\ unit_interval (snd res))
                        results).
  { eapply executor_map_Forall; [exact Hres |].
    intros j r [[c rr] ap] _ Hq. simpl in Hq. simpl. eapply Hquery. exact Hq. }
  assert (Hrecall : unit_interval
            (of_nat (List.length (filter (fun res : bool * Q * Q => fst (fst res)) results))
             / of_nat (List.length (rows_of questions_dict)))%Q).
  { apply ratio_unit; [assumption | apply of_nat_nonneg |].
    apply of_nat_le. rewrite <- Hlen. apply filter_length_le. }
  do 4 eexists. split; [reflexivity |].
  split; [exact Hrecall |]. split; [exact Hrecall |]. split.
  - assert (Hrr : Forall unit_interval (map (fun res : bool * Q * Q => snd (fst res)) results)).
    { apply Forall_map. eapply Forall_impl; [| exact Hall]. intros res [U _]. exact U. }
    destruct (sum_unit Hrr) as [S0 S1]. rewrite length_map, Hlen in S1.
    apply ratio_unit; assumption.
  - assert (Hap : Forall unit_interval (map (@snd (bool * Q) Q) results)).
    { apply Forall_map. eapply Forall_impl; [| exact Hall]. intros res [_ U]. exact U. }
    destruct (sum_unit Hap) as [S0 S1]. rewrite length_map, Hlen in S1.
    apply ratio_unit; assumption.
Qed.

Lemma bounded_metrics_sample :
  (exists recall precision mrr map_score,
     [("recall@5", 2 # 2); ("precision@5", 2 # 2); ("mrr", 3 # 4); ("map", 19 # 24)]%string%Q
     = [(("recall@" ++ str_of_int 5)%string, recall);
        (("precision@" ++ str_of_int 5)%string, precision);
        ("mrr"%string, mrr);
        ("map"%string, map_score)] /\
     unit_interval recall /\ unit_interval precision /\
     unit_interval mrr /\ unit_interval map_score) /\
  (forall i r correct rr ap,
     result (process_query Samples.healthy "vs_1" 5 "gpt-4o-mini" i r)
       = Return (correct, rr, ap) ->
     unit_interval rr /\ unit_interval ap).
Proof.
  apply (@metrics_within_unit_interval
           Samples.healthy "vs_1"%string
           [("a.pdf", "What does a say?"); ("b", "What does b say?")]%string
           5%Z "gpt-4o-mini"%string).
  - discriminate.
  - vm_compute. reflexivity.
Defined.

End RetrievalSpec.

(* ===================================================================== *)
(** ** The parallel upload *)
(* ===================================================================== *)

Module UploadFacts.
Import Py Api FileSearch Props PyFacts.

(** [upload_single_pdf] catches whatever its calls raise. *)
Lemma upload_single_pdf_result self file_path vector_store_id :
  result (upload_single_pdf self file_path vector_store_id)
  = Return (upload_record self vector_store_id file_path).
Proof.
  unfold upload_single_pdf, upload_record, upload_calls.
  destruct (open_rb self file_path) as [f | e]; [| reflexivity].
  simpl. destruct (files_create self f "assistants") as [fr | e]; [| reflexivity].
  simpl. destruct (vector_stores_files_create self vector_store_id (file_id fr))
    as [[] | e]; reflexivity.
Qed.

Lemma upload_single_pdf_stdout self file_path vector_store_id :
  stdout (upload_single_pdf self file_path vector_store_id)
  = match upload_calls self vector_store_id file_path with
    | Return _ => []
    | Raise e => [[Lit ("Error with " ++ basename file_path ++ ": " ++ exn_str e)]]
    end.
Proof.
  unfold upload_single_pdf, upload_calls.
  destruct (open_rb self file_path) as [f | e]; [| reflexivity].
  simpl. destruct (files_create self f "assistants") as [fr | e]; [| reflexivity].
  simpl. destruct (vector_stores_files_create self vector_store_id (file_id fr))
    as [[] | e]; reflexivity.
Qed.

Lemma failed_upload_record self vector_store_id file_path :
  failed (upload_record self vector_store_id file_path) = true <->
  exists e, upload_calls self vector_store_id file_path = Raise e.
Proof.
  unfold upload_record.
  destruct (upload_calls self vector_store_id file_path) as [[] | e]; simpl.
  - split; [discriminate | intros (e & H); discriminate].
  - split; [eauto | reflexivity].
Qed.

Section Completion.
Context {A : Type}.

Lemma flat_map_nth_seq (l : list A) :
  forall pre,
    flat_map (fun i => match nth_error (pre ++ l) i with
                       | Some f => [f]
                       | None => []
                       end) (seq (List.length pre) (List.length l)) = l.
Proof.
  induction l as [| a l IH]; intros pre; [reflexivity |].
  cbn [List.length seq flat_map].
  rewrite nth_error_app2, Nat.sub_diag by lia. cbn [nth_error app].
  f_equal.
  specialize (IH (pre ++ [a])).
  rewrite <- app_assoc, length_app in IH. cbn [app List.length] in IH.
  rewrite Nat.add_1_r in IH. exact IH.
Qed.

(** Every submitted future is yielded once. *)
Lemma as_completed_permutation completion (futures : list A) :
  Permutation completion (seq 0 (List.length futures)) ->
  Permutation (as_completed completion futures) futures.
Proof.
  intros H. unfold as_completed.
  rewrite H. pose proof (flat_map_nth_seq futures []) as E.
  cbn [app List.length] in E. rewrite E. reflexivity.
Qed.

Lemma as_completed_map {B} (f : A -> B) completion (l : list A) :
  as_completed completion (map f l) = map f (as_completed completion l).
Proof.
  unfold as_completed.
  induction completion as [| i c IH]; [reflexivity |].
  cbn [flat_map]. rewrite map_app, IH. f_equal.
  rewrite nth_error_map. destruct (nth_error l i); reflexivity.
Qed.

Lemma Permutation_filter (f : A -> bool) (l l' : list A) :
  Permutation l l' -> Permutation (filter f l) (filter f l').
Proof.
  induction 1 as [| x l l' _ IH | x y l | l l' l'' _ IH1 _ IH2]; simpl.
  - constructor.
  - destruct (f x); [constructor |]; assumption.
  - destruct (f x), (f y); try reflexivity. constructor.
  - etransitivity; eassumption.
Qed.
End Completion.

(** The loop over the futures of uploads never raises: it folds the
    records of the files. *)
Lemma collect_results_uploads self vector_store_id files :
  forall stats,
    collect_results
      (map (fun file_path => upload_single_pdf self file_path vector_store_id) files)
      stats
    = Return (fold_left record_result
                (map (upload_record self vector_store_id) files) stats).
Proof.
  induction files as [| p files IH]; intros stats; [reflexivity |].
  cbn [map collect_results fold_left].
  rewrite upload_single_pdf_result. cbn [obind]. apply IH.
Qed.

(** The counters after the loop. *)
Lemma record_results results :
  forall stats,
    let stats' := fold_left record_result results stats in
    total_files stats' = total_files stats /\
    successful_uploads stats' =
      successful_uploads stats
      + List.length (filter (fun r => negb (failed r)) results) /\
    failed_uploads stats' = failed_uploads stats + List.length (filter failed results) /\
    errors stats' = errors stats ++ filter failed results.
Proof.
  induction results as [| r results IH]; intros stats; cbn zeta.
  - simpl. rewrite !Nat.add_0_r, app_nil_r. tauto.
  - cbn [fold_left].
    destruct (IH (record_result stats r)) as (T & S & F & E).
    rewrite T, S, F, E. clear.
    unfold record_result, failed. cbn [filter].
    destruct (status r =? "success")%string; cbn [negb total_files successful_uploads
      failed_uploads errors List.length].
    + repeat split; lia.
    + rewrite <- app_assoc. repeat split; lia.
Qed.

(** What [upload_pdf_files_to_vector_store] returns for a listing and a
    completion order. *)
Lemma upload_run self vector_store_id dir_pdfs completion entries :
  listdir self dir_pdfs = Return entries ->
  let pdf_files := pdf_files_in dir_pdfs entries in
  upload_pdf_files_to_vector_store self vector_store_id dir_pdfs completion
  = ([[Fmt (VInt (Z.of_nat (List.length pdf_files)));
       Lit " PDF files to process. Uploading in parallel..."]],
     Return (fold_left record_result
               (as_completed completion (map (upload_record self vector_store_id) pdf_files))
               (empty_stats (List.length pdf_files)))).
Proof.
  intros H pdf_files. unfold upload_pdf_files_to_vector_store.
  rewrite H. cbv zeta. cbn [bind lift print app]. fold pdf_files.
  rewrite as_completed_map, collect_results_uploads, <- as_completed_map.
  reflexivity.
Qed.

End UploadFacts.

Module UploadSpec.
Import Py Api FileSearch Props PyFacts UploadFacts.

(** C3: for a directory that can be listed, the statistics returned by
    [upload_pdf_files_to_vector_store] satisfy
    [successful_uploads + failed_uploads = total_files], [total_files]
    is the number of entries whose lowercased name ends in [.pdf], and
    [errors] holds exactly one entry per failed upload. *)
Theorem upload_counts_add_up self vector_store_id dir_pdfs completion entries :
  listdir self dir_pdfs = Return entries ->
  Permutation completion (seq 0 (List.length (pdf_files_in dir_pdfs entries))) ->
  exists out stats,
    upload_pdf_files_to_vector_store self vector_store_id dir_pdfs completion
      = (out, Return stats) /\
    successful_uploads stats + failed_uploads stats = total_files stats /\
    total_files stats
      = List.length (filter (fun f => endswith (lower f) ".pdf") entries) /\
    List.length (errors stats) = failed_uploads stats /\
    Permutation (errors stats)
      (filter failed
         (map (upload_record self vector_store_id) (pdf_files_in dir_pdfs entries))).
Proof.
  intros Hdir Hperm.
  pose proof (@upload_run self vector_store_id dir_pdfs completion entries Hdir) as Hrun.
  cbv zeta in Hrun.
  set (pdf_files := pdf_files_in dir_pdfs entries) in *.
  set (records := map (upload_record self vector_store_id) pdf_files) in *.
  assert (Hdone : Permutation (as_completed completion records) records).
  { apply as_completed_permutation. subst records. rewrite length_map. exact Hperm. }
  destruct (record_results (as_completed completion records)
              (empty_stats (List.length pdf_files))) as (T & S & F & E).
  cbn [empty_stats total_files successful_uploads failed_uploads errors
       Nat.add app] in T, S, F, E.
  eexists. eexists. split; [exact Hrun |].
  rewrite T, S, F, E.
  split; [| split; [| split]].
  - rewrite Nat.add_comm, filter_length.
    rewrite (Permutation_length Hdone). subst records. apply length_map.
  - subst pdf_files. unfold pdf_files_in. apply length_map.
  - reflexivity.
  - apply Permutation_filter. exact Hdone.
Qed.

Lemma upload_counts_sample :
  exists out stats,
    upload_pdf_files_to_vector_store Samples.unavailable "vs_1" "docs" [1; 0]
      = (out, Return stats) /\
    successful_uploads stats + failed_uploads stats = total_files stats /\
    total_files stats
      = List.length (filter (fun f => endswith (lower f) ".pdf")
                       ["a.pdf"; "notes.txt"; "B.PDF"]%string) /\
    List.length (errors stats) = failed_uploads stats /\
    Permutation (errors stats)
      (filter failed
         (map (upload_record Samples.unavailable "vs_1")
            (pdf_files_in "docs" ["a.pdf"; "notes.txt"; "B.PDF"]%string))).
Proof.
  apply (@upload_counts_add_up Samples.unavailable "vs_1"%string "docs"%string [1; 0]
           ["a.pdf"; "notes.txt"; "B.PDF"]%string).
  - reflexivity.
  - simpl. apply perm_swap.
Defined.

(** C6: whatever an upload raises is caught inside [upload_single_pdf],
    which returns the record of that file: a success when its three
    calls went through, else the failure record with the text of the
    exception, printed as [Error with <name>: <text>].  The statistics
    are aggregated over exactly one record per submitted file, whether
    or not other files failed: [successful_uploads] is the number of
    success records, [failed_uploads] the number of failure records,
    [errors] the failure records in the order of completion, and the
    two counters add up to the number of files. *)
Theorem upload_failures_stay_per_file
    self vector_store_id dir_pdfs completion entries :
  listdir self dir_pdfs = Return entries ->
  Permutation completion (seq 0 (List.length (pdf_files_in dir_pdfs entries))) ->
  (forall file_path,
     result (upload_single_pdf self file_path vector_store_id)
       = Return (upload_record self vector_store_id file_path) /\
     (forall u,
        upload_calls self vector_store_id file_path = Return u ->
        upload_record self vector_store_id file_path
          = {| file := basename file_path; status := "success"; error := None |} /\
        stdout (upload_single_pdf self file_path vector_store_id) = []) /\
     forall e,
       upload_calls self vector_store_id file_path = Raise e ->
       upload_record self vector_store_id file_path
         = {| file := basename file_path; status := "failed";
              error := Some (exn_str e) |} /\
       stdout (upload_single_pdf self file_path vector_store_id)
         = [[Lit ("Error with " ++ basename file_path ++ ": " ++ exn_str e)]]) /\
  exists out results stats,
    Permutation results
      (map (upload_record self vector_store_id) (pdf_files_in dir_pdfs entries)) /\
    upload_pdf_files_to_vector_store self vector_store_id dir_pdfs completion
      = (out, Return stats) /\
    stats = fold_left record_result results
              (empty_stats (List.length (pdf_files_in dir_pdfs entries))) /\
    total_files stats = List.length (pdf_files_in dir_pdfs entries) /\
    successful_uploads stats
      = List.length (filter (fun r => String.eqb (status r) "success") results) /\
    failed_uploads stats
      = List.length (filter (fun r => negb (String.eqb (status r) "success")) results) /\
    errors stats
      = filter (fun r => negb (String.eqb (status r) "success")) results /\
    successful_uploads stats + failed_uploads stats
      = List.length (pdf_files_in dir_pdfs entries).
Proof.
  intros Hdir Hperm. split.
  - intros file_path. split; [apply upload_single_pdf_result |].
    split.
    + intros u Hu. rewrite upload_single_pdf_stdout. unfold upload_record.
      rewrite Hu. split; reflexivity.
    + intros e He. rewrite upload_single_pdf_stdout. unfold upload_record.
      rewrite He. split; reflexivity.
  - pose proof (@upload_run self vector_store_id dir_pdfs completion entries Hdir) as Hrun.
    cbv zeta in Hrun.
    set (pdf_files := pdf_files_in dir_pdfs entries) in *.
    set (records := map (upload_record self vector_store_id) pdf_files) in *.
    assert (Hdone : Permutation (as_completed completion records) records).
    { apply as_completed_permutation. subst records. rewrite length_map. exact Hperm. }
    destruct (record_results (as_completed completion records)
                (empty_stats (List.length pdf_files))) as (T & S & F & E).
    cbn [empty_stats total_files successful_uploads failed_uploads errors
         Nat.add app] in T, S, F, E.
    assert (Hok : filter (fun r => negb (failed r)) (as_completed completion records)
                  = filter (fun r => String.eqb (status r) "success")
                      (as_completed completion records)).
    { apply filter_ext. intros r. unfold failed. apply negb_involutive. }
    rewrite Hok in S. unfold failed in F, E.
    exists [[Fmt (VInt (Z.of_nat (List.length pdf_files)));
             Lit " PDF files to process. Uploading in parallel..."]],
           (as_completed completion records),
           (fold_left record_result (as_completed completion records)
              (empty_stats (List.length pdf_files))).
    split; [exact Hdone |].
    split; [exact Hrun |].
    split; [reflexivity |].
    split; [exact T |].
    split; [exact S |].
    split; [exact F |].
    split; [exact E |].
    rewrite S, F, filter_length.
    rewrite (Permutation_length Hdone). subst records. apply length_map.
Qed.

Lemma upload_failures_sample :
  (forall file_path,
     result (upload_single_pdf Samples.unavailable file_path "vs_1")
       = Return (upload_record Samples.unavailable "vs_1" file_path) /\
     (forall u,
        upload_calls Samples.unavailable "vs_1" file_path = Return u ->
        upload_record Samples.unavailable "vs_1" file_path
          = {| file := basename file_path; status := "success"; error := None |} /\
        stdout (upload_single_pdf Samples.unavailable file_path "vs_1") = []) /\
     forall e,
       upload_calls Samples.unavailable "vs_1" file_path = Raise e ->
       upload_record Samples.unavailable "vs_1" file_path
         = {| file := basename file_path; status := "failed";
              error := Some (exn_str e) |} /\
       stdout (upload_single_pdf Samples.unavailable file_path "vs_1")
         = [[Lit ("Error with " ++ basename file_path ++ ": " ++ exn_str e)]]) /\
  exists out results stats,
    Permutation results
      (map (upload_record Samples.unavailable "vs_1")
         (pdf_files_in "docs" ["a.pdf"; "notes.txt"; "B.PDF"]%string)) /\
    upload_pdf_files_to_vector_store Samples.unavailable "vs_1" "docs" [1; 0]
      = (out, Return stats) /\
    stats = fold_left record_result results
              (empty_stats
                 (List.length
                    (pdf_files_in "docs" ["a.pdf"; "notes.txt"; "B.PDF"]%string))) /\
    total_files stats
      = List.length (pdf_files_in "docs" ["a.pdf"; "notes.txt"; "B.PDF"]%string) /\
    successful_uploads stats
      = List.length (filter (fun r => String.eqb (status r) "success") results) /\
    failed_uploads stats
      = List.length (filter (fun r => negb (String.eqb (status r) "success")) results) /\
    errors stats
      = filter (fun r => negb (String.eqb (status r) "success")) results /\
    successful_uploads stats + failed_uploads stats
      = List.length (pdf_files_in "docs" ["a.pdf"; "notes.txt"; "B.PDF"]%string).
Proof.
  apply (@upload_failures_stay_per_file Samples.unavailable "vs_1"%string
           "docs"%string [1; 0] ["a.pdf"; "notes.txt"; "B.PDF"]%string).
  - reflexivity.
  - simpl. apply perm_swap.
Defined.

End UploadSpec.

(* ===================================================================== *)
(** ** Error handling around the external calls *)
(* ===================================================================== *)

Module ErrorFacts.
Import Py Api FileSearch Props PyFacts SearchFacts.

Lemma create_vector_store_sentinel self store_name e :
  vector_stores_create self store_name = Raise e ->
  create_vector_store self store_name
  = ([[Lit ("Error creating vector store: " ++ exn_str e)]], Return []).
Proof. intros H. unfold create_vector_store. rewrite H. reflexivity. Qed.

Lemma vector_search_sentinel self vector_store_id query e :
  vector_stores_search self vector_store_id query = Raise e ->
  vector_search self vector_store_id query
  = ([[Lit ("Error searching vector store: " ++ exn_str e)]], Return None).
Proof. intros H. unfold vector_search. rewrite H. reflexivity. Qed.


(** Reading a PDF never raises: errors are printed and the text read so
    far is returned. *)
Lemma extract_text_from_pdf_returns self pdf_path :
  exists text, result (extract_text_from_pdf self pdf_path) = Return text.
Proof.
  unfold extract_text_from_pdf.
  destruct (pdf_pages self pdf_path) as [pages | e]; [| eexists; reflexivity].
  destruct (extract_pages pages "") as [text [e |]]; eexists; reflexivity.
Qed.

End ErrorFacts.

Module ErrorSpec.
Import Py Api FileSearch Props PyFacts SearchFacts ErrorFacts.

(** C4, where the code departs from it: [generate_questions] and the
    tasks of [evaluate_retrieval] call the service outside any [try];
    when the call raises, neither prints the exception nor returns a
    sentinel, the exception reaches the caller. *)
Theorem unwrapped_calls_propagate
    self pdf_path vector_store_id questions_dict k model e :
  (forall i req, responses_create self i req = Raise e) ->
  questions_dict <> [] ->
  result (generate_questions self pdf_path) = Raise e /\
  stdout (generate_questions self pdf_path)
    = stdout (extract_text_from_pdf self pdf_path) /\
  evaluate_retrieval self vector_store_id questions_dict k model = Raise e.
Proof.
  intros Hcall Hne. split; [| split].
  - unfold generate_questions. rewrite result_bind.
    destruct (extract_text_from_pdf_returns self pdf_path) as (text & Ht).
    rewrite Ht. cbn [obind]. rewrite result_bind, result_lift, Hcall. reflexivity.
  - unfold generate_questions.
    destruct (extract_text_from_pdf_returns self pdf_path) as (text & Ht).
    destruct (extract_text_from_pdf self pdf_path) as [out r]. simpl in Ht. subst r.
    cbn [bind stdout fst]. rewrite Hcall. cbn [lift bind fst]. apply app_nil_r.
  - destruct questions_dict as [| [filename query] rest]; [congruence |].
    unfold evaluate_retrieval. cbn [rows_of map executor_map].
    rewrite process_query_result. unfold retrieved. rewrite Hcall. reflexivity.
Qed.

Lemma unwrapped_calls_sample :
  result (generate_questions Samples.unavailable "docs/a.pdf") = Raise Samples.rate_limit /\
  stdout (generate_questions Samples.unavailable "docs/a.pdf")
    = stdout (extract_text_from_pdf Samples.unavailable "docs/a.pdf") /\
  evaluate_retrieval Samples.unavailable "vs_1" Samples.questions 5 "gpt-4o-mini"
    = Raise Samples.rate_limit.
Proof.
  apply (@unwrapped_calls_propagate Samples.unavailable "docs/a.pdf"%string
           "vs_1"%string Samples.questions 5%Z "gpt-4o-mini"%string
           Samples.rate_limit).
  - reflexivity.
  - discriminate.
Defined.

(** C5, where the code departs from it: when [vector_search] returns its
    sentinel [None], the [search] action of [main] goes on to read
    [results.data] and stops with an [AttributeError]; the only line
    printed is the one of [vector_search]. *)
Theorem search_action_dereferences_none search_api store_id query e :
  missing (Some store_id) = false ->
  missing (Some query) = false ->
  vector_stores_search search_api store_id query = Raise e ->
  vector_search search_api store_id query
    = ([[Lit ("Error searching vector store: " ++ exn_str e)]], Return None) /\
  main_search search_api (Some store_id) (Some query)
    = ([[Lit ("Error searching vector store: " ++ exn_str e)]],
       Raise (Exn AttributeError "'NoneType' object has no attribute 'data'")).
Proof.
  intros Hs Hq Hcall.
  pose proof (@vector_search_sentinel search_api store_id query e Hcall) as Hv.
  split; [exact Hv |].
  unfold main_search. rewrite Hs, Hq. cbn [orb]. rewrite Hv. reflexivity.
Qed.

Lemma search_action_sample :
  vector_search Samples.unavailable "vs_1" "what is a?"
    = ([[Lit ("Error searching vector store: " ++ exn_str Samples.rate_limit)]],
       Return None) /\
  main_search Samples.unavailable (Some "vs_1"%string) (Some "what is a?"%string)
    = ([[Lit ("Error searching vector store: " ++ exn_str Samples.rate_limit)]],
       Raise (Exn AttributeError "'NoneType' object has no attribute 'data'")).
Proof.
  apply (@search_action_dereferences_none Samples.unavailable "vs_1"%string
           "what is a?"%string Samples.rate_limit); reflexivity.
Defined.

End ErrorSpec.

(* ===================================================================== *)
(** ** The plotting table *)
(* ===================================================================== *)

Module TableFacts.
Import Py Visualizer Props PyFacts.

Lemma dict_get_set_column_same key vals cols :
  dict_get key (set_column key vals cols) = Some vals.
Proof.
  induction cols as [| [k v] cols IH]; simpl.
  - rewrite String.eqb_refl. reflexivity.
  - destruct (String.eqb k key) eqn:E; simpl; rewrite E; [reflexivity | exact IH].
Qed.

Lemma dict_get_set_column_other key key' vals cols :
  key <> key' ->
  dict_get key' (set_column key vals cols) = dict_get key' cols.
Proof.
  intros N. induction cols as [| [k v] cols IH]; simpl.
  - apply String.eqb_neq in N. rewrite N. reflexivity.
  - destruct (String.eqb_spec k key) as [-> | Nk]; simpl.
    + apply String.eqb_neq in N. rewrite N. reflexivity.
    + rewrite IH. reflexivity.
Qed.

Lemma set_column_lengths n key vals cols :
  List.length vals = n ->
  Forall (fun c : string * list value => List.length (snd c) = n) cols ->
  Forall (fun c : string * list value => List.length (snd c) = n)
         (set_column key vals cols).
Proof.
  intros Hv. induction 1 as [| [k v] cols Hc Hcols IH]; simpl.
  - constructor; [exact Hv | constructor].
  - destruct (String.eqb k key); constructor; assumption.
Qed.

Lemma list_set_length {A} i (x : A) l : List.length (list_set i x l) = List.length l.
Proof.
  revert i. induction l as [| y l IH]; intros [| i]; simpl; try reflexivity.
  rewrite IH. reflexivity.
Qed.

(** Writing a cell of column [key] leaves the other columns as they are. *)
Lemma at_set_other df i key v key' :
  key <> key' ->
  dict_get key' (columns (at_set df i key v)) = dict_get key' (columns df).
Proof.
  intros N. unfold at_set. cbn [columns].
  induction (columns df) as [| [k c] cols IH]; [reflexivity |].
  cbn [map fst snd]. destruct (String.eqb_spec k key) as [-> | Nk]; simpl.
  - apply String.eqb_neq in N. rewrite N. exact IH.
  - rewrite IH. reflexivity.
Qed.

Lemma at_set_well_formed df i key v :
  well_formed df -> well_formed (at_set df i key v).
Proof.
  unfold well_formed, at_set. cbn [columns nrows].
  induction 1 as [| [k c] cols Hc _ IH]; simpl; constructor; try assumption.
  destruct (String.eqb k key); simpl; [rewrite list_set_length |]; exact Hc.
Qed.

Lemma setitem_scalar_other df key v key' :
  key <> key' ->
  dict_get key' (columns (setitem_scalar df key v)) = dict_get key' (columns df).
Proof. intros N. apply dict_get_set_column_other. exact N. Qed.

Lemma setitem_scalar_well_formed df key v :
  well_formed df -> well_formed (setitem_scalar df key v).
Proof.
  intros H. unfold well_formed, setitem_scalar. cbn [columns nrows].
  apply set_column_lengths; [apply repeat_length | exact H].
Qed.

(** Adding the metadata of one row changes neither the number of rows
    nor the columns whose name is not a key of the metadata. *)
Lemma add_metadata_items_keeps i items :
  forall df,
    nrows (add_metadata_items i items df) = nrows df /\
    (well_formed df -> well_formed (add_metadata_items i items df)) /\
    forall key',
      (forall key v, In (key, v) items -> key <> key') ->
      dict_get key' (columns (add_metadata_items i items df))
      = dict_get key' (columns df).
Proof.
  induction items as [| [key v] items IH]; intros df.
  - simpl. tauto.
  - cbn [add_metadata_items].
    set (df' := if negb (has_column key df) then setitem_scalar df key VNone else df).
    destruct (IH (at_set df' i key v)) as (Hn & Hw & Hk).
    assert (Hn' : nrows df' = nrows df) by (subst df'; destruct (negb _); reflexivity).
    assert (Hw' : well_formed df -> well_formed df').
    { subst df'. destruct (negb _); [apply setitem_scalar_well_formed | tauto]. }
    split; [rewrite Hn; exact Hn' |].
    split; [intros W; apply Hw, at_set_well_formed, Hw', W |].
    intros key' Hother.
    assert (N : key <> key') by (apply (Hother key v); left; reflexivity).
    rewrite Hk by (intros k w Hin; apply (Hother k w); right; exact Hin).
    rewrite at_set_other by exact N.
    subst df'. destruct (negb _); [apply setitem_scalar_other; exact N | reflexivity].
Qed.

Lemma add_metadata_keeps embeddings_data :
  forall i df,
    nrows (add_metadata i embeddings_data df) = nrows df /\
    (well_formed df -> well_formed (add_metadata i embeddings_data df)) /\
    forall key',
      (forall d key v, In d embeddings_data -> In (key, v) (metadata d) -> key <> key') ->
      dict_get key' (columns (add_metadata i embeddings_data df))
      = dict_get key' (columns df).
Proof.
  induction embeddings_data as [| d rest IH]; intros i df.
  - simpl. tauto.
  - cbn [add_metadata].
    destruct (add_metadata_items_keeps i (metadata d) df) as (Hn1 & Hw1 & Hk1).
    destruct (IH (S i) (add_metadata_items i (metadata d) df)) as (Hn & Hw & Hk).
    split; [congruence |]. split; [tauto |].
    intros key' Hother.
    rewrite Hk by (intros d' k w Hd; apply Hother; right; exact Hd).
    apply Hk1. intros k w Hin. apply (Hother d k w); [left; reflexivity | exact Hin].
Qed.

Lemma width_of_equal_rows n rows :
  Forall (fun r : list Q => List.length r = n) rows ->
  rows <> [] ->
  width rows = n.
Proof.
  induction 1 as [| r rows Hr Hrows IH]; intros Hne; [congruence |].
  cbn [width fold_right]. fold (width rows).
  destruct rows as [| r' rows'].
  - cbn [width fold_right]. lia.
  - rewrite IH by discriminate. lia.
Qed.

(** An array with three entries per row becomes the columns x, y, z. *)
Lemma DataFrame_of_array_xyz rows :
  Forall (fun r : list Q => List.length r = 3) rows ->
  DataFrame_of_array rows ["x"; "y"; "z"]%string
  = Return {| nrows := List.length rows;
              columns := [("x"%string, array_column rows 0);
                          ("y"%string, array_column rows 1);
                          ("z"%string, array_column rows 2)] |}.
Proof.
  intros H. unfold DataFrame_of_array.
  destruct rows as [| r rows]; [reflexivity |].
  rewrite (@width_of_equal_rows 3 (r :: rows) H) by discriminate.
  reflexivity.
Qed.

Lemma setitem_returns df key vals :
  List.length vals = nrows df ->
  setitem df key vals
  = Return {| nrows := nrows df; columns := set_column key vals (columns df) |}.
Proof.
  intros H. unfold setitem. rewrite H.
  destruct (nrows df =? 0); cbn [negb andb]; rewrite Nat.eqb_refl; reflexivity.
Qed.

End TableFacts.

Module TableSpec.
Import Py Visualizer Props PyFacts TableFacts.

Lemma create_visualization_data_run embeddings_data reduced_embeddings cluster_labels :
  List.length reduced_embeddings = List.length embeddings_data ->
  List.length cluster_labels = List.length embeddings_data ->
  Forall (fun r : list Q => List.length r = 3) reduced_embeddings ->
  let df :=
    add_metadata 0 embeddings_data
      {| nrows := List.length reduced_embeddings;
         columns :=
           [("x"%string, array_column reduced_embeddings 0);
            ("y"%string, array_column reduced_embeddings 1);
            ("z"%string, array_column reduced_embeddings 2);
            ("id"%string, map (fun d => VStr (id d)) embeddings_data);
            ("filename"%string, map (fun d => VStr (filename d)) embeddings_data)] |} in
  create_visualization_data embeddings_data reduced_embeddings cluster_labels
  = ([], Return (Some
       {| nrows := nrows df;
          columns :=
            set_column "text_preview"
              (map (fun d => VStr (text_preview (text d))) embeddings_data)
              (set_column "cluster" (map VInt cluster_labels) (columns df)) |})).
Proof.
  intros Hr Hc H3 df.
  unfold create_visualization_data.
  rewrite DataFrame_of_array_xyz by exact H3.
  cbn [lift bind app].
  rewrite setitem_returns by (cbn [nrows]; rewrite length_map; congruence).
  cbn [lift bind app nrows columns].
  simpl (set_column "id" _ _).
  rewrite setitem_returns by (cbn [nrows]; rewrite length_map; congruence).
  cbn [lift bind app nrows columns].
  simpl (set_column "filename" _ _).
  fold df.
  assert (Hn : nrows df = List.length reduced_embeddings)
    by (subst df; apply add_metadata_keeps).
  rewrite setitem_returns by (rewrite length_map; congruence).
  cbn [lift bind app nrows columns].
  rewrite setitem_returns by (cbn [nrows]; rewrite length_map; congruence).
  reflexivity.
Qed.


Lemma apart_from_base embeddings_data key' :
  Forall metadata_apart embeddings_data ->
  In key' base_columns ->
  forall d key v, In d embeddings_data -> In (key, v) (metadata d) -> key <> key'.
Proof.
  intros Hm Hbase d key v Hd Hin ->.
  rewrite Forall_forall in Hm. exact (Hm d Hd key' v Hin Hbase).
Qed.

(** Reading a base column of the finished table: the two columns added
    last and the metadata columns are skipped, then the column is found
    among those the table started with. *)
Ltac base_cell H :=
  rewrite !dict_get_set_column_other by discriminate;
  rewrite H by (simpl; tauto);
  cbn.

(** C7, as the code has it: for lists of equal length [n] where every
    row of [reduced_embeddings] has three coordinates and no metadata
    key is named [x], [y], [z], [id] or [filename],
    [create_visualization_data] returns a table with one row per
    document; row [i] carries the coordinates of [reduced_embeddings[i]],
    the id and filename of [embeddings_data[i]], [cluster_labels[i]] and
    the preview of the text of [embeddings_data[i]]. *)
Theorem table_one_row_per_document
    embeddings_data reduced_embeddings cluster_labels :
  List.length reduced_embeddings = List.length embeddings_data ->
  List.length cluster_labels = List.length embeddings_data ->
  Forall (fun r : list Q => List.length r = 3) reduced_embeddings ->
  Forall metadata_apart embeddings_data ->
  one_row_per_document embeddings_data reduced_embeddings cluster_labels
    (create_visualization_data embeddings_data reduced_embeddings cluster_labels).
Proof.
  intros Hr Hc H3 Hm.
  pose proof (@create_visualization_data_run embeddings_data reduced_embeddings
                cluster_labels Hr Hc H3) as Hrun.
  cbv zeta in Hrun.
  set (df2 := {| nrows := List.length reduced_embeddings; columns := _ |}) in Hrun.
  destruct (add_metadata_keeps embeddings_data 0 df2) as (Hn & Hw & Hk).
  set (df := add_metadata 0 embeddings_data df2) in *.
  assert (Hrows : nrows df = List.length embeddings_data)
    by (rewrite Hn; exact Hr).
  assert (Hrows2 : nrows df2 = List.length embeddings_data) by exact Hr.
  assert (Hbase : forall key', In key' base_columns ->
                    dict_get key' (columns df) = dict_get key' (columns df2)).
  { intros key' Hin. apply Hk. apply apart_from_base; assumption. }
  eexists. split; [rewrite Hrun; reflexivity |].
  split; [exact Hrows |]. split.
  - unfold well_formed. cbn [columns nrows].
    apply set_column_lengths; [rewrite length_map; congruence |].
    apply set_column_lengths; [rewrite length_map; congruence |].
    apply Hw. unfold well_formed. rewrite Hrows2.
    unfold df2, array_column. cbn [columns].
    repeat constructor; cbn [snd]; rewrite length_map; congruence.
  - intros i d r c Hd Hrow Hlabel.
    assert (Hr3 : List.length r = 3).
    { rewrite Forall_forall in H3. apply H3. eapply nth_error_In. exact Hrow. }
    destruct r as [| x [| y [| z [| w r]]]]; try discriminate Hr3.
    unfold row_carries, cell. cbn [columns].
    repeat split.
    + base_cell Hbase. unfold array_column. rewrite nth_error_map, Hrow. reflexivity.
    + base_cell Hbase. unfold array_column. rewrite nth_error_map, Hrow. reflexivity.
    + base_cell Hbase. unfold array_column. rewrite nth_error_map, Hrow. reflexivity.
    + base_cell Hbase. rewrite nth_error_map, Hd. reflexivity.
    + base_cell Hbase. rewrite nth_error_map, Hd. reflexivity.
    + rewrite dict_get_set_column_other by discriminate.
      rewrite dict_get_set_column_same, nth_error_map, Hlabel. reflexivity.
    + rewrite dict_get_set_column_same, nth_error_map, Hd. reflexivity.
Qed.

Lemma table_sample :
  one_row_per_document [Samples.report] [[1; 2; 3]%Q] [0%Z]
    (create_visualization_data [Samples.report] [[1; 2; 3]%Q] [0%Z]).
Proof.
  apply (@table_one_row_per_document [Samples.report] [[1; 2; 3]%Q] [0%Z]).
  - reflexivity.
  - reflexivity.
  - repeat constructor.
  - repeat constructor. intros key v Hin Hbase. simpl in Hin, Hbase.
    decompose [or] Hin; decompose [or] Hbase; try contradiction; congruence.
Defined.

(** C7 as stated fails on lists of equal length 1: a metadata key named
    [filename] replaces the filename of its row, and an array with two
    coordinates per row gives no table at all. *)
Lemma table_breaks_on_shared_key_and_flat_array :
  (exists df,
     create_visualization_data [Samples.relabelled] [[1; 2; 3]%Q] [0%Z]
       = ([], Return (Some df)) /\
     cell df 0 "filename" = Some (VStr "other.pdf")) /\
  ~ one_row_per_document [Samples.relabelled] [[1; 2; 3]%Q] [0%Z]
      (create_visualization_data [Samples.relabelled] [[1; 2; 3]%Q] [0%Z]) /\
  result (create_visualization_data [Samples.report] [[1; 2]%Q] [0%Z]) = Return None /\
  ~ one_row_per_document [Samples.report] [[1; 2]%Q] [0%Z]
      (create_visualization_data [Samples.report] [[1; 2]%Q] [0%Z]).
Proof.
  split; [eexists; split; reflexivity |].
  split; [| split; [reflexivity |]].
  - intros (df & Hres & _ & _ & Hrows).
    cbv in Hres. injection Hres as <-.
    destruct (Hrows 0 Samples.relabelled [1; 2; 3]%Q 0%Z eq_refl eq_refl eq_refl)
      as (_ & _ & _ & _ & Hf & _).
    cbv in Hf. discriminate Hf.
  - intros (df & Hres & _). cbv in Hres. discriminate Hres.
Qed.

End TableSpec.

(* ===================================================================== *)
(** ** More about the scores of a query *)
(* ===================================================================== *)

Unset Implicit Arguments.

Module ScoreFacts.
Import Py Api FileSearch Props PyFacts SearchFacts.

(** What a task that returned has computed. *)
Lemma process_query_parts self vector_store_id k model i r c rr ap :
  result (process_query self vector_store_id k model i r) = Return (c, rr, ap) ->
  exists fs,
    retrieved self vector_store_id k model i r = Return fs /\
    match fs with
    | Some files =>
        reciprocal_rank (expected_filename r) files = Return (rr, c) /\
        average_precision (expected_filename r) files = Return ap
    | None => c = false /\ rr = 0%Q /\ ap = 0%Q
    end.
Proof.
  rewrite process_query_result.
  destruct (retrieved self vector_store_id k model i r) as [fs | e]; cbn [obind];
    [| discriminate].
  intros H. exists fs. split; [reflexivity |].
  destruct fs as [files |].
  - destruct (reciprocal_rank (expected_filename r) files) as [[rr' c'] | e];
      cbn [obind] in H; [| discriminate].
    destruct (average_precision (expected_filename r) files) as [ap' | e];
      cbn [obind fst snd] in H; [| discriminate].
    injection H as -> -> ->. split; reflexivity.
  - injection H as <- <- <-. repeat split.
Qed.

Lemma retrieved_top_k self vector_store_id k model i r files :
  retrieved self vector_store_id k model i r = Return (Some files) ->
  exists annotations, files = top_k_files k annotations.
Proof.
  unfold retrieved.
  destruct (responses_create self i _) as [resp | e]; cbn [obind]; [| discriminate].
  destruct (annotations_of resp) as [[anns |] | e]; cbn [obind option_map];
    try discriminate.
  intros H. injection H as <-. eauto.
Qed.

(** At most [k] filenames are looked at. *)
Lemma top_k_files_length k annotations :
  (0 <= k)%Z -> List.length (top_k_files k annotations) <= Z.to_nat k.
Proof.
  intros Hk. unfold top_k_files, slice_to. rewrite length_map.
  destruct (Z.leb_spec 0 k); [| lia]. apply firstn_le_length.
Qed.

Lemma reciprocal_rank_value expected files rr c :
  reciprocal_rank expected files = Return (rr, c) ->
  (c = true /\
   exists idx, index expected files = Return idx /\
               nth_error files idx = Some expected /\
               rr = (1 / of_nat (idx + 1))%Q) \/
  (c = false /\ rr = 0%Q /\ ~ In expected files).
Proof.
  unfold reciprocal_rank.
  destruct (contains expected files) eqn:C.
  - apply contains_In in C.
    destruct (index_first _ _ C) as (idx & Hi & Hn & _).
    rewrite Hi. cbn [obind]. rewrite div_pos by lia. cbn [obind].
    intros H. injection H as <- <-. left. split; [reflexivity |].
    exists idx. repeat split; assumption.
  - intros H. injection H as <- <-. right. repeat split.
    intros Hin. apply contains_In in Hin. congruence.
Qed.

Lemma inverse_positive n : 0 < n -> (0 < 1 / of_nat n)%Q.
Proof.
  intros H. apply Qlt_shift_div_l; [apply of_nat_pos; exact H |].
  rewrite Qmult_0_l. reflexivity.
Qed.

Lemma inverse_le (a b : Q) : (0 < a)%Q -> (a <= b)%Q -> (1 / b <= 1 / a)%Q.
Proof.
  intros Ha Hab.
  assert (Hb : (0 < b)%Q) by (eapply Qlt_le_trans; eassumption).
  apply Qle_shift_div_l; [exact Ha |].
  assert (E : (1 / b * a == a / b)%Q).
  { field. intros Z. rewrite Z in Hb. revert Hb. apply Qlt_irrefl. }
  rewrite E. apply Qle_shift_div_r; [exact Hb |]. rewrite Qmult_1_l. exact Hab.
Qed.

Lemma sum_nonneg l : Forall (fun q => 0 < q)%Q l -> (0 <= sum l)%Q.
Proof.
  induction 1 as [| x l Hx _ IH]; [apply Qle_refl |].
  rewrite sum_cons. lra.
Qed.

Lemma sum_positive l : Forall (fun q => 0 < q)%Q l -> l <> [] -> (0 < sum l)%Q.
Proof.
  intros H Hne. destruct H as [| x l Hx Hl]; [congruence |].
  rewrite sum_cons. pose proof (sum_nonneg l Hl). lra.
Qed.

(** The loop appends one positive precision per occurrence of the
    expected filename. *)
Lemma precisions_loop_hits expected files :
  forall i num_relevant precisions,
    exists added,
      precisions_loop expected files i num_relevant precisions
        = Return (precisions ++ added) /\
      Forall (fun q => 0 < q)%Q added /\
      List.length added
        = List.length (filter (fun fname => String.eqb fname expected) files).
Proof.
  induction files as [| fname rest IH]; intros i nr ps; simpl.
  - exists []. rewrite app_nil_r. repeat split. constructor.
  - destruct (String.eqb fname expected).
    + rewrite div_pos by lia. cbn [obind].
      destruct (IH (i + 1) (nr + 1)
                  (ps ++ [(of_nat (nr + 1) / of_nat (i + 1))%Q]))
        as (added & Hrun & Hpos & Hlen).
      exists ((of_nat (nr + 1) / of_nat (i + 1))%Q :: added).
      rewrite Hrun, <- app_assoc. split; [reflexivity |]. split.
      * constructor; [| exact Hpos].
        apply Qlt_shift_div_l; [apply of_nat_pos; lia |].
        rewrite Qmult_0_l. apply of_nat_pos. lia.
      * simpl. rewrite Hlen. reflexivity.
    + apply IH.
Qed.

Lemma contains_filter expected files :
  contains expected files = true <->
  filter (fun fname => String.eqb fname expected) files <> [].
Proof.
  induction files as [| y l IH]; simpl.
  - split; [discriminate | congruence].
  - destruct (String.eqb y expected).
    + split; [discriminate | reflexivity].
    + exact IH.
Qed.

(** The average precision is positive exactly on a hit. *)
Lemma average_precision_positive expected files ap :
  average_precision expected files = Return ap ->
  ((0 < ap)%Q <-> contains expected files = true).
Proof.
  unfold average_precision.
  destruct (precisions_loop_hits expected files 0 0 [])
    as (added & Hrun & Hpos & Hlen).
  rewrite Hrun. cbn [obind app].
  rewrite contains_filter.
  destruct added as [| p added'].
  - intros H. injection H as <-.
    destruct (filter _ files); [| discriminate Hlen].
    split; [intros L; discriminate L | congruence].
  - rewrite div_pos by (simpl; lia).
    intros H. injection H as <-. split.
    + intros _ E. rewrite E in Hlen. discriminate Hlen.
    + intros _. apply Qlt_shift_div_l; [apply of_nat_pos; simpl; lia |].
      rewrite Qmult_0_l. apply sum_positive; [exact Hpos | discriminate].
Qed.

Lemma precisions_loop_miss expected files :
  ~ In expected files ->
  forall i num_relevant precisions,
    precisions_loop expected files i num_relevant precisions = Return precisions.
Proof.
  induction files as [| fname rest IH]; intros Hn i nr ps; simpl; [reflexivity |].
  destruct (String.eqb_spec fname expected) as [-> | N].
  - exfalso. apply Hn. left. reflexivity.
  - apply IH. intros Hin. apply Hn. right. exact Hin.
Qed.

(** Among filenames without repetition the loop records one precision:
    that of the position of the expected filename. *)
Lemma precisions_loop_single expected files :
  NoDup files ->
  forall idx, index expected files = Return idx ->
  forall i num_relevant precisions,
    precisions_loop expected files i num_relevant precisions
    = Return (precisions
                ++ [(of_nat (num_relevant + 1) / of_nat (i + idx + 1))%Q]).
Proof.
  induction 1 as [| fname rest Hnotin Hnodup IH]; intros idx Hidx i nr ps;
    simpl in Hidx; [discriminate |].
  simpl. destruct (String.eqb_spec fname expected) as [-> | N].
  - injection Hidx as <-. rewrite div_pos by lia. cbn [obind].
    rewrite precisions_loop_miss by exact Hnotin.
    rewrite Nat.add_0_r. reflexivity.
  - destruct (index expected rest) as [idx' | e]; cbn [obind] in Hidx;
      [| discriminate].
    injection Hidx as <-. rewrite (IH idx' eq_refl).
    replace (i + 1 + idx' + 1) with (i + S idx' + 1) by lia. reflexivity.
Qed.

(** Without repeated filenames, average precision and reciprocal rank
    of a query coincide. *)
Lemma average_precision_is_reciprocal_rank expected files rr c ap :
  NoDup files ->
  reciprocal_rank expected files = Return (rr, c) ->
  average_precision expected files = Return ap ->
  (ap == rr)%Q.
Proof.
  intros Hnd Hrr Hap.
  destruct (reciprocal_rank_value _ _ _ _ Hrr)
    as [(_ & idx & Hidx & _ & ->) | (_ & -> & Hmiss)].
  - unfold average_precision in Hap.
    rewrite (precisions_loop_single expected files Hnd idx Hidx) in Hap.
    cbn [obind app] in Hap. rewrite div_pos in Hap by (simpl; lia).
    injection Hap as <-. unfold sum. cbn [fold_left List.length Nat.add].
    assert (P : (0 < of_nat (idx + 1))%Q) by (apply of_nat_pos; lia).
    change (of_nat 1) with 1%Q. field.
    intros Z. rewrite Z in P. revert P. apply Qlt_irrefl.
  - unfold average_precision in Hap.
    rewrite precisions_loop_miss in Hap by exact Hmiss.
    cbn [obind] in Hap. injection Hap as <-. reflexivity.
Qed.

Lemma sum_Qeq l l' : Forall2 Qeq l l' -> (sum l == sum l')%Q.
Proof.
  induction 1 as [| x y l l' Hxy _ IH]; [reflexivity |].
  rewrite !sum_cons, Hxy, IH. reflexivity.
Qed.

(** The reciprocal ranks (or average precisions) of the misses are 0 and
    those of the hits at most 1: their sum is at most the number of hits. *)
Lemma sum_le_hits (score : bool * Q * Q -> Q) results :
  Forall (fun res => score res <= (if fst (fst res) then 1 else 0))%Q results ->
  (sum (map score results)
   <= of_nat (List.length (filter (fun res : bool * Q * Q => fst (fst res)) results)))%Q.
Proof.
  induction 1 as [| res results Hres _ IH]; [apply Qle_refl |].
  cbn [map filter]. rewrite sum_cons.
  destruct (fst (fst res)).
  - cbn [List.length]. rewrite of_nat_S. lra.
  - lra.
Qed.

Section ExecutorOrder.
Context {A B : Type} (f : nat -> A -> outcome B).

(** The first task, in the order of the rows, that raised decides what
    [executor.map] raises. *)
Lemma executor_map_first_raise before a after e :
  forall i,
    (forall j a', nth_error before j = Some a' -> exists b, f (i + j) a' = Return b) ->
    f (i + List.length before) a = Raise e ->
    executor_map f i (before ++ a :: after) = Raise e.
Proof.
  induction before as [| a0 before IH]; intros i Hok Hraise; cbn [app executor_map].
  - cbn [List.length] in Hraise. rewrite Nat.add_0_r in Hraise.
    rewrite Hraise. reflexivity.
  - destruct (Hok 0 a0 eq_refl) as (b & Hb). rewrite Nat.add_0_r in Hb.
    rewrite Hb. cbn [obind]. rewrite (IH (S i)).
    + reflexivity.
    + intros j a' Hj. destruct (Hok (S j) a' Hj) as (b' & Hb').
      exists b'. rewrite <- Hb'. f_equal. lia.
    + rewrite <- Hraise. f_equal. cbn [List.length]. lia.
Qed.
End ExecutorOrder.

End ScoreFacts.

Module NameFacts.
Import Py.

Lemma prefix_pdf_append c s :
  prefix ".pdf" (String c (s ++ ".pdf")) = prefix ".pdf" (String c s).
Proof.
  destruct s as [| c1 [| c2 [| c3 s]]]; cbn [prefix append];
    repeat (match goal with
            | |- context [ascii_dec ?a ?b] => destruct (ascii_dec a b)
            end; try reflexivity; try discriminate).
  destruct s; reflexivity.
Qed.

Lemma prefix_pdf_length c s :
  prefix ".pdf" (String c s) = true -> 3 <= String.length s.
Proof.
  destruct s as [| c1 [| c2 [| c3 s]]]; cbn [prefix String.length];
    repeat (match goal with
            | |- context [ascii_dec ?a ?b] => destruct (ascii_dec a b)
            end; try discriminate); intros _; lia.
Qed.

(** Stripping [.pdf] from a name that ends in [.pdf] drops that ending
    and strips the rest. *)
Lemma replace_from_pdf_suffix stem :
  forall skip,
    skip <= String.length stem ->
    replace_from ".pdf" "" skip (stem ++ ".pdf") = replace_from ".pdf" "" skip stem.
Proof.
  induction stem as [| c stem IH]; intros skip Hskip.
  - simpl in Hskip. assert (skip = 0) as -> by lia. reflexivity.
  - cbn [append]. destruct skip as [| n].
    + cbn [replace_from]. rewrite prefix_pdf_append.
      destruct (prefix ".pdf" (String c stem)) eqn:P.
      * apply prefix_pdf_length in P. cbn [String.length Nat.sub].
        rewrite IH by exact P. reflexivity.
      * rewrite IH by lia. reflexivity.
    + cbn [replace_from]. apply IH. simpl in Hskip. lia.
Qed.

End NameFacts.

(* ===================================================================== *)
(** ** Further properties of the retrieval evaluation *)
(* ===================================================================== *)

Module RetrievalMore.
Import Py Api FileSearch Props PyFacts SearchFacts ScoreFacts NameFacts.

(** The three results of a task agree: on a hit both scores are
    positive and at most 1, on a miss both are 0. *)
Lemma task_scores self vector_store_id k model i r c rr ap :
  result (process_query self vector_store_id k model i r) = Return (c, rr, ap) ->
  if c then (0 < rr /\ rr <= 1)%Q /\ (0 < ap /\ ap <= 1)%Q
  else rr = 0%Q /\ ap = 0%Q.
Proof.
  intros H.
  destruct (process_query_parts _ _ _ _ _ _ _ _ _ H) as (fs & Hfs & Hparts).
  destruct (@process_query_scores _ _ _ _ _ _ _ Hfs) as (rr' & ap' & H' & _ & Hu & Hau).
  rewrite H' in H. injection H as Hc -> ->.
  destruct fs as [files |].
  - destruct Hparts as (Hrr & Hap).
    pose proof (average_precision_positive _ _ _ Hap) as Hpos.
    destruct (reciprocal_rank_value _ _ _ _ Hrr)
      as [(-> & idx & _ & Hnth & E) | (-> & E & Hmiss)].
    + split.
      * split; [| apply Hu]. rewrite E. apply inverse_positive. lia.
      * split; [| apply Hau]. apply Hpos. apply contains_In.
        eapply nth_error_In. exact Hnth.
    + split; [exact E |].
      unfold average_precision in Hap.
      rewrite precisions_loop_miss in Hap by exact Hmiss.
      cbn [obind] in Hap. injection Hap as <-. reflexivity.
  - destruct Hparts as (-> & -> & ->). split; reflexivity.
Qed.

(** X1: the hit flag returned by [process_query] is set exactly when
    the reciprocal rank is positive, and exactly when the average
    precision is positive. *)
Theorem hit_flag_matches_scores self vector_store_id k model i r c rr ap :
  result (process_query self vector_store_id k model i r) = Return (c, rr, ap) ->
  (c = true <-> (0 < rr)%Q) /\ (c = true <-> (0 < ap)%Q).
Proof.
  intros H. pose proof (task_scores _ _ _ _ _ _ _ _ _ H) as S.
  destruct c.
  - destruct S as ((Hr & _) & (Ha & _)). split; split; trivial.
  - destruct S as (-> & ->).
    split; split; intros F; try discriminate F; inversion F.
Qed.

Lemma hit_flag_witness :
  (true = true <-> (0 < 1 # 2)%Q) /\ (true = true <-> (0 < 7 # 12)%Q).
Proof.
  apply (hit_flag_matches_scores Samples.healthy "vs_1"%string 5%Z
           "gpt-4o-mini"%string 0
           {| query := "What does a say?"; _id := "a" |}).
  vm_compute. reflexivity.
Defined.

(** X2: with [k > 0], a query that hits has a reciprocal rank of at
    least [1/k]: the expected filename is found among the first [k]
    annotations or not at all. *)
Theorem reciprocal_rank_at_least_inverse_k
    self vector_store_id k model i r rr ap :
  (0 < k)%Z ->
  result (process_query self vector_store_id k model i r) = Return (true, rr, ap) ->
  (1 / inject_Z k <= rr)%Q.
Proof.
  intros Hk H.
  destruct (process_query_parts _ _ _ _ _ _ _ _ _ H) as (fs & Hfs & Hparts).
  destruct fs as [files |]; [| destruct Hparts as (F & _); discriminate F].
  destruct Hparts as (Hrr & _).
  destruct (retrieved_top_k _ _ _ _ _ _ _ Hfs) as (anns & ->).
  destruct (reciprocal_rank_value _ _ _ _ Hrr)
    as [(_ & idx & _ & Hnth & ->) | (F & _)]; [| discriminate F].
  assert (Hidx : idx < List.length (top_k_files k anns))
    by (apply nth_error_Some; congruence).
  pose proof (top_k_files_length k anns ltac:(lia)) as Hlen.
  apply inverse_le; [apply of_nat_pos; lia |].
  unfold of_nat. rewrite <- Zle_Qle. lia.
Qed.

Lemma reciprocal_rank_bound_witness : (1 / inject_Z 5 <= 1 # 2)%Q.
Proof.
  apply (reciprocal_rank_at_least_inverse_k Samples.healthy "vs_1"%string 5%Z
           "gpt-4o-mini"%string 0
           {| query := "What does a say?"; _id := "a" |} (1 # 2)%Q (7 # 12)%Q).
  - reflexivity.
  - vm_compute. reflexivity.
Defined.

(** The results of a run that returned, one per row. *)
Lemma run_results self vector_store_id questions_dict k model m :
  evaluate_retrieval self vector_store_id questions_dict k model = Return m ->
  exists results,
    List.length results = List.length (rows_of questions_dict) /\
    0 < List.length (rows_of questions_dict) /\
    Forall (fun res : bool * Q * Q =>
              exists i r,
                nth_error (rows_of questions_dict) i = Some r /\
                result (process_query self vector_store_id k model i r) = Return res)
           results /\
    m = [(("recall@" ++ str_of_int k)%string,
          (of_nat (List.length (filter (fun res : bool * Q * Q => fst (fst res)) results))
           / of_nat (List.length (rows_of questions_dict)))%Q);
         (("precision@" ++ str_of_int k)%string,
          (of_nat (List.length (filter (fun res : bool * Q * Q => fst (fst res)) results))
           / of_nat (List.length (rows_of questions_dict)))%Q);
         ("mrr"%string,
          (sum (map (fun res : bool * Q * Q => snd (fst res)) results)
           / of_nat (List.length (rows_of questions_dict)))%Q);
         ("map"%string,
          (sum (map snd results) / of_nat (List.length (rows_of questions_dict)))%Q)].
Proof.
  intros H.
  destruct (@evaluate_retrieval_inv _ _ _ _ _ _ H) as (Hne & results & Hres).
  pose proof (@evaluate_retrieval_run self vector_store_id questions_dict k model
                results Hne Hres) as Hrun.
  cbv zeta in Hrun. rewrite Hrun in H. injection H as <-.
  destruct (@executor_map_nth _ _ _ _ _ _ Hres) as (Hlen & _).
  exists results. split; [exact Hlen |]. split.
  - rewrite rows_of_length. destruct questions_dict; [congruence | simpl; lia].
  - split; [| reflexivity].
    eapply executor_map_Forall; [exact Hres |].
    intros j r res Hj Hq. exists j, r. split; [exact Hj | exact Hq].
Qed.

Lemma divide_le (a b : Q) n :
  0 < n -> (a <= b)%Q -> (a / of_nat n <= b / of_nat n)%Q.
Proof.
  intros Hn Hab. unfold Qdiv. apply Qmult_le_compat_r; [exact Hab |].
  apply Qlt_le_weak, Qinv_lt_0_compat, of_nat_pos, Hn.
Qed.

(** X4: in every returned dictionary [mrr] and [map] are at most
    [recall@k]: a miss contributes 0 to each and a hit at most 1. *)
Theorem mrr_and_map_at_most_recall
    self vector_store_id questions_dict k model m :
  evaluate_retrieval self vector_store_id questions_dict k model = Return m ->
  exists recall mrr map_score,
    dict_get ("recall@" ++ str_of_int k) m = Some recall /\
    dict_get "mrr" m = Some mrr /\
    dict_get "map" m = Some map_score /\
    (mrr <= recall)%Q /\ (map_score <= recall)%Q.
Proof.
  intros H.
  destruct (run_results _ _ _ _ _ _ H) as (results & Hlen & Hn & Hall & ->).
  do 3 eexists.
  split; [apply dict_get_head |]. split; [reflexivity |]. split; [reflexivity |].
  split; apply divide_le; try exact Hn; apply sum_le_hits;
    (eapply Forall_impl; [| exact Hall]);
    intros [[c rr] ap] (i & r & _ & Hq);
    pose proof (task_scores _ _ _ _ _ _ _ _ _ Hq) as S; cbn [fst snd];
    destruct c.
  - apply S.
  - destruct S as (-> & _). apply Qle_refl.
  - apply S.
  - destruct S as (_ & ->). apply Qle_refl.
Qed.

Lemma recall_bounds_witness :
  exists recall mrr map_score,
    dict_get ("recall@" ++ str_of_int 5)
      [("recall@5", 2 # 2); ("precision@5", 2 # 2); ("mrr", 3 # 4); ("map", 19 # 24)]%string%Q
      = Some recall /\
    dict_get "mrr"
      [("recall@5", 2 # 2); ("precision@5", 2 # 2); ("mrr", 3 # 4); ("map", 19 # 24)]%string%Q
      = Some mrr /\
    dict_get "map"
      [("recall@5", 2 # 2); ("precision@5", 2 # 2); ("mrr", 3 # 4); ("map", 19 # 24)]%string%Q
      = Some map_score /\
    (mrr <= recall)%Q /\ (map_score <= recall)%Q.
Proof.
  apply (mrr_and_map_at_most_recall Samples.healthy "vs_1"%string
           Samples.questions 5%Z "gpt-4o-mini"%string).
  vm_compute. reflexivity.
Defined.

(** X3: when no query retrieves the same filename twice, the run
    returns a [map] equal to its [mrr]: the average precision of each
    query is its reciprocal rank. *)
Theorem map_equals_mrr_without_repeats
    self vector_store_id questions_dict k model :
  questions_dict <> [] ->
  (forall i r, nth_error (rows_of questions_dict) i = Some r ->
     exists fs,
       retrieved self vector_store_id k model i r = Return fs /\
       forall files, fs = Some files -> NoDup files) ->
  exists m mrr map_score,
    evaluate_retrieval self vector_store_id questions_dict k model = Return m /\
    dict_get "mrr" m = Some mrr /\
    dict_get "map" m = Some map_score /\
    (map_score == mrr)%Q.
Proof.
  intros Hne Hall.
  destruct (@executor_map_total _ _
              (fun i r => result (process_query self vector_store_id k model i r))
              (rows_of questions_dict) 0) as (results & Hres).
  { intros j r Hj. destruct (Hall j r Hj) as (fs & Hfs & _).
    destruct (@process_query_scores _ _ _ _ _ _ _ Hfs) as (rr & ap & Hq & _).
    eexists. exact Hq. }
  pose proof (@evaluate_retrieval_run self vector_store_id questions_dict k model
                results Hne Hres) as Hrun.
  cbv zeta in Hrun.
  do 3 eexists. split; [exact Hrun |].
  split; [reflexivity |]. split; [reflexivity |].
  assert (Hsame : Forall (fun res : bool * Q * Q => (snd res == snd (fst res))%Q) results).
  { eapply executor_map_Forall; [exact Hres |].
    intros j r [[c rr] ap] Hj Hq. cbn [fst snd]. cbn beta in Hq.
    cbn [Nat.add] in Hq.
    destruct (Hall j r Hj) as (fs & Hfs & Hnd).
    destruct (process_query_parts _ _ _ _ _ _ _ _ _ Hq) as (fs' & Hfs' & Hparts).
    rewrite Hfs in Hfs'. injection Hfs' as <-.
    destruct fs as [files |].
    - destruct Hparts as (Hrr & Hap).
      exact (average_precision_is_reciprocal_rank _ _ _ _ _
               (Hnd files eq_refl) Hrr Hap).
    - destruct Hparts as (_ & -> & ->). reflexivity. }
  assert (Hsum : (sum (map snd results)
                  == sum (map (fun res : bool * Q * Q => snd (fst res)) results))%Q).
  { apply sum_Qeq. clear - Hsame.
    induction Hsame as [| res results Hres _ IH]; constructor; assumption. }
  rewrite Hsum. reflexivity.
Qed.

Lemma map_is_mrr_witness :
  exists m mrr map_score,
    evaluate_retrieval MoreSamples.distinct_files "vs_1" Samples.questions 5 "gpt-4o-mini"
      = Return m /\
    dict_get "mrr" m = Some mrr /\
    dict_get "map" m = Some map_score /\
    (map_score == mrr)%Q.
Proof.
  apply (map_equals_mrr_without_repeats MoreSamples.distinct_files "vs_1"%string
           Samples.questions 5%Z "gpt-4o-mini"%string).
  - discriminate.
  - intros i r _. eexists. split; [reflexivity |].
    intros files E. injection E as <-.
    repeat constructor; simpl; intuition discriminate.
Defined.

(** X5: when the tasks of the rows before some row return and the call
    of that row raises, [evaluate_retrieval] raises that exception,
    whatever happens to the rows after it. *)
Theorem first_failing_query_is_raised
    self vector_store_id before filename query after k model e :
  (forall j r, nth_error (rows_of before) j = Some r ->
     exists fs, retrieved self vector_store_id k model j r = Return fs) ->
  retrieved self vector_store_id k model (List.length before)
    {| query := query; _id := replace ".pdf" "" filename |} = Raise e ->
  evaluate_retrieval self vector_store_id
    (before ++ (filename, query) :: after) k model = Raise e.
Proof.
  intros Hok Hraise. unfold evaluate_retrieval, rows_of.
  rewrite map_app. cbn [map fst snd].
  rewrite (executor_map_first_raise
             (fun i r => result (process_query self vector_store_id k model i r))
             _ _ _ e).
  - reflexivity.
  - intros j r Hj. destruct (Hok j r Hj) as (fs & Hfs).
    destruct (@process_query_scores _ _ _ _ _ _ _ Hfs) as (rr & ap & Hq & _).
    eexists. exact Hq.
  - rewrite length_map. cbn [Nat.add].
    rewrite process_query_result, Hraise. reflexivity.
Qed.

Lemma first_failure_witness :
  evaluate_retrieval MoreSamples.second_call_fails "vs_1"
    ([("a.pdf", "What does a say?")]%string
       ++ ("b.pdf", "What does b say?")%string
       :: [("c.pdf", "What does c say?")]%string) 5 "gpt-4o-mini"
  = Raise Samples.rate_limit.
Proof.
  apply (first_failing_query_is_raised MoreSamples.second_call_fails "vs_1"%string
           [("a.pdf", "What does a say?")]%string "b.pdf"%string
           "What does b say?"%string [("c.pdf", "What does c say?")]%string
           5%Z "gpt-4o-mini"%string Samples.rate_limit).
  - intros j r H. destruct j as [| j].
    + eexists. reflexivity.
    + destruct j; discriminate H.
  - reflexivity.
Defined.

(** X6: a key [stem.pdf] whose stem holds no further [.pdf] is its own
    expected filename: stripping [.pdf] and restoring it gives the key
    back. *)
Theorem expected_filename_of_pdf_key stem query :
  replace ".pdf" "" stem = stem ->
  map expected_filename (rows_of [((stem ++ ".pdf")%string, query)])
  = [(stem ++ ".pdf")%string].
Proof.
  intros H. cbn [rows_of map fst snd]. unfold expected_filename. cbn [_id].
  unfold replace in *. rewrite replace_from_pdf_suffix by lia.
  rewrite H. reflexivity.
Qed.

Lemma expected_filename_witness :
  map expected_filename (rows_of [(("report.v2" ++ ".pdf")%string, "What changed?"%string)])
  = [("report.v2" ++ ".pdf")%string].
Proof.
  apply (expected_filename_of_pdf_key "report.v2" "What changed?").
  reflexivity.
Defined.

End RetrievalMore.

(* ===================================================================== *)
(** ** Further properties of the parallel upload *)
(* ===================================================================== *)

Module PathFacts.
Import Py MoreProps.

Lemma append_assoc (a b c : string) : ((a ++ b) ++ c = a ++ b ++ c)%string.
Proof. induction a as [| x a IH]; simpl; [reflexivity | rewrite IH; reflexivity]. Qed.

Lemma basename_from_no_slash f :
  has_slash f = false -> forall acc, basename_from acc f = acc.
Proof.
  induction f as [| c f IH]; intros H acc; [reflexivity |].
  simpl in H. apply orb_false_iff in H. destruct H as (Hc & Hf).
  simpl. rewrite Hc. apply IH. exact Hf.
Qed.

Lemma basename_from_after_slash f :
  has_slash f = false ->
  forall a acc, basename_from acc (a ++ "/" ++ f) = f.
Proof.
  intros H. induction a as [| c a IH]; intros acc.
  - simpl. apply basename_from_no_slash. exact H.
  - cbn [append basename_from]. destruct (Ascii.eqb c "/"); apply IH.
Qed.

Lemma ends_with_slash a :
  endswith a "/" = true -> exists a', a = (a' ++ "/")%string.
Proof.
  unfold endswith. cbn [String.length].
  induction a as [| c a IH]; [discriminate |].
  cbn [String.length]. rewrite Nat.sub_succ, Nat.sub_0_r. simpl Nat.leb.
  cbn [andb]. destruct a as [| c' a'].
  - simpl. destruct (Ascii.eqb_spec c "/") as [-> | N]; [| discriminate].
    intros _. exists ""%string. reflexivity.
  - cbn [String.length substring]. intros H.
    destruct IH as (a0 & E).
    + cbn [String.length]. rewrite Nat.sub_succ, Nat.sub_0_r. exact H.
    + exists (String c a0). rewrite E. reflexivity.
Qed.

Lemma prefix_slash f : has_slash f = false -> prefix "/" f = false.
Proof.
  destruct f as [| c f]; [reflexivity |].
  simpl has_slash. intros H. apply orb_false_iff in H. destruct H as (Hc & _).
  cbn [prefix]. destruct (ascii_dec "/" c) as [<- | N]; [discriminate Hc | reflexivity].
Qed.

(** The name of a directory entry is the basename of its joined path. *)
Lemma basename_path_join dir f :
  has_slash f = false -> basename (path_join dir f) = f.
Proof.
  intros H. unfold path_join, basename. rewrite (prefix_slash f H).
  destruct (String.eqb_spec dir "") as [-> | N]; cbn [orb].
  - simpl. apply basename_from_no_slash. exact H.
  - destruct (endswith dir "/") eqn:E.
    + destruct (ends_with_slash dir E) as (a' & ->).
      rewrite append_assoc. apply basename_from_after_slash. exact H.
    + apply basename_from_after_slash. exact H.
Qed.

End PathFacts.

Module UploadMore.
Import Py Api FileSearch Props MoreProps PyFacts UploadFacts PathFacts.

(** The statistics of a run, field by field. *)
Lemma upload_stats_fields self vector_store_id dir_pdfs completion entries :
  listdir self dir_pdfs = Return entries ->
  Permutation completion (seq 0 (List.length (pdf_files_in dir_pdfs entries))) ->
  exists out stats,
    upload_pdf_files_to_vector_store self vector_store_id dir_pdfs completion
      = (out, Return stats) /\
    let records :=
      as_completed completion
        (map (upload_record self vector_store_id) (pdf_files_in dir_pdfs entries)) in
    Permutation records
      (map (upload_record self vector_store_id) (pdf_files_in dir_pdfs entries)) /\
    total_files stats = List.length (pdf_files_in dir_pdfs entries) /\
    successful_uploads stats
      = List.length (filter (fun r => negb (failed r)) records) /\
    failed_uploads stats = List.length (filter failed records) /\
    errors stats = filter failed records.
Proof.
  intros Hdir Hperm.
  pose proof (@upload_run self vector_store_id dir_pdfs completion entries Hdir) as Hrun.
  cbv zeta in Hrun.
  do 2 eexists. split; [exact Hrun |]. cbv zeta.
  destruct (record_results
              (as_completed completion
                 (map (upload_record self vector_store_id)
                    (pdf_files_in dir_pdfs entries)))
              (empty_stats (List.length (pdf_files_in dir_pdfs entries))))
    as (T & S & F & E).
  cbn [empty_stats total_files successful_uploads failed_uploads errors
       Nat.add app] in T, S, F, E.
  split; [| repeat split; assumption].
  apply as_completed_permutation. rewrite length_map. exact Hperm.
Qed.

(** X7: the counters do not depend on the order in which the uploads
    complete, and the error lists of two orders hold the same records. *)
Theorem upload_counts_ignore_completion_order
    self vector_store_id dir_pdfs entries completion1 completion2 :
  listdir self dir_pdfs = Return entries ->
  Permutation completion1 (seq 0 (List.length (pdf_files_in dir_pdfs entries))) ->
  Permutation completion2 (seq 0 (List.length (pdf_files_in dir_pdfs entries))) ->
  exists out1 stats1 out2 stats2,
    upload_pdf_files_to_vector_store self vector_store_id dir_pdfs completion1
      = (out1, Return stats1) /\
    upload_pdf_files_to_vector_store self vector_store_id dir_pdfs completion2
      = (out2, Return stats2) /\
    total_files stats1 = total_files stats2 /\
    successful_uploads stats1 = successful_uploads stats2 /\
    failed_uploads stats1 = failed_uploads stats2 /\
    Permutation (errors stats1) (errors stats2).
Proof.
  intros Hdir H1 H2.
  destruct (upload_stats_fields self vector_store_id dir_pdfs completion1 entries Hdir H1)
    as (out1 & stats1 & R1 & P1 & T1 & S1 & F1 & E1).
  destruct (upload_stats_fields self vector_store_id dir_pdfs completion2 entries Hdir H2)
    as (out2 & stats2 & R2 & P2 & T2 & S2 & F2 & E2).
  cbv zeta in *.
  assert (P : Permutation
                (as_completed completion1
                   (map (upload_record self vector_store_id)
                      (pdf_files_in dir_pdfs entries)))
                (as_completed completion2
                   (map (upload_record self vector_store_id)
                      (pdf_files_in dir_pdfs entries))))
    by (rewrite P1, P2; reflexivity).
  exists out1, stats1, out2, stats2.
  split; [exact R1 |]. split; [exact R2 |]. split; [congruence |].
  split; [rewrite S1, S2; apply Permutation_length, Permutation_filter, P |].
  split; [rewrite F1, F2; apply Permutation_length, Permutation_filter, P |].
  rewrite E1, E2. apply Permutation_filter, P.
Qed.

Lemma completion_order_witness :
  exists out1 stats1 out2 stats2,
    upload_pdf_files_to_vector_store Samples.unavailable "vs_1" "docs" [1; 0]
      = (out1, Return stats1) /\
    upload_pdf_files_to_vector_store Samples.unavailable "vs_1" "docs" [0; 1]
      = (out2, Return stats2) /\
    total_files stats1 = total_files stats2 /\
    successful_uploads stats1 = successful_uploads stats2 /\
    failed_uploads stats1 = failed_uploads stats2 /\
    Permutation (errors stats1) (errors stats2).
Proof.
  apply (upload_counts_ignore_completion_order Samples.unavailable "vs_1"%string
           "docs"%string ["a.pdf"; "notes.txt"; "B.PDF"]%string [1; 0] [0; 1]).
  - reflexivity.
  - simpl. apply perm_swap.
  - simpl. apply Permutation_refl.
Defined.

(** X8: every entry of [errors] is the failure record of a directory
    entry whose lowercased name ends in [.pdf] and one of whose calls
    raised: it names that entry and carries the text of the exception. *)
Theorem error_records_name_their_files
    self vector_store_id dir_pdfs completion entries :
  listdir self dir_pdfs = Return entries ->
  Forall (fun f => has_slash f = false) entries ->
  Permutation completion (seq 0 (List.length (pdf_files_in dir_pdfs entries))) ->
  exists out stats,
    upload_pdf_files_to_vector_store self vector_store_id dir_pdfs completion
      = (out, Return stats) /\
    forall r, In r (errors stats) ->
      exists entry e,
        In entry entries /\
        endswith (lower entry) ".pdf" = true /\
        upload_calls self vector_store_id (path_join dir_pdfs entry) = Raise e /\
        r = {| file := entry; status := "failed"; error := Some (exn_str e) |}.
Proof.
  intros Hdir Hnames Hperm.
  destruct (upload_stats_fields self vector_store_id dir_pdfs completion entries
              Hdir Hperm) as (out & stats & R & P & _ & _ & _ & E).
  cbv zeta in *. exists out, stats. split; [exact R |].
  intros r Hr. rewrite E in Hr. apply filter_In in Hr. destruct Hr as (Hin & Hfailed).
  apply (Permutation_in _ P) in Hin.
  apply in_map_iff in Hin. destruct Hin as (path & <- & Hpath).
  unfold pdf_files_in in Hpath. apply in_map_iff in Hpath.
  destruct Hpath as (entry & <- & Hentry).
  apply filter_In in Hentry. destruct Hentry as (Hentry & Hpdf).
  apply failed_upload_record in Hfailed. destruct Hfailed as (e & He).
  exists entry, e. split; [exact Hentry |]. split; [exact Hpdf |].
  split; [exact He |].
  unfold upload_record. rewrite He. rewrite basename_path_join; [reflexivity |].
  rewrite Forall_forall in Hnames. apply Hnames. exact Hentry.
Qed.

Lemma error_records_witness :
  exists out stats,
    upload_pdf_files_to_vector_store Samples.unavailable "vs_1" "docs" [1; 0]
      = (out, Return stats) /\
    forall r, In r (errors stats) ->
      exists entry e,
        In entry ["a.pdf"; "notes.txt"; "B.PDF"]%string /\
        endswith (lower entry) ".pdf" = true /\
        upload_calls Samples.unavailable "vs_1" (path_join "docs" entry) = Raise e /\
        r = {| file := entry; status := "failed"; error := Some (exn_str e) |}.
Proof.
  apply (error_records_name_their_files Samples.unavailable "vs_1"%string
           "docs"%string [1; 0] ["a.pdf"; "notes.txt"; "B.PDF"]%string).
  - reflexivity.
  - repeat constructor.
  - simpl. apply perm_swap.
Defined.

(** X9: when the calls of every PDF of the directory go through, the
    run reports all of them as successful, none as failed and no error. *)
Theorem clean_upload_has_no_errors
    self vector_store_id dir_pdfs completion entries :
  listdir self dir_pdfs = Return entries ->
  Permutation completion (seq 0 (List.length (pdf_files_in dir_pdfs entries))) ->
  (forall entry,
     In entry entries -> endswith (lower entry) ".pdf" = true ->
     exists u, upload_calls self vector_store_id (path_join dir_pdfs entry) = Return u) ->
  exists out,
    upload_pdf_files_to_vector_store self vector_store_id dir_pdfs completion
    = (out,
       Return {| total_files := List.length (pdf_files_in dir_pdfs entries);
                 successful_uploads := List.length (pdf_files_in dir_pdfs entries);
                 failed_uploads := 0;
                 errors := [] |}).
Proof.
  intros Hdir Hperm Hok.
  destruct (upload_stats_fields self vector_store_id dir_pdfs completion entries
              Hdir Hperm) as (out & stats & R & P & T & S & F & E).
  cbv zeta in *. exists out. rewrite R. f_equal. f_equal.
  assert (Hnone : filter failed
                    (as_completed completion
                       (map (upload_record self vector_store_id)
                          (pdf_files_in dir_pdfs entries))) = []).
  { destruct (filter failed _) as [| r rest] eqn:Ef; [reflexivity |].
    assert (Hr : In r (filter failed
                         (as_completed completion
                            (map (upload_record self vector_store_id)
                               (pdf_files_in dir_pdfs entries)))))
      by (rewrite Ef; left; reflexivity).
    apply filter_In in Hr. destruct Hr as (Hin & Hfailed).
    apply (Permutation_in _ P) in Hin.
    apply in_map_iff in Hin. destruct Hin as (path & <- & Hpath).
    unfold pdf_files_in in Hpath. apply in_map_iff in Hpath.
    destruct Hpath as (entry & <- & Hentry).
    apply filter_In in Hentry. destruct Hentry as (Hentry & Hpdf).
    apply failed_upload_record in Hfailed. destruct Hfailed as (e & He).
    destruct (Hok entry Hentry Hpdf) as (u & Hu). congruence. }
  rewrite Hnone in F, E.
  assert (Hall : successful_uploads stats = List.length (pdf_files_in dir_pdfs entries)).
  { rewrite S.
    pose proof (filter_length failed
                  (as_completed completion
                     (map (upload_record self vector_store_id)
                        (pdf_files_in dir_pdfs entries)))) as L.
    rewrite Hnone in L. cbn [List.length Nat.add] in L. rewrite L.
    rewrite (Permutation_length P). apply length_map. }
  destruct stats as [t s f errs]. cbn in T, Hall, F, E. subst. reflexivity.
Qed.

Lemma clean_upload_witness :
  exists out,
    upload_pdf_files_to_vector_store Samples.healthy "vs_1" "docs" [1; 0]
    = (out,
       Return {| total_files :=
                   List.length (pdf_files_in "docs" ["a.pdf"; "notes.txt"; "B.PDF"]%string);
                 successful_uploads :=
                   List.length (pdf_files_in "docs" ["a.pdf"; "notes.txt"; "B.PDF"]%string);
                 failed_uploads := 0;
                 errors := [] |}).
Proof.
  apply (clean_upload_has_no_errors Samples.healthy "vs_1"%string "docs"%string
           [1; 0] ["a.pdf"; "notes.txt"; "B.PDF"]%string).
  - reflexivity.
  - simpl. apply perm_swap.
  - intros entry _ _. exists tt. reflexivity.
Defined.

End UploadMore.

(* ===================================================================== *)
(** ** Reading PDFs, asking the model, the [llm_search] action *)
(* ===================================================================== *)

Module TextFacts.
Import Py Api FileSearch Props MoreProps PyFacts PathFacts.

Lemma append_empty_r (s : string) : (s ++ "")%string = s.
Proof. induction s as [| c s IH]; simpl; [reflexivity | rewrite IH; reflexivity]. Qed.

(** The loop over the pages appends the text of every page it reads. *)
Lemma extract_pages_texts texts :
  forall rest text,
    extract_pages (map Return texts ++ rest) text
    = extract_pages rest (text ++ join_texts texts).
Proof.
  induction texts as [| page_text texts IH]; intros rest text.
  - simpl. rewrite append_empty_r. reflexivity.
  - cbn [map app extract_pages join_texts].
    destruct page_text as [[| c s] |]; rewrite IH; cbn [page_text_of].
    + reflexivity.
    + rewrite append_assoc. reflexivity.
    + reflexivity.
Qed.

End TextFacts.

Module TextSpec.
Import Py Api FileSearch Cli Props MoreProps PyFacts PathFacts TextFacts ErrorFacts.

(** X10: when every page of a PDF can be read, [extract_text_from_pdf]
    prints nothing and returns the texts of the pages in order, pages
    without text adding nothing. *)
Theorem extract_text_joins_pages self pdf_path texts :
  pdf_pages self pdf_path = Return (map Return texts) ->
  extract_text_from_pdf self pdf_path = ([], Return (join_texts texts)).
Proof.
  intros H. unfold extract_text_from_pdf. rewrite H.
  rewrite <- (app_nil_r (map Return texts)), extract_pages_texts.
  reflexivity.
Qed.

Lemma joined_pages_witness :
  extract_text_from_pdf Samples.healthy "docs/a.pdf"
  = ([], Return (join_texts [Some "Some text."%string])).
Proof.
  apply (extract_text_joins_pages Samples.healthy "docs/a.pdf"%string
           [Some "Some text."%string]).
  reflexivity.
Defined.

(** X11: when a page cannot be read, [extract_text_from_pdf] does not
    raise: it prints the error and returns the text of the pages before
    that one; the pages after it are not read. *)
Theorem extract_text_keeps_pages_read self pdf_path texts e rest :
  pdf_pages self pdf_path = Return (map Return texts ++ Raise e :: rest) ->
  extract_text_from_pdf self pdf_path
  = ([[Lit ("Error reading " ++ pdf_path ++ ": " ++ exn_str e)]],
     Return (join_texts texts)).
Proof.
  intros H. unfold extract_text_from_pdf. rewrite H.
  rewrite extract_pages_texts. reflexivity.
Qed.

Lemma torn_pages_witness :
  extract_text_from_pdf MoreSamples.torn_pdf "docs/a.pdf"
  = ([[Lit ("Error reading " ++ "docs/a.pdf" ++ ": "
              ++ exn_str (Exn ValueError "broken xref table"))]],
     Return (join_texts [Some "Page one. "%string; None])).
Proof.
  apply (extract_text_keeps_pages_read MoreSamples.torn_pdf "docs/a.pdf"%string
           [Some "Page one. "%string; None] (Exn ValueError "broken xref table")
           [Return (Some "Page four."%string)]).
  reflexivity.
Defined.

(** X12: a page that cannot be read does not stop [generate_questions]:
    after the error line it asks the model with the text read so far
    and returns the text of the first content part of the answer. *)
Theorem generate_questions_asks_with_text_read
    self pdf_path texts e rest response item content part :
  pdf_pages self pdf_path = Return (map Return texts ++ Raise e :: rest) ->
  responses_create self 0 (question_prompt (join_texts texts)) = Return response ->
  nth_error (output response) 0 = Some item ->
  item_content item = Has content ->
  nth_error content 0 = Some part ->
  generate_questions self pdf_path
  = ([[Lit ("Error reading " ++ pdf_path ++ ": " ++ exn_str e)]],
     Return (part_text part)).
Proof.
  intros Hpages Hcall Hitem Hcontent Hpart.
  unfold generate_questions.
  rewrite (extract_text_keeps_pages_read self pdf_path texts e rest Hpages).
  cbn [bind]. unfold question_prompt in Hcall. rewrite Hcall.
  cbn [lift bind]. unfold getitem. rewrite Hitem. cbn [bind].
  rewrite Hcontent. cbn [getattr subscript bind]. unfold getitem. rewrite Hpart.
  reflexivity.
Qed.

Lemma torn_question_witness :
  generate_questions MoreSamples.torn_pdf "docs/a.pdf"
  = ([[Lit ("Error reading " ++ "docs/a.pdf" ++ ": "
              ++ exn_str (Exn ValueError "broken xref table"))]],
     Return (part_text {| part_annotations := Has [];
                          part_text := "What is on page one?" |})).
Proof.
  eapply (generate_questions_asks_with_text_read MoreSamples.torn_pdf
            "docs/a.pdf"%string [Some "Page one. "%string; None]
            (Exn ValueError "broken xref table")
            [Return (Some "Page four."%string)]);
    reflexivity.
Defined.

(** [llm_integrated_search] by cases on what its body does. *)
Lemma llm_integrated_search_cases self vector_store_id query model max_results :
  (exists files text,
     NoDup files /\
     llm_integrated_search self vector_store_id query model max_results
     = ([], Return (LlmAnswer files text))) \/
  (exists e,
     llm_integrated_search self vector_store_id query model max_results
     = ([[Lit ("Error with LLM integrated search: " ++ exn_str e)]],
        Return (LlmError (exn_str e)))).
Proof.
  unfold llm_integrated_search.
  destruct (responses_create self 0 _) as [response | e];
    [| right; exists e; reflexivity].
  cbn [lift bind].
  destruct (answer_part response) as [part | e];
    [| right; exists e; reflexivity].
  cbn [lift bind].
  destruct (part_annotations part) as [| | annotations]; cbn [getattr].
  - right. eexists. reflexivity.
  - right. eexists. reflexivity.
  - left. do 2 eexists. split; [| reflexivity]. apply NoDup_nodup.
Qed.

(** X13: [llm_integrated_search] never raises: it returns either an
    answer whose [files_used] holds no filename twice, printing nothing,
    or an error dictionary whose text it has printed. *)
Theorem llm_integrated_search_never_raises
    self vector_store_id query model max_results :
  exists out r,
    llm_integrated_search self vector_store_id query model max_results
      = (out, Return r) /\
    match r with
    | LlmAnswer files _ => out = [] /\ NoDup files
    | LlmError message =>
        out = [[Lit ("Error with LLM integrated search: " ++ message)]]
    end.
Proof.
  destruct (llm_integrated_search_cases self vector_store_id query model max_results)
    as [(files & text & Hnd & ->) | (e & ->)].
  - do 2 eexists. split; [reflexivity |]. split; [reflexivity | exact Hnd].
  - do 2 eexists. split; reflexivity.
Qed.

(** X14: when the answer carries annotations, [files_used] holds
    exactly the cited filenames, each once, and [response] is the text
    of the answer. *)
Theorem llm_integrated_search_lists_cited_files
    self vector_store_id query model max_results response part annotations :
  responses_create self 0
    {| input := query;
       model := model;
       tools := [{| tool_type := "file_search";
                    vector_store_ids := [vector_store_id];
                    max_num_results := max_results |}];
       tool_choice := None |} = Return response ->
  answer_part response = Return part ->
  part_annotations part = Has annotations ->
  exists files,
    llm_integrated_search self vector_store_id query model max_results
      = ([], Return (LlmAnswer files (part_text part))) /\
    NoDup files /\
    forall f, In f files <-> In f (map ann_filename annotations).
Proof.
  intros Hcall Hpart Hann. unfold llm_integrated_search.
  rewrite Hcall. cbn [lift bind]. rewrite Hpart. cbn [lift bind].
  rewrite Hann. cbn [getattr lift bind try_except].
  eexists. split; [reflexivity |]. split; [apply NoDup_nodup |].
  intros f. apply nodup_In.
Qed.

Lemma cited_files_witness :
  exists files,
    llm_integrated_search Samples.healthy "vs_1" "What does a say?" "gpt-4o-mini" 10
      = ([], Return (LlmAnswer files
                       (part_text
                          {| part_annotations :=
                               Has (map (fun f => {| ann_filename := f |})
                                      ["b.pdf"; "a.pdf"; "a.pdf"]%string);
                             part_text := "See the cited files." |}))) /\
    NoDup files /\
    forall f, In f files <->
              In f (map ann_filename
                      (map (fun f => {| ann_filename := f |})
                         ["b.pdf"; "a.pdf"; "a.pdf"]%string)).
Proof.
  eapply (llm_integrated_search_lists_cited_files Samples.healthy "vs_1"%string
            "What does a say?"%string "gpt-4o-mini"%string 10%Z);
    reflexivity.
Defined.

(** X15: the [llm_search] action never raises, whatever its arguments
    and whatever the service does. *)
Theorem llm_search_action_never_raises search_api store_id query model k :
  result (main_llm_search search_api store_id query model k) = Return tt.
Proof.
  unfold main_llm_search.
  destruct (missing store_id || missing query); [reflexivity |].
  destruct store_id as [store |]; [| reflexivity].
  destruct query as [query' |]; [| reflexivity].
  destruct (llm_integrated_search_cases search_api store query' model k)
    as [(files & text & _ & ->) | (e & ->)]; reflexivity.
Qed.



End TextSpec.

(* ===================================================================== *)
(** ** From the store to the table *)
(* ===================================================================== *)

Module PipelineFacts.
Import Py Api FileSearch Visualizer Pipeline Props MoreProps PyFacts TableFacts.

Lemma result_print l : result (print l) = Return tt.
Proof. reflexivity. Qed.

Lemma result_ret {A} (a : A) : result (ret a) = Return a.
Proof. reflexivity. Qed.

(** A [try] whose handler returns never raises. *)
Lemma try_except_returns {A} (body : io A) (h : exn -> io A) :
  (forall e, exists a, result (h e) = Return a) ->
  exists a, result (try_except body h) = Return a.
Proof.
  intros H. destruct (result body) as [a | e] eqn:E.
  - exists a. apply result_try_return. exact E.
  - destruct (H e) as (a & Ha). exists a.
    rewrite (@result_try_raise _ body h e E). exact Ha.
Qed.

(** What the body of the loop does with one result. *)
Lemma fetch_one_cases h embeddings_data :
  (carries_embedding h = false /\
   result (fetch_one h embeddings_data) = Return embeddings_data) \/
  (carries_embedding h = true /\ hit_id h = None /\
   exists e, result (fetch_one h embeddings_data) = Raise e) \/
  (carries_embedding h = true /\
   exists d, embedding d <> [] /\
             result (fetch_one h embeddings_data) = Return (embeddings_data ++ [d])).
Proof.
  unfold fetch_one, carries_embedding.
  destruct (hit_values h) as [| | [| x values]];
    destruct (hit_score h) as [score |];
    destruct (hit_id h) as [i |]; cbn;
    solve [ left; split; reflexivity
          | right; left; split; [reflexivity |]; split; [reflexivity |];
            eexists; reflexivity
          | right; right; split; [reflexivity |];
            eexists; split; [| reflexivity]; cbn; discriminate ].
Qed.

(** The loop only adds documents that have an embedding, at most one
    per result. *)
Lemma fetch_loop_documents hits :
  forall embeddings_data docs,
    Forall (fun d => embedding d <> []) embeddings_data ->
    result (fetch_loop hits embeddings_data) = Return docs ->
    Forall (fun d => embedding d <> []) docs /\
    List.length docs <= List.length embeddings_data + List.length hits.
Proof.
  induction hits as [| h hits IH]; intros acc docs Hacc Hrun.
  - cbn in Hrun. injection Hrun as <-. split; [exact Hacc | lia].
  - cbn [fetch_loop] in Hrun. rewrite result_bind in Hrun.
    destruct (fetch_one_cases h acc)
      as [(_ & E) | [(_ & _ & e & E) | (_ & d & Hd & E)]];
      rewrite E in Hrun; cbn [obind] in Hrun.
    + destruct (IH acc docs Hacc Hrun) as (F & L). split; [exact F |].
      cbn [List.length]. lia.
    + discriminate Hrun.
    + destruct (IH (acc ++ [d]) docs) as (F & L).
      * apply Forall_app. split; [exact Hacc |]. constructor; [exact Hd | constructor].
      * exact Hrun.
      * split; [exact F |]. rewrite length_app in L. cbn [List.length] in *. lia.
Qed.

(** A result with an embedding and no id stops the loop. *)
Lemma fetch_loop_nameless before h after :
  carries_embedding h = true -> hit_id h = None ->
  forall embeddings_data,
    exists e, result (fetch_loop (before ++ h :: after) embeddings_data) = Raise e.
Proof.
  intros Hc Hid. induction before as [| h0 before IH]; intros acc;
    cbn [app fetch_loop]; rewrite result_bind.
  - destruct (fetch_one_cases h acc)
      as [(F & _) | [(_ & _ & e & E) | (_ & d & _ & E)]].
    + congruence.
    + rewrite E. exists e. reflexivity.
    + exfalso. revert E. unfold fetch_one. rewrite Hid.
      unfold carries_embedding in Hc.
      destruct (hit_values h) as [| | [| x values]];
        destruct (hit_score h) as [score |]; cbn; discriminate.
  - destruct (result (fetch_one h0 acc)) as [acc' | e].
    + cbn [obind]. apply IH.
    + exists e. reflexivity.
Qed.

Lemma fetch_embeddings_result self vector_store_id max_results :
  exists docs,
    result (fetch_embeddings self vector_store_id max_results) = Return docs /\
    Forall (fun d => embedding d <> []) docs.
Proof.
  unfold fetch_embeddings. cbv zeta.
  match goal with |- context [try_except ?b ?h] => set (body := b); set (handler := h) end.
  destruct (result body) as [docs | e] eqn:E.
  - exists docs. split; [apply result_try_return; exact E |].
    subst body. rewrite result_bind, result_lift in E.
    destruct (search_by_vector self vector_store_id _ max_results) as [hits | e];
      cbn [obind] in E; [| discriminate E].
    apply (fetch_loop_documents hits [] docs); [constructor | exact E].
  - exists []. split; [| constructor].
    rewrite (@result_try_raise _ body handler e E). reflexivity.
Qed.

(** The stages wrapped in a [try] never raise. *)
Lemma get_vector_store_info_returns self vector_store_id :
  exists info, result (get_vector_store_info self vector_store_id) = Return info.
Proof. apply try_except_returns. intros e. eexists. reflexivity. Qed.





Lemma create_dash_app_returns self df :
  exists r, result (create_dash_app self df) = Return r.
Proof. apply try_except_returns. intros e. eexists. reflexivity. Qed.

Lemma setitem_inv df key vals df' :
  setitem df key vals = Return df' ->
  (nrows df = 0 /\ List.length vals <> 0 /\
   df' = {| nrows := List.length vals;
            columns :=
              set_column key vals
                (map (fun c => (fst c, repeat VNaN (List.length vals)))
                     (columns df)) |}) \/
  (List.length vals = nrows df /\
   df' = {| nrows := nrows df; columns := set_column key vals (columns df) |}).
Proof.
  unfold setitem.
  destruct ((nrows df =? 0) && negb (List.length vals =? 0)) eqn:B.
  - intros H. injection H as <-. left.
    apply andb_prop in B. destruct B as (B1 & B2).
    apply Nat.eqb_eq in B1. apply negb_true_iff, Nat.eqb_neq in B2.
    split; [exact B1 |]. split; [exact B2 | reflexivity].
  - destruct (Nat.eqb_spec (List.length vals) (nrows df)) as [E | N];
      intros H; [| discriminate H].
    injection H as <-. right. split; [exact E | reflexivity].
Qed.

Lemma DataFrame_of_array_inv rows df :
  DataFrame_of_array rows ["x"; "y"; "z"]%string = Return df ->
  (rows = [] \/ width rows = 3) /\
  df = {| nrows := List.length rows;
          columns := [("x"%string, array_column rows 0);
                      ("y"%string, array_column rows 1);
                      ("z"%string, array_column rows 2)] |}.
Proof.
  unfold DataFrame_of_array. destruct rows as [| r rows].
  - intros H. injection H as <-. split; [left |]; reflexivity.
  - cbn [List.length].
    destruct (Nat.eqb_spec (width (r :: rows)) 3) as [E | N]; intros H;
      [| discriminate H].
    injection H as <-. split; [right; exact E | reflexivity].
Qed.

(** What a table returned by [create_visualization_data] was built from:
    the columns of coordinates come from the reduced embeddings, or hold
    [nan] when there was none of them. *)
Lemma create_visualization_data_inv embeddings_data reduced cluster_labels df :
  result (create_visualization_data embeddings_data reduced cluster_labels)
    = Return (Some df) ->
  exists cx cy cz,
    let start :=
      {| nrows := List.length embeddings_data;
         columns :=
           [("x"%string, cx); ("y"%string, cy); ("z"%string, cz);
            ("id"%string, map (fun d => VStr (id d)) embeddings_data);
            ("filename"%string, map (fun d => VStr (filename d)) embeddings_data)] |} in
    List.length cluster_labels = List.length embeddings_data /\
    ((reduced = [] /\
      cx = repeat VNaN (List.length embeddings_data) /\
      cy = repeat VNaN (List.length embeddings_data) /\
      cz = repeat VNaN (List.length embeddings_data)) \/
     (List.length reduced = List.length embeddings_data /\
      width reduced = 3 /\
      cx = array_column reduced 0 /\
      cy = array_column reduced 1 /\
      cz = array_column reduced 2)) /\
    df = {| nrows := nrows (add_metadata 0 embeddings_data start);
            columns :=
              set_column "text_preview"
                (map (fun d => VStr (text_preview (text d))) embeddings_data)
                (set_column "cluster" (map VInt cluster_labels)
                   (columns (add_metadata 0 embeddings_data start))) |}.
Proof.
  unfold create_visualization_data.
  match goal with |- context [try_except ?b ?h] => set (body := b); set (handler := h) end.
  intros H.
  destruct (result body) as [r | e] eqn:E;
    [| rewrite (@result_try_raise _ body handler e E) in H; discriminate H].
  rewrite (@result_try_return _ body handler r E) in H. injection H as ->.
  subst body.
  rewrite result_bind, result_lift in E.
  destruct (DataFrame_of_array reduced _) as [df0 | e] eqn:E0;
    cbn [obind] in E; [| discriminate E].
  apply DataFrame_of_array_inv in E0. destruct E0 as (Hw & ->).
  rewrite result_bind, result_lift in E.
  destruct (setitem _ "id" _) as [df1 | e] eqn:E1; cbn [obind] in E; [| discriminate E].
  rewrite result_bind, result_lift in E.
  destruct (setitem df1 "filename" _) as [df2 | e] eqn:E2;
    cbn [obind] in E; [| discriminate E].
  rewrite result_bind, result_lift in E.
  destruct (setitem _ "cluster" _) as [df3 | e] eqn:E3;
    cbn [obind] in E; [| discriminate E].
  rewrite result_bind, result_lift in E.
  destruct (setitem df3 "text_preview" _) as [df4 | e] eqn:E4;
    cbn [obind] in E; [| discriminate E].
  cbn in E. injection E as <-.
  set (n := List.length embeddings_data) in *.
  (* the ids give the table its rows when it had none *)
  assert (S1 : exists cx cy cz,
             df1 = {| nrows := n;
                      columns :=
                        [("x"%string, cx); ("y"%string, cy); ("z"%string, cz);
                         ("id"%string, map (fun d => VStr (id d)) embeddings_data)] |} /\
             ((reduced = [] /\ cx = repeat VNaN n /\ cy = repeat VNaN n
               /\ cz = repeat VNaN n) \/
              (List.length reduced = n /\ width reduced = 3 /\
               cx = array_column reduced 0 /\ cy = array_column reduced 1 /\
               cz = array_column reduced 2))).
  { apply setitem_inv in E1. rewrite length_map in E1. fold n in E1.
    cbn [nrows columns map fst] in E1.
    simpl (set_column "id" _ _) in E1.
    destruct E1 as [(Z & NZ & ->) | (L & ->)].
    - apply length_zero_iff_nil in Z.
      exists (repeat VNaN n), (repeat VNaN n), (repeat VNaN n).
      split; [reflexivity |]. left. tauto.
    - destruct Hw as [-> | Hw].
      + cbn [List.length] in L |- *.
        exists [], [], []. rewrite L. split; [reflexivity |]. left.
        repeat split; reflexivity.
      + rewrite <- L.
        exists (array_column reduced 0), (array_column reduced 1),
               (array_column reduced 2).
        split; [reflexivity |]. right. tauto. }
  destruct S1 as (cx & cy & cz & -> & Hcols).
  exists cx, cy, cz. cbv zeta.
  apply setitem_inv in E2. rewrite length_map in E2. fold n in E2.
  cbn [nrows columns] in E2.
  destruct E2 as [(Z & NZ & _) | (_ & ->)]; [congruence |].
  simpl (set_column "filename" _ _) in *.
  match type of E3 with
  | setitem (add_metadata 0 embeddings_data ?s) _ _ = _ => set (start := s) in *
  end.
  assert (Hn : nrows (add_metadata 0 embeddings_data start) = n)
    by (rewrite (proj1 (add_metadata_keeps embeddings_data 0 start)); reflexivity).
  apply setitem_inv in E3. rewrite length_map, Hn in E3.
  apply setitem_inv in E4. rewrite length_map in E4. fold n in E4.
  destruct E3 as [(Z & NZ & ->) | (L & ->)]; cbn [nrows columns] in E4.
  - destruct E4 as [(Z' & _) | (L' & _)]; congruence.
  - destruct E4 as [(Z' & NZ' & _) | (_ & ->)]; [congruence |].
    split; [exact L |]. split; [exact Hcols |].
    rewrite Hn. reflexivity.
Qed.

(** The document made of a result that carries an embedding and has an
    id. *)
Lemma fetch_one_document h embeddings_data i :
  carries_embedding h = true ->
  hit_id h = Some i ->
  exists d,
    result (fetch_one h embeddings_data) = Return (embeddings_data ++ [d]) /\
    document_of h d /\
    embedding d <> [].
Proof.
  destruct h as [hid hfn hv hs hm ht].
  unfold fetch_one, carries_embedding, document_of, kept_embedding.
  cbn [hit_id hit_filename hit_values hit_score hit_metadata hit_text].
  intros Hc ->.
  destruct hv as [| | [| x values]]; destruct hs as [score |];
    try discriminate Hc; cbn;
    (eexists; split; [reflexivity |]; split; [| discriminate]);
    cbn; repeat split; reflexivity.
Qed.

(** When every result that carries an embedding has an id, the loop
    adds their documents in order. *)
Lemma fetch_loop_all hits :
  forall embeddings_data,
    Forall (fun h => hit_id h <> None) (filter carries_embedding hits) ->
    exists docs,
      result (fetch_loop hits embeddings_data) = Return (embeddings_data ++ docs) /\
      Forall2 document_of (filter carries_embedding hits) docs /\
      Forall (fun d => embedding d <> []) docs.
Proof.
  induction hits as [| h hits IH]; intros acc Hids.
  - exists []. cbn. rewrite app_nil_r. repeat split; constructor.
  - cbn [fetch_loop filter] in *. rewrite result_bind.
    destruct (carries_embedding h) eqn:C.
    + inversion Hids as [| ? ? Hid Hrest]; subst.
      destruct (hit_id h) as [i |] eqn:Ei; [| congruence].
      destruct (fetch_one_document h acc i C Ei) as (d & -> & Hd & Hne).
      cbn [obind].
      destruct (IH (acc ++ [d]) Hrest) as (docs & -> & Hall & Hnes).
      exists (d :: docs). rewrite <- app_assoc. cbn [app].
      split; [reflexivity |]. split; constructor; assumption.
    + destruct (fetch_one_cases h acc)
        as [(_ & ->) | [(C' & _) | (C' & _)]]; try congruence.
      cbn [obind]. apply IH. exact Hids.
Qed.

Lemma has_id_dec (h : hit) : {hit_id h <> None} + {~ hit_id h <> None}.
Proof.
  destruct (hit_id h); [left; discriminate | right; intros N; apply N; reflexivity].
Qed.

(** What [fetch_embeddings] returns when the query raised, and when a
    result that carries an embedding has no id. *)
Lemma fetch_embeddings_query_raised self vector_store_id max_results e :
  search_by_vector self vector_store_id (repeat 0%Q 1536) max_results = Raise e ->
  result (fetch_embeddings self vector_store_id max_results) = Return [].
Proof.
  intros Hsearch. unfold fetch_embeddings. cbv zeta.
  match goal with |- context [try_except ?b ?h] => set (body := b); set (handler := h) end.
  assert (E : result body = Raise e).
  { subst body. rewrite result_bind, result_lift, Hsearch. reflexivity. }
  rewrite (@result_try_raise _ body handler e E). reflexivity.
Qed.

Lemma fetch_embeddings_nameless self vector_store_id max_results hits h :
  search_by_vector self vector_store_id (repeat 0%Q 1536) max_results = Return hits ->
  In h hits ->
  carries_embedding h = true ->
  hit_id h = None ->
  result (fetch_embeddings self vector_store_id max_results) = Return [].
Proof.
  intros Hsearch Hin Hc Hid.
  destruct (in_split h hits Hin) as (before & after & ->).
  unfold fetch_embeddings. cbv zeta.
  match goal with |- context [try_except ?b ?h] => set (body := b); set (handler := h) end.
  assert (E : exists e, result body = Raise e).
  { subst body. rewrite result_bind, result_lift, Hsearch. cbn [obind].
    apply fetch_loop_nameless; assumption. }
  destruct E as (e & E).
  rewrite (@result_try_raise _ body handler e E). reflexivity.
Qed.

Lemma fetch_embeddings_all self vector_store_id max_results hits :
  search_by_vector self vector_store_id (repeat 0%Q 1536) max_results = Return hits ->
  Forall (fun h => hit_id h <> None) (filter carries_embedding hits) ->
  exists docs,
    result (fetch_embeddings self vector_store_id max_results) = Return docs /\
    Forall2 document_of (filter carries_embedding hits) docs /\
    Forall (fun d => embedding d <> []) docs.
Proof.
  intros Hsearch Hids.
  destruct (fetch_loop_all hits [] Hids) as (docs & Hrun & Hall & Hne).
  exists docs. split; [| split; assumption].
  unfold fetch_embeddings. cbv zeta. apply result_try_return.
  rewrite result_bind, result_lift, Hsearch. cbn [obind]. exact Hrun.
Qed.

End PipelineFacts.

(* ===================================================================== *)
(** ** Further properties of the plotting table *)
(* ===================================================================== *)

Module CellFacts.
Import Py Visualizer Props MoreProps PyFacts TableFacts.

Lemma add_metadata_items_cons i key v items df :
  add_metadata_items i ((key, v) :: items) df = add_metadata_items i items (put i key v df).
Proof. reflexivity. Qed.

Lemma dict_get_In {V} key (d : list (string * V)) v :
  dict_get key d = Some v -> In (key, v) d.
Proof.
  induction d as [| [k w] d IH]; simpl; [discriminate |].
  destruct (String.eqb_spec k key) as [-> | N].
  - intros H. injection H as <-. left. reflexivity.
  - intros H. right. apply IH. exact H.
Qed.

Lemma well_formed_column df key col :
  well_formed df -> dict_get key (columns df) = Some col ->
  List.length col = nrows df.
Proof.
  intros W H. apply dict_get_In in H. unfold well_formed in W.
  rewrite Forall_forall in W. exact (W (key, col) H).
Qed.

Lemma has_column_present key df : has_column key df = true <-> present key df.
Proof.
  unfold has_column, present.
  induction (columns df) as [| [k c] cols IH]; simpl.
  - split; [discriminate | congruence].
  - destruct (String.eqb k key); simpl.
    + split; [discriminate | reflexivity].
    + exact IH.
Qed.

Lemma dict_get_at_set df i key v key' :
  dict_get key' (columns (at_set df i key v))
  = if String.eqb key key'
    then option_map (list_set i v) (dict_get key' (columns df))
    else dict_get key' (columns df).
Proof.
  destruct (String.eqb_spec key key') as [<- | N].
  - unfold at_set. cbn [columns].
    induction (columns df) as [| [k c] cols IH]; [reflexivity |].
    cbn [map fst snd]. destruct (String.eqb k key) eqn:E; simpl; rewrite E.
    + reflexivity.
    + exact IH.
  - apply at_set_other. exact N.
Qed.

Lemma nth_error_list_set_same {A} i (v : A) l :
  i < List.length l -> nth_error (list_set i v l) i = Some v.
Proof.
  revert i. induction l as [| y l IH]; intros [| i] H; simpl in *; try lia.
  - reflexivity.
  - apply IH. lia.
Qed.

Lemma nth_error_list_set_other {A} i j (v : A) l :
  i <> j -> nth_error (list_set i v l) j = nth_error l j.
Proof.
  revert i j. induction l as [| y l IH]; intros [| i] [| j] H; simpl;
    try reflexivity; try congruence.
  apply IH. congruence.
Qed.

Lemma at_set_present df i key v key' :
  present key' (at_set df i key v) <-> present key' df.
Proof.
  unfold present. rewrite dict_get_at_set.
  destruct (String.eqb key key'); [| tauto].
  destruct (dict_get key' (columns df)); simpl; split; congruence.
Qed.

Lemma cell_at_set_other_row df i j key v key' :
  i <> j -> cell (at_set df i key v) j key' = cell df j key'.
Proof.
  intros N. unfold cell. rewrite dict_get_at_set.
  destruct (String.eqb key key'); [| reflexivity].
  destruct (dict_get key' (columns df)) as [col |]; [| reflexivity].
  simpl. apply nth_error_list_set_other. exact N.
Qed.

Lemma put_nrows i key v df : nrows (put i key v df) = nrows df.
Proof. unfold put. destruct (negb _); reflexivity. Qed.

Lemma put_well_formed i key v df : well_formed df -> well_formed (put i key v df).
Proof.
  intros W. unfold put. apply at_set_well_formed.
  destruct (negb _); [apply setitem_scalar_well_formed |]; exact W.
Qed.

Lemma put_present_same i key v df : present key (put i key v df).
Proof.
  unfold put. apply at_set_present.
  destruct (has_column key df) eqn:E; cbn [negb].
  - apply has_column_present. exact E.
  - unfold present, setitem_scalar. cbn [columns].
    rewrite dict_get_set_column_same. discriminate.
Qed.

Lemma put_present_other i key v df key' :
  present key' df -> present key' (put i key v df).
Proof.
  intros P. unfold put. apply at_set_present.
  destruct (has_column key df) eqn:E; cbn [negb]; [exact P |].
  unfold present. destruct (String.eqb_spec key key') as [<- | N].
  - apply has_column_present in P. congruence.
  - rewrite setitem_scalar_other by exact N. exact P.
Qed.

(** The cell just written holds the value. *)
Lemma put_cell_same i key v df :
  well_formed df -> i < nrows df -> cell (put i key v df) i key = Some v.
Proof.
  intros W Hi.
  set (df' := if negb (has_column key df) then setitem_scalar df key VNone else df).
  assert (W' : well_formed df').
  { subst df'. destruct (negb _); [apply setitem_scalar_well_formed |]; exact W. }
  assert (N' : nrows df' = nrows df) by (subst df'; destruct (negb _); reflexivity).
  assert (P' : present key df').
  { subst df'. destruct (has_column key df) eqn:E; cbn [negb].
    - apply has_column_present. exact E.
    - unfold present, setitem_scalar. cbn [columns].
      rewrite dict_get_set_column_same. discriminate. }
  unfold put. fold df'. unfold cell. rewrite dict_get_at_set, String.eqb_refl.
  unfold present in P'. destruct (dict_get key (columns df')) as [col |] eqn:E;
    [| congruence].
  simpl. apply nth_error_list_set_same.
  rewrite (well_formed_column df' key col W' E). lia.
Qed.

(** Writing in row [i] leaves the other rows of an existing column. *)
Lemma put_cell_other_row i j key v df key' :
  i <> j -> present key' df -> cell (put i key v df) j key' = cell df j key'.
Proof.
  intros N P. unfold put. rewrite cell_at_set_other_row by exact N.
  destruct (has_column key df) eqn:E; cbn [negb]; [reflexivity |].
  unfold cell. destruct (String.eqb_spec key key') as [<- | Nk].
  - apply has_column_present in P. congruence.
  - rewrite setitem_scalar_other by exact Nk. reflexivity.
Qed.

(** A column created for row [i] holds [None] in the other rows. *)
Lemma put_cell_created i j key v df :
  i <> j -> j < nrows df -> ~ present key df ->
  cell (put i key v df) j key = Some VNone.
Proof.
  intros N Hj A. unfold put. rewrite cell_at_set_other_row by exact N.
  destruct (has_column key df) eqn:E.
  - apply has_column_present in E. contradiction.
  - cbn [negb]. unfold cell, setitem_scalar. cbn [columns].
    rewrite dict_get_set_column_same.
    rewrite nth_error_repeat by exact Hj. reflexivity.
Qed.

Section Items.
Variable i : nat.
Variable key : string.

Lemma items_nrows items : forall df, nrows (add_metadata_items i items df) = nrows df.
Proof. intros df. apply add_metadata_items_keeps. Qed.

Lemma items_well_formed items :
  forall df, well_formed df -> well_formed (add_metadata_items i items df).
Proof. intros df. apply add_metadata_items_keeps. Qed.

Lemma items_present items :
  forall df, present key df -> present key (add_metadata_items i items df).
Proof.
  induction items as [| [k v] items IH]; intros df P; [exact P |].
  rewrite add_metadata_items_cons. apply IH, put_present_other, P.
Qed.

(** The value a document gives for a key is in its row. *)
Lemma items_cell_same items v :
  forall df,
    well_formed df -> i < nrows df ->
    NoDup (map fst items) -> In (key, v) items ->
    cell (add_metadata_items i items df) i key = Some v /\
    present key (add_metadata_items i items df).
Proof.
  induction items as [| [k w] items IH]; intros df W Hi Hnd Hin; [contradiction |].
  rewrite add_metadata_items_cons. cbn [map fst] in Hnd.
  inversion Hnd as [| k0 ks Hnotin Hnd' ]; subst.
  destruct Hin as [E | Hin].
  - injection E as -> ->.
    split.
    + unfold cell.
      rewrite (proj2 (proj2 (add_metadata_items_keeps i items (put i key v df)))).
      * apply put_cell_same; assumption.
      * intros k' w' Hk' ->. apply Hnotin.
        apply (in_map fst) in Hk'. exact Hk'.
    + apply items_present, put_present_same.
  - apply IH; [apply put_well_formed; exact W | rewrite put_nrows; exact Hi
              | exact Hnd' | exact Hin].
Qed.

(** The other rows of an existing column stay as they are. *)
Lemma items_cell_other_row items j :
  i <> j ->
  forall df, present key df ->
             cell (add_metadata_items i items df) j key = cell df j key.
Proof.
  intros N. induction items as [| [k w] items IH]; intros df P; [reflexivity |].
  rewrite add_metadata_items_cons, IH by (apply put_present_other; exact P).
  apply put_cell_other_row; assumption.
Qed.

(** In another row, a column is absent or holds [None] as long as that
    was so before; it holds [None] once some item has the key. *)
Lemma items_cell_none items j :
  i <> j ->
  forall df,
    j < nrows df ->
    (~ present key df \/ cell df j key = Some VNone) ->
    (~ present key (add_metadata_items i items df)
     \/ cell (add_metadata_items i items df) j key = Some VNone) /\
    (In key (map fst items) ->
     cell (add_metadata_items i items df) j key = Some VNone).
Proof.
  intros N. induction items as [| [k w] items IH]; intros df Hj Hinv.
  - cbn. split; [exact Hinv | contradiction].
  - rewrite add_metadata_items_cons.
    assert (Hput : (k = key -> cell (put i k w df) j key = Some VNone) /\
                   (~ present key (put i k w df)
                    \/ cell (put i k w df) j key = Some VNone)).
    { destruct (String.eqb_spec k key) as [-> | Nk].
      - assert (C : cell (put i key w df) j key = Some VNone).
        { destruct Hinv as [A | C].
          - apply put_cell_created; assumption.
          - destruct (dict_get key (columns df)) eqn:E.
            + rewrite put_cell_other_row; [exact C | exact N |].
              unfold present. congruence.
            + unfold cell in C. rewrite E in C. discriminate C. }
        split; [intros _; exact C | right; exact C].
      - split; [congruence |].
        destruct Hinv as [A | C].
        + left. unfold put. rewrite at_set_present.
          destruct (negb _); [| exact A].
          unfold present. rewrite setitem_scalar_other by exact Nk. exact A.
        + right. rewrite put_cell_other_row; [exact C | exact N |].
          unfold present. unfold cell in C.
          destruct (dict_get key (columns df)); [discriminate | discriminate C]. }
    destruct Hput as (Hsame & Hinv').
    destruct (IH (put i k w df)) as (I1 & I2);
      [rewrite put_nrows; exact Hj | exact Hinv' |].
    split; [exact I1 |].
    cbn [map fst]. intros [-> | Hin]; [| apply I2; exact Hin].
    destruct (in_dec string_dec key (map fst items)) as [Hin | Hnotin];
      [apply I2; exact Hin |].
    unfold cell.
    rewrite (proj2 (proj2 (add_metadata_items_keeps i items (put i key w df)))).
    + apply Hsame. reflexivity.
    + intros k' w' Hk' ->. apply Hnotin. apply (in_map fst) in Hk'. exact Hk'.
Qed.

End Items.

Section Documents.
Variable key : string.

Lemma docs_nrows docs : forall i0 df, nrows (add_metadata i0 docs df) = nrows df.
Proof. intros i0 df. apply add_metadata_keeps. Qed.

Lemma docs_present docs :
  forall i0 df, present key df -> present key (add_metadata i0 docs df).
Proof.
  induction docs as [| d docs IH]; intros i0 df P; [exact P |].
  cbn [add_metadata]. apply IH, items_present, P.
Qed.

(** The rows before the position reached are not written any more. *)
Lemma docs_cell_before docs j :
  forall i0 df,
    present key df -> j < i0 ->
    cell (add_metadata i0 docs df) j key = cell df j key.
Proof.
  induction docs as [| d docs IH]; intros i0 df P Hj; [reflexivity |].
  cbn [add_metadata]. rewrite IH; [| apply items_present; exact P | lia].
  apply items_cell_other_row; [lia | exact P].
Qed.

(** The value of document number [p] is in row [i0 + p]. *)
Lemma docs_cell_same docs v :
  forall i0 df p d,
    well_formed df -> i0 + List.length docs <= nrows df ->
    nth_error docs p = Some d ->
    NoDup (map fst (metadata d)) -> In (key, v) (metadata d) ->
    cell (add_metadata i0 docs df) (i0 + p) key = Some v.
Proof.
  induction docs as [| d0 docs IH]; intros i0 df p d W Hlen Hp Hnd Hin;
    [destruct p; discriminate Hp |].
  cbn [add_metadata List.length] in *. destruct p as [| p]; cbn [nth_error] in Hp.
  - injection Hp as ->. rewrite Nat.add_0_r.
    destruct (items_cell_same i0 key (metadata d) v df W ltac:(lia) Hnd Hin)
      as (C & P).
    rewrite docs_cell_before; [exact C | exact P | lia].
  - replace (i0 + S p) with (S i0 + p) by lia.
    apply (IH (S i0) _ p d); try assumption.
    + apply items_well_formed. exact W.
    + rewrite items_nrows. lia.
Qed.

(** A row whose document lacks the key holds [None] under it as soon as
    some document has the key. *)
Lemma docs_cell_none docs j :
  forall i0 df,
    j < nrows df ->
    (~ present key df \/ cell df j key = Some VNone) ->
    (forall p d, nth_error docs p = Some d -> i0 + p = j ->
                 ~ In key (map fst (metadata d))) ->
    (~ present key (add_metadata i0 docs df)
     \/ cell (add_metadata i0 docs df) j key = Some VNone) /\
    ((exists d, In d docs /\ In key (map fst (metadata d))) ->
     cell (add_metadata i0 docs df) j key = Some VNone).
Proof.
  induction docs as [| d0 docs IH]; intros i0 df Hj Hinv Hlack.
  - cbn. split; [exact Hinv | intros (d & [] & _)].
  - cbn [add_metadata].
    assert (Hitems :
              (~ present key (add_metadata_items i0 (metadata d0) df)
               \/ cell (add_metadata_items i0 (metadata d0) df) j key = Some VNone) /\
              (In key (map fst (metadata d0)) ->
               cell (add_metadata_items i0 (metadata d0) df) j key = Some VNone)).
    { destruct (Nat.eq_dec i0 j) as [E | N].
      - assert (L : ~ In key (map fst (metadata d0)))
          by (apply (Hlack 0 d0 eq_refl); lia).
        assert (K : dict_get key (columns (add_metadata_items i0 (metadata d0) df))
                    = dict_get key (columns df)).
        { apply add_metadata_items_keeps. intros k w Hk ->. apply L.
          apply (in_map fst) in Hk. exact Hk. }
        split; [| contradiction].
        unfold present, cell. rewrite K. exact Hinv.
      - apply items_cell_none; assumption. }
    destruct Hitems as (I1 & I2).
    destruct (IH (S i0) (add_metadata_items i0 (metadata d0) df)) as (J1 & J2).
    + rewrite items_nrows. exact Hj.
    + exact I1.
    + intros p d Hp E. apply (Hlack (S p) d Hp). lia.
    + split; [exact J1 |].
      intros (d & [<- | Hd] & Hk).
      * pose proof (I2 Hk) as C.
        destruct J1 as [A | C']; [| exact C'].
        exfalso. apply A. apply docs_present.
        unfold present. unfold cell in C.
        destruct (dict_get key (columns (add_metadata_items i0 (metadata d0) df)));
          [discriminate | discriminate C].
      * apply J2. exists d. split; assumption.
Qed.

End Documents.

End CellFacts.

Module TableMore.
Import Py Visualizer Props MoreProps PyFacts TableFacts CellFacts PipelineFacts.

(** The table a call returned, written out. *)
Lemma returned_table embeddings_data reduced_embeddings cluster_labels df :
  result (create_visualization_data embeddings_data reduced_embeddings cluster_labels)
    = Return (Some df) ->
  exists cx cy cz,
    let start :=
      {| nrows := List.length embeddings_data;
         columns :=
           [("x"%string, cx); ("y"%string, cy); ("z"%string, cz);
            ("id"%string, map (fun d => VStr (id d)) embeddings_data);
            ("filename"%string, map (fun d => VStr (filename d)) embeddings_data)] |} in
    well_formed start /\
    List.length cluster_labels = List.length embeddings_data /\
    (reduced_embeddings = [] \/
     (List.length reduced_embeddings = List.length embeddings_data /\
      width reduced_embeddings = 3)) /\
    df = {| nrows := nrows (add_metadata 0 embeddings_data start);
            columns :=
              set_column "text_preview"
                (map (fun d => VStr (text_preview (text d))) embeddings_data)
                (set_column "cluster" (map VInt cluster_labels)
                   (columns (add_metadata 0 embeddings_data start))) |}.
Proof.
  intros H.
  destruct (create_visualization_data_inv _ _ _ _ H) as (cx & cy & cz & Hinv).
  cbv zeta in Hinv. destruct Hinv as (Hc & Hcols & ->).
  exists cx, cy, cz. cbv zeta.
  split; [| split; [exact Hc | split; [| reflexivity]]].
  - unfold well_formed. cbn [columns nrows].
    destruct Hcols as [(_ & -> & -> & ->) | (Hr & _ & -> & -> & ->)];
      repeat constructor; cbn [snd]; unfold array_column;
      rewrite ?repeat_length, ?length_map; congruence.
  - destruct Hcols as [(-> & _) | (Hr & Hw & _)]; [left; reflexivity | right; tauto].
Qed.

(** No row is longer than the longest, and one is as long. *)
Lemma width_bounds rows :
  Forall (fun r : list Q => List.length r <= width rows) rows.
Proof.
  induction rows as [| r rows IH]; [constructor |].
  cbn [width fold_right]. fold (width rows). constructor; [lia |].
  eapply Forall_impl; [| exact IH]. cbn beta. intros r' Hr'. lia.
Qed.

Lemma width_attained rows :
  rows <> [] ->
  Exists (fun r : list Q => List.length r = width rows) rows.
Proof.
  induction rows as [| r rows IH]; intros Hne; [congruence |].
  cbn [width fold_right]. fold (width rows).
  destruct (Nat.le_gt_cases (width rows) (List.length r)) as [Hle | Hgt].
  - apply Exists_cons_hd. lia.
  - apply Exists_cons_tl.
    assert (Hrows : rows <> []) by (intros ->; cbn in Hgt; lia).
    eapply Exists_impl; [| exact (IH Hrows)]. cbn beta. intros r' Hr'. lia.
Qed.

(** X17: a table returned by [create_visualization_data] has one row
    per document and one cell per row in every column, and there were
    as many cluster labels as documents.  The reduced embeddings were
    either none at all or one per document, none of them with more than
    three coordinates and one of them with exactly three. *)
Theorem returned_table_is_rectangular
    embeddings_data reduced_embeddings cluster_labels df :
  result (create_visualization_data embeddings_data reduced_embeddings cluster_labels)
    = Return (Some df) ->
  nrows df = List.length embeddings_data /\
  well_formed df /\
  List.length cluster_labels = List.length embeddings_data /\
  (reduced_embeddings = [] \/
   (List.length reduced_embeddings = List.length embeddings_data /\
    Forall (fun r : list Q => List.length r <= 3) reduced_embeddings /\
    Exists (fun r : list Q => List.length r = 3) reduced_embeddings)).
Proof.
  intros H.
  destruct (returned_table _ _ _ _ H) as (cx & cy & cz & Hret).
  cbv zeta in Hret. destruct Hret as (W & Hc & Hshape & ->).
  match goal with |- context [add_metadata 0 _ ?s] => set (start := s) in * end.
  assert (Hn : nrows (add_metadata 0 embeddings_data start)
               = List.length embeddings_data)
    by (rewrite docs_nrows; reflexivity).
  split; [exact Hn |]. split; [| split; [exact Hc |]].
  - unfold well_formed. cbn [columns nrows].
    apply set_column_lengths; [rewrite length_map; congruence |].
    apply set_column_lengths; [rewrite length_map; congruence |].
    apply add_metadata_keeps. exact W.
  - destruct Hshape as [-> | (Hr & Hw)]; [left; reflexivity | right].
    split; [exact Hr |]. split.
    + rewrite <- Hw. apply width_bounds.
    + rewrite <- Hw. apply width_attained.
      intros ->. cbn in Hw. discriminate Hw.
Qed.

Lemma rectangular_witness :
  nrows {| nrows := 2;
           columns :=
             [("x"%string, [VNum 1; VNum 4]); ("y"%string, [VNum 2; VNum 5]);
              ("z"%string, [VNaN; VNum 6]);
              ("id"%string, [VStr "doc_1"; VStr "doc_0"]);
              ("filename"%string, [VStr "other.pdf"; VStr "report.pdf"]);
              ("author"%string, [VNone; VStr "Alice"]);
              ("year"%string, [VNone; VInt 2025]);
              ("cluster"%string, [VInt 0; VInt 1]);
              ("text_preview"%string,
               [VStr "Minutes of the meeting...."; VStr "Quarterly report...."])] |}
    = List.length [Samples.relabelled; Samples.report] /\
  well_formed
    {| nrows := 2;
       columns :=
         [("x"%string, [VNum 1; VNum 4]); ("y"%string, [VNum 2; VNum 5]);
          ("z"%string, [VNaN; VNum 6]);
          ("id"%string, [VStr "doc_1"; VStr "doc_0"]);
          ("filename"%string, [VStr "other.pdf"; VStr "report.pdf"]);
          ("author"%string, [VNone; VStr "Alice"]);
          ("year"%string, [VNone; VInt 2025]);
          ("cluster"%string, [VInt 0; VInt 1]);
          ("text_preview"%string,
           [VStr "Minutes of the meeting...."; VStr "Quarterly report...."])] |} /\
  List.length [0; 1]%Z = List.length [Samples.relabelled; Samples.report] /\
  ([[1; 2]; [4; 5; 6]]%Q = [] \/
   (List.length [[1; 2]; [4; 5; 6]]%Q
      = List.length [Samples.relabelled; Samples.report] /\
    Forall (fun r : list Q => List.length r <= 3) [[1; 2]; [4; 5; 6]]%Q /\
    Exists (fun r : list Q => List.length r = 3) [[1; 2]; [4; 5; 6]]%Q)).
Proof.
  apply (returned_table_is_rectangular [Samples.relabelled; Samples.report]
           [[1; 2]; [4; 5; 6]]%Q [0; 1]%Z).
  reflexivity.
Defined.

(** X18: in a returned table, the value a document's metadata gives for
    a key that is not the name of another column is in the row of that
    document, in the column named by the key. *)
Theorem metadata_value_is_in_its_row
    embeddings_data reduced_embeddings cluster_labels df i d key v :
  result (create_visualization_data embeddings_data reduced_embeddings cluster_labels)
    = Return (Some df) ->
  nth_error embeddings_data i = Some d ->
  NoDup (map fst (metadata d)) ->
  In (key, v) (metadata d) ->
  ~ In key reserved_columns ->
  cell df i key = Some v.
Proof.
  intros H Hd Hnd Hin Hkey.
  destruct (returned_table _ _ _ _ H) as (cx & cy & cz & Hret).
  cbv zeta in Hret. destruct Hret as (W & Hc & Hshape & ->).
  match goal with |- context [add_metadata 0 _ ?s] => set (start := s) in * end.
  assert (Hlen : List.length embeddings_data <= nrows start) by reflexivity.
  unfold cell. cbn [columns].
  rewrite !dict_get_set_column_other
    by (intros <-; apply Hkey; simpl; tauto).
  apply (docs_cell_same key embeddings_data v 0 start i d); assumption.
Qed.

Lemma metadata_value_witness :
  cell {| nrows := 1;
          columns :=
            [("x"%string, [VNum 1]); ("y"%string, [VNum 2]); ("z"%string, [VNum 3]);
             ("id"%string, [VStr "doc_0"]); ("filename"%string, [VStr "report.pdf"]);
             ("author"%string, [VStr "Alice"]); ("year"%string, [VInt 2025]);
             ("cluster"%string, [VInt 0]);
             ("text_preview"%string, [VStr "Quarterly report...."])] |}
    0 "author" = Some (VStr "Alice").
Proof.
  apply (metadata_value_is_in_its_row [Samples.report] [[1; 2; 3]%Q] [0%Z] _ 0
           Samples.report "author"%string (VStr "Alice")).
  - reflexivity.
  - reflexivity.
  - repeat constructor; simpl; intuition discriminate.
  - simpl. tauto.
  - simpl. intuition discriminate.
Defined.

(** X19: in a returned table, a row whose document has no value for a
    metadata key that some other document has holds [None] in the
    column of that key. *)
Theorem missing_metadata_is_none
    embeddings_data reduced_embeddings cluster_labels df i d other key :
  result (create_visualization_data embeddings_data reduced_embeddings cluster_labels)
    = Return (Some df) ->
  nth_error embeddings_data i = Some d ->
  ~ In key (map fst (metadata d)) ->
  In other embeddings_data ->
  In key (map fst (metadata other)) ->
  ~ In key reserved_columns ->
  cell df i key = Some VNone.
Proof.
  intros H Hd Hlack Hother Hhas Hkey.
  destruct (returned_table _ _ _ _ H) as (cx & cy & cz & Hret).
  cbv zeta in Hret. destruct Hret as (W & Hc & Hshape & ->).
  match goal with |- context [add_metadata 0 _ ?s] => set (start := s) in * end.
  unfold cell. cbn [columns].
  rewrite !dict_get_set_column_other
    by (intros <-; apply Hkey; simpl; tauto).
  assert (Hi : i < List.length embeddings_data)
    by (apply nth_error_Some; congruence).
  destruct (docs_cell_none key embeddings_data i 0 start) as (_ & C).
  - unfold start. cbn [nrows]. lia.
  - left. unfold present, start. cbn [columns dict_get].
    repeat match goal with
           | |- context [String.eqb ?a key] =>
               destruct (String.eqb_spec a key) as [<- |];
               [exfalso; apply Hkey; simpl; tauto |]
           end.
    congruence.
  - intros p d' Hp E. cbn [Nat.add] in E. subst p. congruence.
  - apply C. exists other. split; assumption.
Qed.

Lemma missing_metadata_witness :
  cell {| nrows := 2;
          columns :=
            [("x"%string, [VNum 1; VNum 4]); ("y"%string, [VNum 2; VNum 5]);
             ("z"%string, [VNum 3; VNum 6]);
             ("id"%string, [VStr "doc_1"; VStr "doc_0"]);
             ("filename"%string, [VStr "other.pdf"; VStr "report.pdf"]);
             ("author"%string, [VNone; VStr "Alice"]);
             ("year"%string, [VNone; VInt 2025]);
             ("cluster"%string, [VInt 0; VInt 1]);
             ("text_preview"%string,
              [VStr "Minutes of the meeting...."; VStr "Quarterly report...."])] |}
    0 "author" = Some VNone.
Proof.
  apply (missing_metadata_is_none [Samples.relabelled; Samples.report]
           [[1; 2; 3]; [4; 5; 6]]%Q [0; 1]%Z _ 0 Samples.relabelled Samples.report
           "author"%string).
  - reflexivity.
  - reflexivity.
  - simpl. intuition discriminate.
  - simpl. tauto.
  - simpl. tauto.
  - simpl. intuition discriminate.
Defined.

End TableMore.

Module PipelineSpec.
Import Py Api FileSearch Visualizer Pipeline Props MoreProps PyFacts TableFacts.
Import CellFacts PipelineFacts TableMore.

(** X20: [fetch_embeddings] never raises, and every document it
    returns has a non-empty embedding.  It returns one document per
    result of the query that carries an embedding, in the order of the
    results: the id of the result, its filename or [Unknown], its
    [values] or else its [score] as a list of one number, its metadata
    or [{}], its text or the empty string.  It returns no document at
    all when the query raised or when a result that carries an
    embedding has no id. *)
Theorem fetched_documents_have_embeddings self vector_store_id max_results :
  exists docs,
    result (fetch_embeddings self vector_store_id max_results) = Return docs /\
    Forall (fun d => embedding d <> []) docs /\
    ((exists hits,
        search_by_vector self vector_store_id (repeat 0%Q 1536) max_results
          = Return hits /\
        Forall2 document_of (filter carries_embedding hits) docs) \/
     (docs = [] /\
      ((exists e,
          search_by_vector self vector_store_id (repeat 0%Q 1536) max_results
            = Raise e) \/
       (exists hits h,
          search_by_vector self vector_store_id (repeat 0%Q 1536) max_results
            = Return hits /\
          In h hits /\ carries_embedding h = true /\ hit_id h = None)))).
Proof.
  destruct (search_by_vector self vector_store_id (repeat 0%Q 1536) max_results)
    as [hits | e] eqn:Hsearch.
  - destruct (Forall_Exists_dec (fun h => hit_id h <> None) has_id_dec
                (filter carries_embedding hits)) as [Hids | Hnameless].
    + destruct (fetch_embeddings_all self vector_store_id max_results hits Hsearch Hids)
        as (docs & Hrun & Hall & Hne).
      exists docs. split; [exact Hrun |]. split; [exact Hne |].
      left. exists hits. split; [reflexivity | exact Hall].
    + apply Exists_exists in Hnameless. destruct Hnameless as (h & Hin & Hid).
      apply filter_In in Hin. destruct Hin as (Hin & Hc).
      assert (Hnone : hit_id h = None)
        by (destruct (hit_id h); [exfalso; apply Hid; discriminate | reflexivity]).
      exists []. split.
      * exact (fetch_embeddings_nameless self vector_store_id max_results hits h
                 Hsearch Hin Hc Hnone).
      * split; [constructor |]. right. split; [reflexivity |].
        right. exists hits, h. repeat split; assumption.
  - exists []. split.
    + exact (fetch_embeddings_query_raised self vector_store_id max_results e Hsearch).
    + split; [constructor |]. right. split; [reflexivity |].
      left. exists e. reflexivity.
Qed.

Lemma fetched_documents_witness :
  exists docs,
    result (fetch_embeddings MoreSamples.small_store "vs_1" 1000) = Return docs /\
    Forall (fun d => embedding d <> []) docs /\
    ((exists hits,
        search_by_vector MoreSamples.small_store "vs_1" (repeat 0%Q 1536) 1000
          = Return hits /\
        Forall2 document_of (filter carries_embedding hits) docs) \/
     (docs = [] /\
      ((exists e,
          search_by_vector MoreSamples.small_store "vs_1" (repeat 0%Q 1536) 1000
            = Raise e) \/
       (exists hits h,
          search_by_vector MoreSamples.small_store "vs_1" (repeat 0%Q 1536) 1000
            = Return hits /\
          In h hits /\ carries_embedding h = true /\ hit_id h = None)))).
Proof.
  exact (fetched_documents_have_embeddings MoreSamples.small_store "vs_1"%string 1000%Z).
Defined.

(** X21: when one result of the query carries an embedding and has no
    [id], [fetch_embeddings] returns no document at all, whatever the
    other results are. *)
Theorem result_without_id_discards_all
    self vector_store_id max_results before h after :
  search_by_vector self vector_store_id (repeat 0%Q 1536) max_results
    = Return (before ++ h :: after) ->
  carries_embedding h = true ->
  hit_id h = None ->
  result (fetch_embeddings self vector_store_id max_results) = Return [].
Proof.
  intros Hsearch Hc Hid. unfold fetch_embeddings. cbv zeta.
  match goal with |- context [try_except ?b ?h] => set (body := b); set (handler := h) end.
  assert (E : exists e, result body = Raise e).
  { subst body. rewrite result_bind, result_lift, Hsearch. cbn [obind].
    apply fetch_loop_nameless; assumption. }
  destruct E as (e & E).
  rewrite (@result_try_raise _ body handler e E). reflexivity.
Qed.

Lemma nameless_result_witness :
  result (fetch_embeddings MoreSamples.nameless_result "vs_1" 1000) = Return [].
Proof.
  eapply (result_without_id_discards_all MoreSamples.nameless_result "vs_1"%string
            1000%Z).
  - reflexivity.
  - reflexivity.
  - reflexivity.
Defined.

(** The lines [visualize_vector_store] prints before it fetches have no
    bearing on what it returns. *)
Lemma visualize_after_fetch self vector_store_id max_results output_file run_dash :
  exists docs,
    result (fetch_embeddings self vector_store_id max_results) = Return docs /\
    Forall (fun d => embedding d <> []) docs /\
    result (visualize_vector_store self vector_store_id max_results output_file run_dash)
    = match docs with
      | [] => Return None
      | _ :: _ =>
          embeddings_scaled <~ scaler_fit_transform self (map embedding docs) ;;
          reduced <~ result (reduce_dimensions self embeddings_scaled 3 15 (1 # 10)
                               "cosine") ;;
          match reduced with
          | None => Return None
          | Some reduced_embeddings =>
              labels <~ result (apply_clustering self reduced_embeddings 5 None (1 # 2)) ;;
              match labels with
              | None => Return None
              | Some cluster_labels =>
                  table <~ result (create_visualization_data docs reduced_embeddings
                                     cluster_labels) ;;
                  match table with
                  | None => Return None
                  | Some df =>
                      fig <~ result (generate_plotly_visualization self df output_file) ;;
                      match fig with
                      | None => Return None
                      | Some _ =>
                          _ <~ (if run_dash then
                                  app <~ result (create_dash_app self df) ;;
                                  match app with
                                  | Some app => run_server app
                                  | None => Return tt
                                  end
                                else Return tt) ;;
                          Return (Some df)
                      end
                  end
              end
          end
      end.
Proof.
  destruct (fetch_embeddings_result self vector_store_id max_results)
    as (docs & Hf & Hall).
  exists docs. split; [exact Hf |]. split; [exact Hall |].
  unfold visualize_vector_store.
  destruct (get_vector_store_info_returns self vector_store_id) as (info & Hinfo).
  rewrite result_bind, Hinfo. cbn [obind].
  rewrite !result_bind, !result_print. cbn [obind].
  rewrite Hf. cbn [obind].
  destruct docs as [| d ds]; [reflexivity |].
  rewrite result_bind, result_print. cbn [obind].
  rewrite result_bind, result_lift. unfold scaler_fit_transform.
  destruct (np_array self _) as [embeddings | e]; cbn [obind]; [| reflexivity].
  rewrite result_bind, result_print. cbn [obind].
  rewrite result_bind, result_lift.
  destruct (StandardScaler_fit_transform self embeddings) as [scaled | e];
    cbn [obind]; [| reflexivity].
  rewrite result_bind, result_print. cbn [obind]. rewrite result_bind.
  destruct (result (reduce_dimensions self scaled 3 15 (1 # 10) "cosine"))
    as [[reduced |] | e]; cbn [obind]; try reflexivity.
  rewrite result_bind, result_print. cbn [obind]. rewrite result_bind.
  destruct (result (apply_clustering self reduced 5 None (1 # 2)))
    as [[labels |] | e]; cbn [obind]; try reflexivity.
  rewrite result_bind, result_print. cbn [obind]. rewrite result_bind.
  destruct (result (create_visualization_data (d :: ds) reduced labels))
    as [[df |] | e]; cbn [obind]; try reflexivity.
  rewrite result_bind, result_print. cbn [obind]. rewrite result_bind.
  destruct (result (generate_plotly_visualization self df output_file))
    as [[fig |] | e]; cbn [obind]; try reflexivity.
  rewrite result_bind. destruct run_dash; [| reflexivity].
  rewrite result_bind, result_print. cbn [obind]. rewrite result_bind.
  destruct (result (create_dash_app self df)) as [[app |] | e]; cbn [obind];
    reflexivity.
Qed.

(** X22: a table returned by [visualize_vector_store] has one row per
    fetched document, and at least one. *)
Theorem visualized_table_has_a_row_per_document
    self vector_store_id max_results output_file run_dash df :
  result (visualize_vector_store self vector_store_id max_results output_file run_dash)
    = Return (Some df) ->
  exists docs,
    result (fetch_embeddings self vector_store_id max_results) = Return docs /\
    docs <> [] /\
    nrows df = List.length docs.
Proof.
  intros H.
  destruct (visualize_after_fetch self vector_store_id max_results output_file run_dash)
    as (docs & Hf & _ & Hv).
  rewrite Hv in H. clear Hv. exists docs. split; [exact Hf |].
  destruct docs as [| d ds]; [discriminate H |]. split; [discriminate |].
  destruct (scaler_fit_transform self _) as [scaled | e]; cbn [obind] in H;
    [| discriminate H].
  destruct (result (reduce_dimensions self scaled 3 15 (1 # 10) "cosine"))
    as [[reduced |] | e]; cbn [obind] in H; try discriminate H.
  destruct (result (apply_clustering self reduced 5 None (1 # 2)))
    as [[labels |] | e]; cbn [obind] in H; try discriminate H.
  destruct (result (create_visualization_data (d :: ds) reduced labels))
    as [[df' |] | e] eqn:Htable; cbn [obind] in H; try discriminate H.
  destruct (result (generate_plotly_visualization self df' output_file))
    as [[fig |] | e]; cbn [obind] in H; try discriminate H.
  match type of H with
  | obind ?m _ = _ => destruct m as [[] | e]; cbn [obind] in H; [| discriminate H]
  end.
  injection H as <-.
  destruct (returned_table _ _ _ _ Htable) as (cx & cy & cz & Hret).
  cbv zeta in Hret. destruct Hret as (_ & _ & _ & ->).
  cbn [nrows]. rewrite docs_nrows. reflexivity.
Qed.

Lemma visualized_rows_witness :
  exists docs,
    result (fetch_embeddings MoreSamples.small_store "vs_1" 1000) = Return docs /\
    docs <> [] /\
    nrows {| nrows := 2;
             columns :=
               [("x"%string, [VNum 0; VNum 0]); ("y"%string, [VNum 0; VNum 0]);
                ("z"%string, [VNum 0; VNum 0]);
                ("id"%string, [VStr "doc_0"; VStr "doc_1"]);
                ("filename"%string, [VStr "report.pdf"; VStr "Unknown"]);
                ("author"%string, [VStr "Alice"; VNone]);
                ("cluster"%string, [VInt 0; VInt 0]);
                ("text_preview"%string, [VStr "Quarterly report...."; VStr ""])] |}
    = List.length docs.
Proof.
  apply (visualized_table_has_a_row_per_document MoreSamples.small_store
           "vs_1"%string 1000%Z None false).
  vm_compute. reflexivity.
Defined.



(** X24: the scaling of the embeddings is not wrapped: when documents
    were fetched and it raises, [visualize_vector_store] raises the
    same exception instead of returning [None]. *)
Theorem scaling_error_propagates
    self vector_store_id max_results output_file run_dash docs e :
  result (fetch_embeddings self vector_store_id max_results) = Return docs ->
  docs <> [] ->
  scaler_fit_transform self (map embedding docs) = Raise e ->
  result (visualize_vector_store self vector_store_id max_results output_file run_dash)
  = Raise e.
Proof.
  intros Hf Hne Hscale.
  destruct (visualize_after_fetch self vector_store_id max_results output_file run_dash)
    as (docs' & Hf' & _ & ->).
  rewrite Hf in Hf'. injection Hf' as <-.
  destruct docs as [| d ds]; [congruence |].
  rewrite Hscale. reflexivity.
Qed.

Lemma scaling_error_witness :
  result (visualize_vector_store MoreSamples.ragged_store "vs_1" 1000 None false)
  = Raise (Exn ValueError "setting an array element with a sequence.").
Proof.
  eapply (scaling_error_propagates MoreSamples.ragged_store "vs_1"%string 1000%Z
            None false).
  - reflexivity.
  - discriminate.
  - reflexivity.
Defined.

(** X25: when nothing was fetched, because the store is empty or the
    query failed, [visualize_vector_store] returns [None] and the last
    line it prints says that no embeddings were found. *)
Theorem nothing_fetched_gives_no_table
    self vector_store_id max_results output_file run_dash :
  result (fetch_embeddings self vector_store_id max_results) = Return [] ->
  exists out,
    visualize_vector_store self vector_store_id max_results output_file run_dash
    = (out ++ [[Lit "No embeddings found or error occurred."]], Return None).
Proof.
  intros Hf. unfold visualize_vector_store.
  destruct (get_vector_store_info_returns self vector_store_id) as (info & Hinfo).
  destruct (get_vector_store_info self vector_store_id) as [o1 r1].
  cbn [result snd] in Hinfo. subst r1.
  destruct (fetch_embeddings self vector_store_id max_results) as [o2 r2].
  cbn [result snd] in Hf. subst r2.
  cbn [bind print ret app].
  match goal with
  | |- exists out, (o1 ++ ?l1 :: ?l2 :: ?l3 :: o2 ++ ?last, _) = _ =>
      exists (o1 ++ l1 :: l2 :: l3 :: o2)
  end.
  f_equal. rewrite <- app_assoc. reflexivity.
Qed.

Lemma nothing_fetched_witness :
  exists out,
    visualize_vector_store MoreSamples.unreachable_store "vs_1" 1000 None false
    = (out ++ [[Lit "No embeddings found or error occurred."]], Return None).
Proof.
  apply (nothing_fetched_gives_no_table MoreSamples.unreachable_store "vs_1"%string
           1000%Z None false).
  reflexivity.
Defined.

End PipelineSpec.

(* ===================================================================== *)
(** ** The [search] action when the search goes through *)
(* ===================================================================== *)

Module CliSpec.
Import Py Api FileSearch Cli Props MoreProps PyFacts.

(** The lines printed for a list of results that have content, from
    position [i0] on: five per result. *)
Lemma print_results_listing results :
  Forall (fun r => sr_content r <> []) results ->
  forall i0,
    exists out,
      print_results i0 results = (out, Return tt) /\
      List.length out = 5 * List.length results /\
      forall i r content rest,
        nth_error results i = Some r ->
        sr_content r = content :: rest ->
        firstn 5 (skipn (5 * i) out)
        = [[Lit "Result "; Fmt (VInt (Z.of_nat (i0 + i + 1))); Lit ":"];
           [Lit ("Filename: " ++ sr_filename r)];
           [Lit "Score: "; Fmt (VNum (sr_score r))];
           [Lit "Content length: ";
            Fmt (VInt (Z.of_nat (String.length (sc_text content))))];
           [Lit "---"]].
Proof.
  induction 1 as [| r0 results Hr _ IH]; intros i0.
  - exists []. split; [reflexivity |]. split; [reflexivity |].
    intros [| i] r content rest Hi; discriminate Hi.
  - destruct (IH (S i0)) as (out & Hrun & Hlen & Hlines).
    cbn [print_results]. unfold print_result, getitem.
    destruct (sr_content r0) as [| content0 rest0] eqn:Hcontent; [congruence |].
    cbn [nth_error lift bind print app]. rewrite Hrun.
    eexists. split; [reflexivity |]. split.
    + cbn [List.length]. rewrite Hlen. lia.
    + intros [| i] r content rest Hi Hc; cbn [nth_error] in Hi.
      * injection Hi as <-. rewrite Hcontent in Hc. injection Hc as <- <-.
        rewrite Nat.mul_0_r, Nat.add_0_r. reflexivity.
      * replace (5 * S i) with (S (S (S (S (S (5 * i)))))) by lia.
        cbn [skipn].
        replace (i0 + S i + 1) with (S i0 + i + 1) by lia.
        exact (Hlines i r content rest Hi Hc).
Qed.

(** X26: when the vector search returns results that all have content,
    the [search] action returns after printing five lines per result
    and nothing else: for the result at position [i], counted from 0,
    the lines [Result <i+1>:], [Filename: <filename>], [Score: <score>],
    [Content length: <length of the text of its first content>] and
    [---]. *)
Theorem search_action_lists_every_result search_api store query page :
  missing (Some store) = false ->
  missing (Some query) = false ->
  vector_stores_search search_api store query = Return page ->
  Forall (fun r => sr_content r <> []) (data page) ->
  result (main_search search_api (Some store) (Some query)) = Return tt /\
  List.length (stdout (main_search search_api (Some store) (Some query)))
  = 5 * List.length (data page) /\
  forall i r content rest,
    nth_error (data page) i = Some r ->
    sr_content r = content :: rest ->
    firstn 5 (skipn (5 * i)
                (stdout (main_search search_api (Some store) (Some query))))
    = [[Lit "Result "; Fmt (VInt (Z.of_nat (i + 1))); Lit ":"];
       [Lit ("Filename: " ++ sr_filename r)];
       [Lit "Score: "; Fmt (VNum (sr_score r))];
       [Lit "Content length: ";
        Fmt (VInt (Z.of_nat (String.length (sc_text content))))];
       [Lit "---"]].
Proof.
  intros Hs Hq Hcall Hall.
  destruct (print_results_listing (data page) Hall 0) as (out & Hrun & Hlen & Hlines).
  unfold main_search, vector_search. rewrite Hs, Hq, Hcall.
  cbn [orb lift bind try_except ret app]. rewrite Hrun.
  split; [reflexivity |]. split; [exact Hlen |].
  intros i r content rest Hi Hc. cbn [stdout fst].
  exact (Hlines i r content rest Hi Hc).
Qed.

Lemma search_action_listing_witness :
  result (main_search MoreSamples.searchable (Some "vs_1"%string)
            (Some "what is a?"%string)) = Return tt /\
  List.length (stdout (main_search MoreSamples.searchable (Some "vs_1"%string)
                         (Some "what is a?"%string)))
  = 5 * List.length
          (data {| data :=
                     [{| sr_filename := "a.pdf"; sr_score := (9 # 10)%Q;
                         sr_content := [{| sc_text := "Text of a." |}] |};
                      {| sr_filename := "b.pdf"; sr_score := (7 # 10)%Q;
                         sr_content := [{| sc_text := "Text of b." |}] |}] |}) /\
  forall i r content rest,
    nth_error
      (data {| data :=
                 [{| sr_filename := "a.pdf"; sr_score := (9 # 10)%Q;
                     sr_content := [{| sc_text := "Text of a." |}] |};
                  {| sr_filename := "b.pdf"; sr_score := (7 # 10)%Q;
                     sr_content := [{| sc_text := "Text of b." |}] |}] |}) i
      = Some r ->
    sr_content r = content :: rest ->
    firstn 5 (skipn (5 * i)
                (stdout (main_search MoreSamples.searchable (Some "vs_1"%string)
                           (Some "what is a?"%string))))
    = [[Lit "Result "; Fmt (VInt (Z.of_nat (i + 1))); Lit ":"];
       [Lit ("Filename: " ++ sr_filename r)];
       [Lit "Score: "; Fmt (VNum (sr_score r))];
       [Lit "Content length: ";
        Fmt (VInt (Z.of_nat (String.length (sc_text content))))];
       [Lit "---"]].
Proof.
  apply (search_action_lists_every_result MoreSamples.searchable "vs_1"%string
           "what is a?"%string).
  - reflexivity.
  - reflexivity.
  - reflexivity.
  - repeat constructor; discriminate.
Defined.

End CliSpec.

(* ===================================================================== *)
(** ** Tables with missing coordinates *)
(* ===================================================================== *)

Module CoordinateSpec.
Import Py Visualizer Props MoreProps PyFacts TableFacts TableSpec CellFacts.

Lemma width_of_bounds rows :
  Forall (fun r : list Q => List.length r <= 3) rows ->
  Exists (fun r : list Q => List.length r = 3) rows ->
  width rows = 3.
Proof.
  intros Hle Hex. induction Hle as [| r rows Hr Hrows IH].
  - inversion Hex.
  - cbn [width fold_right]. fold (width rows).
    assert (Hw : width rows <= 3).
    { clear - Hrows. induction Hrows as [| r' rows' Hr' _ IH']; cbn; [lia |].
      fold (width rows'). lia. }
    inversion Hex as [? ? Hhd | ? ? Htl]; subst; [lia |].
    rewrite (IH Htl). lia.
Qed.

Lemma DataFrame_of_array_padded rows :
  rows = [] \/ width rows = 3 ->
  DataFrame_of_array rows ["x"; "y"; "z"]%string
  = Return {| nrows := List.length rows;
              columns := [("x"%string, array_column rows 0);
                          ("y"%string, array_column rows 1);
                          ("z"%string, array_column rows 2)] |}.
Proof.
  intros [-> | Hw]; [reflexivity |].
  unfold DataFrame_of_array. destruct rows as [| r rows]; [reflexivity |].
  rewrite Hw. reflexivity.
Qed.

Lemma setitem_enlarges df key vals :
  nrows df = 0 ->
  List.length vals <> 0 ->
  setitem df key vals
  = Return {| nrows := List.length vals;
              columns :=
                set_column key vals
                  (map (fun c => (fst c, repeat VNaN (List.length vals)))
                       (columns df)) |}.
Proof.
  intros Hz Hv. unfold setitem. rewrite Hz.
  apply Nat.eqb_neq in Hv. rewrite Hv. reflexivity.
Qed.

(** The rest of [create_visualization_data], once the table has its
    rows. *)
Lemma table_from_start embeddings_data cluster_labels cx cy cz (df0 : DataFrame) ids :
  List.length cluster_labels = List.length embeddings_data ->
  ids = map (fun d => VStr (id d)) embeddings_data ->
  setitem df0 "id" ids
  = Return {| nrows := List.length embeddings_data;
              columns := [("x"%string, cx); ("y"%string, cy); ("z"%string, cz);
                          ("id"%string, ids)] |} ->
  let start :=
    {| nrows := List.length embeddings_data;
       columns :=
         [("x"%string, cx); ("y"%string, cy); ("z"%string, cz);
          ("id"%string, map (fun d => VStr (id d)) embeddings_data);
          ("filename"%string, map (fun d => VStr (filename d)) embeddings_data)] |} in
  result
    (df <- lift (setitem df0 "id" ids) ;;
     df <- lift (setitem df "filename"
                   (map (fun d => VStr (filename d)) embeddings_data)) ;;
     let df := add_metadata 0 embeddings_data df in
     df <- lift (setitem df "cluster" (map VInt cluster_labels)) ;;
     df <- lift (setitem df "text_preview"
                   (map (fun d => VStr (text_preview (text d))) embeddings_data)) ;;
     ret (Some df))
  = Return (Some
      {| nrows := nrows (add_metadata 0 embeddings_data start);
         columns :=
           set_column "text_preview"
             (map (fun d => VStr (text_preview (text d))) embeddings_data)
             (set_column "cluster" (map VInt cluster_labels)
                (columns (add_metadata 0 embeddings_data start))) |}).
Proof.
  intros Hc -> Hid start. rewrite Hid. cbn [lift bind app].
  rewrite setitem_returns by (cbn [nrows]; apply length_map).
  cbn [lift bind app nrows columns].
  simpl (set_column "filename" _ _). fold start.
  assert (Hn : nrows (add_metadata 0 embeddings_data start)
               = List.length embeddings_data) by apply docs_nrows.
  cbv zeta.
  rewrite setitem_returns by (rewrite length_map; congruence).
  cbn [lift bind app nrows columns].
  rewrite setitem_returns by (cbn [nrows]; rewrite length_map; congruence).
  reflexivity.
Qed.

(** X27: for as many cluster labels as documents, metadata without a
    key named [x], [y], [z], [id] or [filename], and reduced embeddings
    that are either none at all or one per document, none with more
    than three coordinates and one with exactly three,
    [create_visualization_data] returns a table with one row per
    document; row [i] carries the id and the filename of its document,
    and under [x], [y], [z] the coordinates of [reduced_embeddings[i]],
    with [nan] for every coordinate that is not there. *)
Theorem missing_coordinates_are_nan
    embeddings_data reduced_embeddings cluster_labels :
  List.length cluster_labels = List.length embeddings_data ->
  Forall metadata_apart embeddings_data ->
  reduced_embeddings = [] \/
  (List.length reduced_embeddings = List.length embeddings_data /\
   Forall (fun r : list Q => List.length r <= 3) reduced_embeddings /\
   Exists (fun r : list Q => List.length r = 3) reduced_embeddings) ->
  exists df,
    result (create_visualization_data embeddings_data reduced_embeddings cluster_labels)
      = Return (Some df) /\
    nrows df = List.length embeddings_data /\
    forall i d,
      nth_error embeddings_data i = Some d ->
      cell df i "x" = Some (coordinate reduced_embeddings i 0) /\
      cell df i "y" = Some (coordinate reduced_embeddings i 1) /\
      cell df i "z" = Some (coordinate reduced_embeddings i 2) /\
      cell df i "id" = Some (VStr (id d)) /\
      cell df i "filename" = Some (VStr (filename d)).
Proof.
  intros Hc Hm Hshape.
  set (n := List.length embeddings_data) in *.
  set (ids := map (fun d => VStr (id d)) embeddings_data).
  assert (Hstart : exists cx cy cz,
             setitem {| nrows := List.length reduced_embeddings;
                        columns := [("x"%string, array_column reduced_embeddings 0);
                                    ("y"%string, array_column reduced_embeddings 1);
                                    ("z"%string, array_column reduced_embeddings 2)] |}
               "id" ids
             = Return {| nrows := n;
                         columns := [("x"%string, cx); ("y"%string, cy);
                                     ("z"%string, cz); ("id"%string, ids)] |} /\
             forall i, i < n ->
               nth_error cx i = Some (coordinate reduced_embeddings i 0) /\
               nth_error cy i = Some (coordinate reduced_embeddings i 1) /\
               nth_error cz i = Some (coordinate reduced_embeddings i 2)).
  { assert (Hids : List.length ids = n) by (subst ids; apply length_map).
    assert (Harr : forall j i, i < List.length reduced_embeddings ->
              nth_error (array_column reduced_embeddings j) i
              = Some (coordinate reduced_embeddings i j)).
    { intros j i Hi. unfold array_column, coordinate. rewrite nth_error_map.
      destruct (nth_error reduced_embeddings i) as [r |] eqn:E; [reflexivity |].
      apply nth_error_None in E. lia. }
    destruct (Nat.eq_dec (List.length reduced_embeddings) n) as [Hr | Hr].
    - exists (array_column reduced_embeddings 0), (array_column reduced_embeddings 1),
             (array_column reduced_embeddings 2).
      split.
      + rewrite setitem_returns by (cbn [nrows]; congruence).
        cbn [nrows columns]. rewrite Hr. reflexivity.
      + intros i Hi. rewrite !Harr by lia. repeat split; reflexivity.
    - destruct Hshape as [-> | (Hr' & _)]; [| congruence].
      cbn [List.length] in Hr.
      exists (repeat VNaN n), (repeat VNaN n), (repeat VNaN n).
      split.
      + rewrite setitem_enlarges by (cbn [nrows List.length]; congruence).
        rewrite Hids. reflexivity.
      + intros i Hi. unfold coordinate.
        replace (nth_error (@nil (list Q)) i) with (@None (list Q))
          by (destruct i; reflexivity).
        rewrite nth_error_repeat by exact Hi. repeat split; reflexivity. }
  destruct Hstart as (cx & cy & cz & Hid & Hcells).
  assert (Hw : reduced_embeddings = [] \/ width reduced_embeddings = 3).
  { destruct Hshape as [-> | (_ & Hle & Hex)]; [left; reflexivity | right].
    apply width_of_bounds; assumption. }
  pose proof (@table_from_start embeddings_data cluster_labels cx cy cz _ ids
                Hc eq_refl Hid) as Hrun.
  cbv zeta in Hrun.
  match type of Hrun with
  | context [add_metadata 0 embeddings_data ?s] => set (start := s) in *
  end.
  destruct (add_metadata_keeps embeddings_data 0 start) as (Hn & _ & Hk).
  assert (Hbase : forall key', In key' base_columns ->
                    dict_get key' (columns (add_metadata 0 embeddings_data start))
                    = dict_get key' (columns start)).
  { intros key' Hin. apply Hk. apply apart_from_base; assumption. }
  eexists. split.
  - unfold create_visualization_data. apply result_try_return.
    rewrite result_bind, result_lift, (DataFrame_of_array_padded _ Hw).
    cbn [obind]. exact Hrun.
  - split; [exact Hn |].
    intros i d Hd.
    assert (Hi : i < n) by (apply nth_error_Some; congruence).
    destruct (Hcells i Hi) as (Hx & Hy & Hz).
    unfold cell. cbn [columns].
    repeat split.
    + base_cell Hbase. exact Hx.
    + base_cell Hbase. exact Hy.
    + base_cell Hbase. exact Hz.
    + base_cell Hbase. rewrite nth_error_map, Hd. reflexivity.
    + base_cell Hbase. rewrite nth_error_map, Hd. reflexivity.
Qed.

Lemma missing_coordinates_witness :
  exists df,
    result (create_visualization_data [Samples.report; Samples.report]
              [[1; 2]; [4; 5; 6]]%Q [0; 1]%Z)
      = Return (Some df) /\
    nrows df = List.length [Samples.report; Samples.report] /\
    forall i d,
      nth_error [Samples.report; Samples.report] i = Some d ->
      cell df i "x" = Some (coordinate [[1; 2]; [4; 5; 6]]%Q i 0) /\
      cell df i "y" = Some (coordinate [[1; 2]; [4; 5; 6]]%Q i 1) /\
      cell df i "z" = Some (coordinate [[1; 2]; [4; 5; 6]]%Q i 2) /\
      cell df i "id" = Some (VStr (id d)) /\
      cell df i "filename" = Some (VStr (filename d)).
Proof.
  apply (missing_coordinates_are_nan [Samples.report; Samples.report]
           [[1; 2]; [4; 5; 6]]%Q [0; 1]%Z).
  - reflexivity.
  - repeat constructor; intros key v Hin Hbase; simpl in Hin, Hbase;
      decompose [or] Hin; decompose [or] Hbase; try contradiction; congruence.
  - right. split; [reflexivity |]. split.
    + repeat constructor.
    + apply Exists_cons_tl. apply Exists_cons_hd. reflexivity.
Defined.

End CoordinateSpec.
